(** * Ocean Provider: request authorisation and safe download gateway

    A shallow embedding of
      - [ocean_provider/utils/url.py]   (SSRF screen and content probe),
      - [ocean_provider/utils/util.py]  (download responder),
      - [ocean_provider/routes/consume.py] and
        [ocean_provider/routes/compute.py] (the HTTP routes),
    together with the statements of the specification that concern them.

    Python values are modelled as follows.  Text is [string]; a value that
    may be [None] is an [option]; a [dict] with text keys is a [gmap string];
    an exception raised by a call is the [Raise] outcome of the effect monad
    [M], which threads the process state (nonce table, log of the upstream
    HTTP requests issued so far).  Everything outside the process (DNS,
    upstream HTTP servers, the provider wallet, the signature check, hash
    and MIME tables) is gathered in the record [Env]. *)

From Stdlib Require Import ZArith Ascii String List Lia Bool.
From stdpp Require Import base option list gmap strings.

Local Open Scope Z_scope.

(** ** Python text operations

    A text is a sequence of code points below 256 (ASCII and Latin-1):
    a [string], each [ascii] being the code point.  The character classes
    below are the ones CPython 3.11 gives these code points. *)

Module PyStr.

Definition chr (n : nat) : ascii := ascii_of_nat n.
Definition ord (c : ascii) : nat := nat_of_ascii c.

Definition ch_eqb (a b : ascii) : bool := Ascii.eqb a b.

(** [bool(s)] for a text value. *)
Definition truthy (s : string) : bool :=
  match s with EmptyString => false | String _ _ => true end.

(** [bool(v)] for a value that is [None] or text. *)
Definition truthy_opt (v : option string) : bool :=
  match v with None => false | Some s => truthy s end.

Definition is_digit (c : ascii) : bool :=
  (48 <=? ord c)%nat && (ord c <=? 57)%nat.

Definition is_upper (c : ascii) : bool :=
  (65 <=? ord c)%nat && (ord c <=? 90)%nat.

Definition is_lower (c : ascii) : bool :=
  (97 <=? ord c)%nat && (ord c <=? 122)%nat.

Definition is_alpha (c : ascii) : bool := is_upper c || is_lower c.

Definition is_hex_digit (c : ascii) : bool :=
  is_digit c
  || ((65 <=? ord c)%nat && (ord c <=? 70)%nat)
  || ((97 <=? ord c)%nat && (ord c <=? 102)%nat).

(** The upper-case letters of Latin-1 above ASCII: U+00C0 to U+00DE
    without the multiplication sign U+00D7. *)
Definition is_latin1_upper (c : ascii) : bool :=
  (192 <=? ord c)%nat && (ord c <=? 222)%nat && negb (ord c =? 215)%nat.

(** [c.lower()] *)
Definition to_lower (c : ascii) : ascii :=
  if is_upper c || is_latin1_upper c then chr (ord c + 32) else c.

(** [c.isnumeric()]: the digits, the superscripts U+00B2, U+00B3 and
    U+00B9, and the fractions U+00BC, U+00BD and U+00BE. *)
Definition is_numeric (c : ascii) : bool :=
  is_digit c
  || (ord c =? 178)%nat || (ord c =? 179)%nat || (ord c =? 185)%nat
  || (ord c =? 188)%nat || (ord c =? 189)%nat || (ord c =? 190)%nat.

Fixpoint forallb_str (p : ascii -> bool) (s : string) : bool :=
  match s with
  | EmptyString => true
  | String c s' => p c && forallb_str p s'
  end.

Fixpoint existsb_str (p : ascii -> bool) (s : string) : bool :=
  match s with
  | EmptyString => false
  | String c s' => p c || existsb_str p s'
  end.

(** [c in s] for a one-character [c]. *)
Definition contains (c : ascii) (s : string) : bool :=
  existsb_str (ch_eqb c) s.

(** [s.lower()] *)
Fixpoint lower (s : string) : string :=
  match s with
  | EmptyString => EmptyString
  | String c s' => String (to_lower c) (lower s')
  end.

(** [s.replace(c, "")] for a one-character [c]. *)
Fixpoint remove (c : ascii) (s : string) : string :=
  match s with
  | EmptyString => EmptyString
  | String d s' => if ch_eqb d c then remove c s' else String d (remove c s')
  end.

(** [s.isnumeric()]: at least one character, all numeric. *)
Definition isnumeric (s : string) : bool :=
  truthy s && forallb_str is_numeric s.

(** [s.isascii() and s.isdigit()]: at least one character, all ASCII
    digits. *)
Definition isdigit (s : string) : bool :=
  truthy s && forallb_str is_digit s.

(** [s.split(sep)] for a one-character separator: never empty. *)
Fixpoint split (sep : ascii) (s : string) : list string :=
  match s with
  | EmptyString => [EmptyString]
  | String c s' =>
      if ch_eqb c sep then EmptyString :: split sep s'
      else match split sep s' with
           | [] => [String c EmptyString]
           | h :: t => String c h :: t
           end
  end.

(** [s.split(sep, 1)]: at most one cut. *)
Fixpoint split1 (sep : ascii) (s : string) : list string :=
  match s with
  | EmptyString => [EmptyString]
  | String c s' =>
      if ch_eqb c sep then [EmptyString; s']
      else match split1 sep s' with
           | [] => [String c EmptyString]
           | h :: t => String c h :: t
           end
  end.

(** [s.lstrip(chars)] with the set of characters given as a predicate. *)
Fixpoint lstrip (p : ascii -> bool) (s : string) : string :=
  match s with
  | EmptyString => EmptyString
  | String c s' => if p c then lstrip p s' else s
  end.

(** [s.rstrip(chars)]. *)
Fixpoint rstrip (p : ascii -> bool) (s : string) : string :=
  match s with
  | EmptyString => EmptyString
  | String c s' =>
      match rstrip p s' with
      | EmptyString => if p c then EmptyString else String c EmptyString
      | r => String c r
      end
  end.

(** Whitespace of [str.strip()]: U+0009 to U+000D, U+001C to U+0020,
    U+0085 and U+00A0. *)
Definition is_space (c : ascii) : bool :=
  ((9 <=? ord c)%nat && (ord c <=? 13)%nat)
  || ((28 <=? ord c)%nat && (ord c <=? 32)%nat)
  || (ord c =? 133)%nat || (ord c =? 160)%nat.

Definition strip (s : string) : string := rstrip is_space (lstrip is_space s).

(** [s.startswith(p)]. *)
Definition startswith (p s : string) : bool := String.prefix p s.

(** The list of one-character texts a [for c in s] loop visits. *)
Fixpoint chars (s : string) : list string :=
  match s with
  | EmptyString => []
  | String c s' => String c EmptyString :: chars s'
  end.

(** [l[-1]] for a non-empty list, with a default for the empty one. *)
Definition last_or (d : string) (l : list string) : string := List.last l d.

(** [int(s, 10)] on a text of decimal digits. *)
Definition digit_val (c : ascii) : Z := Z.of_nat (ord c) - 48.

Fixpoint int10_acc (acc : Z) (s : string) : Z :=
  match s with
  | EmptyString => acc
  | String c s' => int10_acc (10 * acc + digit_val c) s'
  end.

Definition int10 (s : string) : Z := int10_acc 0 s.

(** [int(s, 16)] on a text of hexadecimal digits. *)
Definition hex_val (c : ascii) : Z :=
  if is_digit c then Z.of_nat (ord c) - 48
  else if is_upper c then Z.of_nat (ord c) - 55
  else Z.of_nat (ord c) - 87.

Fixpoint int16_acc (acc : Z) (s : string) : Z :=
  match s with
  | EmptyString => acc
  | String c s' => int16_acc (16 * acc + hex_val c) s'
  end.

Definition int16 (s : string) : Z := int16_acc 0 s.

End PyStr.

(** ** [ipaddress]: parsing and the three classification flags

    [validate_dns_record] calls [ipaddress.ip_address(value)] and reads
    [is_private], [is_reserved] and [is_loopback].  The model follows the
    [ipaddress] module of CPython 3.11: an address is its integer value, a
    network a base address with a prefix length, [ValueError] is [None]. *)

Module Ipaddress.
Import PyStr.

Inductive IPAddress :=
| IPv4Address (ip : Z)
| IPv6Address (ip : Z).

(** [IPv4Address._parse_octet] *)
Definition parse_octet (octet_str : string) : option Z :=
  if negb (truthy octet_str) then None
  else if negb (isdigit octet_str) then None
  else if (3 <? String.length octet_str)%nat then None
  else if negb (String.eqb octet_str "0")
          && match octet_str with String "0" _ => true | _ => false end
  then None
  else let octet_int := int10 octet_str in
       if 255 <? octet_int then None else Some octet_int.

(** [int.from_bytes(octets, 'big')] *)
Definition from_bytes_big (l : list Z) : Z :=
  fold_left (fun acc b => 256 * acc + b) l 0.

(** [IPv4Address._ip_int_from_string] *)
Definition ipv4_int_from_string (ip_str : string) : option Z :=
  if negb (truthy ip_str) then None
  else
    let octets := split "." ip_str in
    if negb (length octets =? 4)%nat then None
    else from_bytes_big <$> mapM parse_octet octets.

(** [IPv4Address(address)] for a text argument. *)
Definition ipv4_of_string (address : string) : option Z :=
  if contains "/" address then None else ipv4_int_from_string address.

(** [IPv6Address._parse_hextet]; [int('', 16)] raises. *)
Definition parse_hextet (hextet_str : string) : option Z :=
  if negb (forallb_str is_hex_digit hextet_str) then None
  else if (4 <? String.length hextet_str)%nat then None
  else if negb (truthy hextet_str) then None
  else Some (int16 hextet_str).

Definition hex_digit (n : Z) : ascii :=
  if n <? 10 then chr (Z.to_nat (48 + n)) else chr (Z.to_nat (87 + n)).

(** ['%x' % n] for [0 <= n <= 0xFFFF]. *)
Definition hex4 (n : Z) : string :=
  let ds := String (hex_digit (Z.land (Z.shiftr n 12) 15))
           (String (hex_digit (Z.land (Z.shiftr n 8) 15))
           (String (hex_digit (Z.land (Z.shiftr n 4) 15)) EmptyString)) in
  lstrip (ch_eqb "0") ds +:+ String (hex_digit (Z.land n 15)) EmptyString.

(** The indices [i] of [range(1, len(parts) - 1)] with [parts[i]] empty. *)
Definition inner_empty (parts : list string) : list nat :=
  filter (fun i => parts !! i = Some EmptyString)
         (seq 1 (length parts - 2)).

Definition hextets (l : list string) : option Z :=
  fold_left
    (fun acc p =>
       ip_int ← acc; h ← parse_hextet p;
       Some (Z.lor (Z.shiftl ip_int 16) h))
    l (Some 0).

Definition hextets_onto (ip_int : Z) (l : list string) : option Z :=
  fold_left
    (fun acc p =>
       ip ← acc; h ← parse_hextet p; Some (Z.lor (Z.shiftl ip 16) h))
    l (Some ip_int).

Definition is_empty (s : string) : bool := negb (truthy s).

(** [IPv6Address._ip_int_from_string] *)
Definition ipv6_int_from_string (ip_str : string) : option Z :=
  if negb (truthy ip_str) then None
  else
    let parts := split ":" ip_str in
    if (length parts <? 3)%nat then None
    else
      parts ← (let lastp := last_or EmptyString parts in
               if contains "." lastp then
                 ipv4_int ← ipv4_of_string lastp;
                 Some (removelast parts
                         ++ [hex4 (Z.land (Z.shiftr ipv4_int 16) 65535);
                             hex4 (Z.land ipv4_int 65535)])
               else Some parts);
      if (9 <? length parts)%nat then None
      else
        let n := length parts in
        let first := default EmptyString (head parts) in
        let lastp := last_or EmptyString parts in
        '(parts_hi, parts_lo, parts_skipped) ←
          match inner_empty parts with
          | [] =>
              if negb (n =? 8)%nat then None
              else if is_empty first then None
              else if is_empty lastp then None
              else Some (n, 0%nat, 0%nat)
          | [skip_index] =>
              let hi := skip_index in
              let lo := (n - skip_index - 1)%nat in
              hi ← (if is_empty first
                    then (if (hi - 1 =? 0)%nat then Some (hi - 1)%nat else None)
                    else Some hi);
              lo ← (if is_empty lastp
                    then (if (lo - 1 =? 0)%nat then Some (lo - 1)%nat else None)
                    else Some lo);
              if (8 - (hi + lo) <? 1)%nat then None
              else Some (hi, lo, (8 - (hi + lo))%nat)
          | _ => None
          end;
        ip_int ← hextets (take parts_hi parts);
        hextets_onto (Z.shiftl ip_int (16 * Z.of_nat parts_skipped))
                     (drop (n - parts_lo) parts).

(** [IPv6Address._split_scope_id]: the address part, when the scope
    identifier (if any) is well-formed. *)
Definition split_scope_id (ip_str : string) : option string :=
  match split1 "%" ip_str with
  | [addr] => Some addr
  | [addr; scope_id] =>
      if is_empty scope_id || contains "%" scope_id then None else Some addr
  | _ => None
  end.

(** [IPv6Address(address)] for a text argument. *)
Definition ipv6_of_string (address : string) : option Z :=
  if contains "/" address then None
  else addr_str ← split_scope_id address; ipv6_int_from_string addr_str.

(** [ipaddress.ip_address] *)
Definition ip_address (address : string) : option IPAddress :=
  match ipv4_of_string address with
  | Some ip => Some (IPv4Address ip)
  | None =>
      match ipv6_of_string address with
      | Some ip => Some (IPv6Address ip)
      | None => None
      end
  end.

(** A network: base address and prefix length; [addr in net]. *)
Definition in_network (width : Z) (ip : Z) (net : Z * Z) : bool :=
  Z.shiftr ip (width - net.2) =? Z.shiftr net.1 (width - net.2).

Definition v4 (a b c d : Z) : Z := from_bytes_big [a; b; c; d].

Definition v6 (h : list Z) : Z :=
  fold_left (fun acc x => Z.lor (Z.shiftl acc 16) x) h 0.

Definition v4_private_networks : list (Z * Z) :=
  [ (v4 0 0 0 0, 8); (v4 10 0 0 0, 8); (v4 127 0 0 0, 8);
    (v4 169 254 0 0, 16); (v4 172 16 0 0, 12); (v4 192 0 0 0, 24);
    (v4 192 0 0 170, 31); (v4 192 0 2 0, 24); (v4 192 168 0 0, 16);
    (v4 198 18 0 0, 15); (v4 198 51 100 0, 24); (v4 203 0 113 0, 24);
    (v4 240 0 0 0, 4); (v4 255 255 255 255, 32) ].

Definition v4_private_networks_exceptions : list (Z * Z) :=
  [ (v4 192 0 0 9, 32); (v4 192 0 0 10, 32) ].

Definition v4_reserved_network : Z * Z := (v4 240 0 0 0, 4).
Definition v4_loopback_network : Z * Z := (v4 127 0 0 0, 8).

Definition v6_private_networks : list (Z * Z) :=
  [ (v6 [0; 0; 0; 0; 0; 0; 0; 1], 128);
    (v6 [0; 0; 0; 0; 0; 0; 0; 0], 128);
    (v6 [0; 0; 0; 0; 0; 0xffff; 0; 0], 96);
    (v6 [0x64; 0xff9b; 1; 0; 0; 0; 0; 0], 48);
    (v6 [0x100; 0; 0; 0; 0; 0; 0; 0], 64);
    (v6 [0x2001; 0; 0; 0; 0; 0; 0; 0], 23);
    (v6 [0x2001; 0xdb8; 0; 0; 0; 0; 0; 0], 32);
    (v6 [0x2002; 0; 0; 0; 0; 0; 0; 0], 16);
    (v6 [0xfc00; 0; 0; 0; 0; 0; 0; 0], 7);
    (v6 [0xfe80; 0; 0; 0; 0; 0; 0; 0], 10) ].

Definition v6_private_networks_exceptions : list (Z * Z) :=
  [ (v6 [0x2001; 1; 0; 0; 0; 0; 0; 1], 128);
    (v6 [0x2001; 1; 0; 0; 0; 0; 0; 2], 128);
    (v6 [0x2001; 3; 0; 0; 0; 0; 0; 0], 32);
    (v6 [0x2001; 4; 0x112; 0; 0; 0; 0; 0], 48);
    (v6 [0x2001; 0x20; 0; 0; 0; 0; 0; 0], 28);
    (v6 [0x2001; 0x30; 0; 0; 0; 0; 0; 0], 28) ].

Definition v6_reserved_networks : list (Z * Z) :=
  [ (v6 [0; 0; 0; 0; 0; 0; 0; 0], 8);
    (v6 [0x100; 0; 0; 0; 0; 0; 0; 0], 8);
    (v6 [0x200; 0; 0; 0; 0; 0; 0; 0], 7);
    (v6 [0x400; 0; 0; 0; 0; 0; 0; 0], 6);
    (v6 [0x800; 0; 0; 0; 0; 0; 0; 0], 5);
    (v6 [0x1000; 0; 0; 0; 0; 0; 0; 0], 4);
    (v6 [0x4000; 0; 0; 0; 0; 0; 0; 0], 3);
    (v6 [0x6000; 0; 0; 0; 0; 0; 0; 0], 3);
    (v6 [0x8000; 0; 0; 0; 0; 0; 0; 0], 3);
    (v6 [0xA000; 0; 0; 0; 0; 0; 0; 0], 3);
    (v6 [0xC000; 0; 0; 0; 0; 0; 0; 0], 3);
    (v6 [0xE000; 0; 0; 0; 0; 0; 0; 0], 4);
    (v6 [0xF000; 0; 0; 0; 0; 0; 0; 0], 5);
    (v6 [0xF800; 0; 0; 0; 0; 0; 0; 0], 6);
    (v6 [0xFE00; 0; 0; 0; 0; 0; 0; 0], 9) ].

Definition v4_is_private (ip : Z) : bool :=
  existsb (in_network 32 ip) v4_private_networks
  && forallb (fun net => negb (in_network 32 ip net))
             v4_private_networks_exceptions.

(** [IPv6Address.ipv4_mapped] *)
Definition ipv4_mapped (ip : Z) : option Z :=
  if Z.shiftr ip 32 =? 0xFFFF then Some (Z.land ip 0xFFFFFFFF) else None.

Definition is_private (a : IPAddress) : bool :=
  match a with
  | IPv4Address ip => v4_is_private ip
  | IPv6Address ip =>
      match ipv4_mapped ip with
      | Some m => v4_is_private m
      | None =>
          existsb (in_network 128 ip) v6_private_networks
          && forallb (fun net => negb (in_network 128 ip net))
                     v6_private_networks_exceptions
      end
  end.

Definition is_reserved (a : IPAddress) : bool :=
  match a with
  | IPv4Address ip => in_network 32 ip v4_reserved_network
  | IPv6Address ip => existsb (in_network 128 ip) v6_reserved_networks
  end.

Definition is_loopback (a : IPAddress) : bool :=
  match a with
  | IPv4Address ip => in_network 32 ip v4_loopback_network
  | IPv6Address ip => ip =? 1
  end.

(** The three flags [validate_dns_record] reads: private, reserved,
    loopback. *)
Definition flags (a : IPAddress) : bool * bool * bool :=
  (is_private a, is_reserved a, is_loopback a).

End Ipaddress.

(** ** [urllib.parse.urlparse], scheme and network location

    The two fields [is_safe_schema] and [is_safe_url] read.  The model
    follows [urlsplit] of CPython 3.11 (3.11.2 with the check of
    bracketed hosts): leading control characters and spaces are dropped, tabs and line breaks removed, a scheme is a
    letter followed by scheme characters up to the first colon, and the
    network location runs from a leading [//] to the first of [/], [?],
    [#].  An unbalanced square bracket in the network location raises
    [ValueError], and so does a bracketed host that is neither an IPv6
    address nor an IPvFuture address; [ValueError] is the [None] result
    here. *)

Module Urllib.
Import PyStr.

Record ParseResult := { scheme : string; netloc : string }.

Definition is_c0_or_space (c : ascii) : bool := (ord c <=? 32)%nat.

Definition is_scheme_char (c : ascii) : bool :=
  is_alpha c || is_digit c || contains c "+-.".

(** [(url[:i], url[i+1:])] for [i = url.find(c)], when [c] occurs. *)
Fixpoint cut_at (c : ascii) (s : string) : option (string * string) :=
  match s with
  | EmptyString => None
  | String d s' =>
      if ch_eqb d c then Some (EmptyString, s')
      else match cut_at c s' with
           | Some (a, b) => Some (String d a, b)
           | None => None
           end
  end.

Definition split_scheme (url : string) : string * string :=
  match cut_at ":" url with
  | Some (String c0 pre, rest) =>
      if is_alpha c0 && forallb_str is_scheme_char (String c0 pre)
      then (lower (String c0 pre), rest)
      else (EmptyString, url)
  | _ => (EmptyString, url)
  end.

(** [_splitnetloc(url, 2)[0]] applied to the text after the [//]. *)
Fixpoint splitnetloc (s : string) : string :=
  match s with
  | EmptyString => EmptyString
  | String c s' =>
      if contains c "/?#" then EmptyString else String c (splitnetloc s')
  end.

Definition bad_brackets (netloc : string) : bool :=
  (contains "[" netloc && negb (contains "]" netloc))
  || (contains "]" netloc && negb (contains "[" netloc)).

(** [s.rpartition(c)[2]]: what follows the last [c], or all of [s]. *)
Fixpoint after_last (c : ascii) (s : string) : string :=
  match s with
  | EmptyString => EmptyString
  | String d s' =>
      if contains c s' then after_last c s'
      else if ch_eqb d c then s' else s
  end.

(** [re.match(r"\Av[a-fA-F0-9]+\..+\Z", hostname)] for a host name that
    starts with [v]: hexadecimal digits, a dot, and at least one more
    character, none a line feed. *)
Definition is_ipvfuture (hostname : string) : bool :=
  match hostname with
  | String "v" rest =>
      match rest with
      | String c _ => is_hex_digit c
      | EmptyString => false
      end
      && match lstrip is_hex_digit rest with
         | String "." tail => truthy tail && negb (contains "010" tail)
         | _ => false
         end
  | _ => false
  end.

(** [_check_bracketed_host]: [true] when it returns. *)
Definition _check_bracketed_host (hostname : string) : bool :=
  if startswith "v" hostname then is_ipvfuture hostname
  else match Ipaddress.ip_address hostname with
       | Some (Ipaddress.IPv6Address _) => true
       | _ => false
       end.

(** [_check_bracketed_netloc]: [true] when it returns. *)
Definition _check_bracketed_netloc (netloc : string) : bool :=
  let hostname_and_port := after_last "@" netloc in
  match cut_at "[" hostname_and_port with
  | Some (before_bracket, bracketed) =>
      if truthy before_bracket then false
      else
        let '(hostname, port) :=
          match cut_at "]" bracketed with
          | Some (hostname, port) => (hostname, port)
          | None => (bracketed, EmptyString)
          end in
        if truthy port && negb (startswith ":" port) then false
        else _check_bracketed_host hostname
  | None =>
      let hostname :=
        match cut_at ":" hostname_and_port with
        | Some (hostname, _) => hostname
        | None => hostname_and_port
        end in
      _check_bracketed_host hostname
  end.

Definition urlparse (url : string) : option ParseResult :=
  let url := lstrip is_c0_or_space url in
  let url := remove "010" (remove "013" (remove "009" url)) in
  let '(sch, rest) := split_scheme url in
  match rest with
  | String "/" (String "/" r) =>
      let nl := splitnetloc r in
      if bad_brackets nl then None
      else if contains "[" nl && contains "]" nl
              && negb (_check_bracketed_netloc nl)
      then None
      else Some {| scheme := sch; netloc := nl |}
  | _ => Some {| scheme := sch; netloc := EmptyString |}
  end.

End Urllib.

(** ** Values, exceptions and the world outside the process *)

Definition bytes := list Byte.byte.

#[global] Instance byte_eq_dec : EqDecision Byte.byte := Byte.byte_eq_dec.

(** The exceptions the modelled code raises, catches or lets through.
    [HTTPError] is the subclass of [requests.exceptions.RequestException]
    that [raise_for_status] raises. *)
Inductive exn :=
| ValueError (msg : string)
| TypeError (msg : string)
| AttributeError (msg : string)
| KeyError (msg : string)
| RequestException (msg : string)
| HTTPError (status : Z)
| InvalidSignatureError (msg : string)
| OtherException (msg : string).

(** [isinstance(e, requests.exceptions.RequestException)] *)
Definition is_RequestException (e : exn) : bool :=
  match e with
  | RequestException _ | HTTPError _ => true
  | _ => false
  end.

(** [isinstance(e, InvalidSignatureError)] *)
Definition is_InvalidSignatureError (e : exn) : bool :=
  match e with InvalidSignatureError _ => true | _ => false end.

(** [str(e)] *)
Definition exn_str (e : exn) : string :=
  match e with
  | ValueError m | TypeError m | AttributeError m | KeyError m
  | RequestException m
  | InvalidSignatureError m | OtherException m => m
  | HTTPError _ => "HTTPError"
  end.

#[local] Set Warnings "-register-all".

(** JSON documents as [json.loads] returns them: objects are [dict]s. *)
Inductive json :=
| JNull
| JBool (b : bool)
| JNum (n : Z)
| JStr (s : string)
| JList (l : list json)
| JDict (d : gmap string json).

(** A [dict] whose values are text or [None]. *)
Abbreviation odict := (gmap string (option string)).

Definition json_of_opt (v : option string) : json :=
  match v with None => JNull | Some s => JStr s end.

(** An upstream HTTP response ([requests.Response]).  Header names are
    case-insensitive: the map is keyed by the lower-case name.  [content]
    is the decoded body; [chunk_lengths chunk_size] gives the lengths of
    the items in which [iter_content(chunk_size)] delivers it, which the
    transport and the content decoding decide and which need not be
    [chunk_size]. *)
Record Response := {
  status_code : Z;
  headers : gmap string string;
  content : bytes;
  chunk_lengths : positive -> list nat
}.

(** [result.headers.get(name)] *)
Definition headers_get (name : string) (r : Response) : option string :=
  headers r !! PyStr.lower name.

(** One call of [requests.<method>] or [requests_session.<method>]. *)
Record HttpRequest := {
  method : string;
  url : string;
  params : gmap string string;
  req_headers : odict;
  req_data : option json;
  stream : bool;
  timeout : option Z
}.

Inductive DnsOutcome :=
| DnsAnswer (rrset : list string)
| DnsRaise (e : exn).

Inductive HttpOutcome :=
| HttpOk (r : Response)
| HttpRaise (e : exn).

(** [get_config()] *)
Record Config := {
  allow_non_public_ip : bool;
  requests_timeout : Z;
  requests_chunk_size : positive;
  operator_service_url : string
}.

(** What lies outside the process.  [dns_resolve domain record_type] is
    [DNS_RESOLVER.resolve(domain, record_type, search=True)] on a resolver
    that [dns.resolver.Resolver()] has returned, each record given by its
    [to_text()] (the construction of the resolver, which may raise, is in
    module [Resolving]); [http_send history req] is the
    answer of the upstream server to [req] after the requests of [history]
    were issued.  [sha256_hexdigest] is the digest [hashlib] computes,
    [mimetypes_guess_type] and [mimetypes_guess_extension] the first
    component of [mimetypes.guess_type] and [mimetypes.guess_extension],
    [content_disposition_filename] the [filename] parameter
    [cgi.parse_header] finds, [json_loads] is [json.loads] after decoding
    ([None] when either raises), [prepare_url] is
    [PreparedRequest.prepare_url].  [provider_address], [sign_message] and
    [verify_signature_check] stand for the provider wallet and
    [ocean_provider.utils.accounts]; [asset_download_urls] for the lookup
    and decryption of the file list of an asset and [get_download_url] for
    the URL the storage driver generates, each of which may raise. *)
Record Env := {
  config : Config;
  dns_resolve : string -> string -> DnsOutcome;
  http_send : list HttpRequest -> HttpRequest -> HttpOutcome;
  sha256_hexdigest : bytes -> string;
  mimetypes_guess_type : string -> option string;
  mimetypes_guess_extension : string -> option string;
  content_disposition_filename : string -> option string;
  json_loads : bytes -> option json;
  provider_address : string;
  sign_message : string -> string;
  verify_signature_check :
    option string -> option string -> string -> Z -> option exn;
  prepare_url : string -> odict -> string;
  asset_download_urls : string -> exn + list string;
  get_download_url : option string -> exn + string
}.

(** ** Process state and the effect monad *)

(** The nonce table and the log of upstream HTTP requests, oldest first. *)
Record World := {
  nonces : gmap (option string) Z;
  http_log : list HttpRequest
}.

Inductive outcome (A : Type) :=
| Ret (a : A)
| Raise (e : exn).
Arguments Ret {A} a.
Arguments Raise {A} e.

Definition M (A : Type) : Type := World -> outcome A * World.

Definition ret {A} (a : A) : M A := fun w => (Ret a, w).
Definition raise {A} (e : exn) : M A := fun w => (Raise e, w).

Definition bind {A B} (m : M A) (k : A -> M B) : M B :=
  fun w =>
    match m w with
    | (Ret a, w') => k a w'
    | (Raise e, w') => (Raise e, w')
    end.

(** [try: m except <handles>: handler] *)
Definition try_except {A} (m : M A) (handles : exn -> bool)
    (handler : exn -> M A) : M A :=
  fun w =>
    match m w with
    | (Ret a, w') => (Ret a, w')
    | (Raise e, w') => if handles e then handler e w' else (Raise e, w')
    end.

Declare Scope M_scope.
Delimit Scope M_scope with M.
Bind Scope M_scope with M.

Notation "x <~ m ;; k" := (bind m (fun x => k))
  (at level 100, m at next level, right associativity) : M_scope.
Notation "m ;; k" := (bind m (fun _ => k))
  (at level 100, right associativity) : M_scope.

Local Open Scope M_scope.

(** ** [ocean_provider/utils/url.py] *)

Module Url.
Import PyStr.

(** What [validate_dns_records] iterates over: the records of a DNS
    answer, or a text, whose elements are its characters. *)
Inductive Records :=
| Answer (rrset : list string)
| Text (s : string).

(** One element of the iteration: a record object (given by its
    [to_text()]) or a [str]. *)
Inductive DnsRecord :=
| Rdata (to_text : string)
| Str (s : string).

(** [for record in records] *)
Definition iterate (records : Records) : list DnsRecord :=
  match records with
  | Answer rrset => Rdata <$> rrset
  | Text s => Str <$> chars s
  end.

(** The body in pieces of the given lengths; what the lengths leave
    over comes as a last piece. *)
Fixpoint cut (lengths : list nat) (body : bytes) : list bytes :=
  match lengths with
  | [] => match body with [] => [] | _ :: _ => [body] end
  | n :: rest => take n body :: cut rest (drop n body)
  end.

(** [r.iter_content(chunk_size)]: the items, some possibly empty. *)
Definition iter_content (chunk_size : positive) (r : Response)
  : list bytes :=
  cut (chunk_lengths r chunk_size) (content r).

(** A [hashlib.sha256()] object is the bytes fed to it so far. *)
Definition sha_new : bytes := [].
Definition sha_update (sha chunk : bytes) : bytes := sha ++ chunk.

Section WithEnv.
Context (E : Env).

Definition is_safe_schema (url : string) : bool :=
  match Urllib.urlparse url with
  | Some result =>
      truthy (Urllib.scheme result) && truthy (Urllib.netloc result)
  | None => false
  end.

Definition is_ip (address : string) : bool :=
  isnumeric (remove "." address).

(** The [try] statement of [_get_records], on a constructed resolver. *)
Definition _get_records (domain record_type : string) : option Records :=
  match dns_resolve E domain record_type with
  | DnsAnswer rrset => Some (Answer rrset)
  | DnsRaise _ => None
  end.

Definition validate_dns_record (record : DnsRecord)
    (domain record_type : string) : bool :=
  let value :=
    match record with Str s => s | Rdata to_text => strip to_text end in
  let allow_non_public_ip := allow_non_public_ip (config E) in
  match Ipaddress.ip_address value with
  | Some ip =>
      if Ipaddress.is_private ip || Ipaddress.is_reserved ip
         || Ipaddress.is_loopback ip
      then if allow_non_public_ip then true else false
      else true
  | None => false
  end.

Fixpoint validate_each (domain record_type : string)
    (l : list DnsRecord) : bool :=
  match l with
  | [] => true
  | record :: rest =>
      if negb (validate_dns_record record domain record_type) then false
      else validate_each domain record_type rest
  end.

Definition validate_dns_records (domain : string)
    (records : option Records) (record_type : string) : bool :=
  match records with
  | None => true
  | Some rs => validate_each domain record_type (iterate rs)
  end.

Definition is_safe_domain (domain : string) : bool :=
  let ip_v4_records := _get_records domain "A" in
  let ip_v6_records := _get_records domain "AAAA" in
  let result :=
    validate_dns_records domain ip_v4_records "A"
    && validate_dns_records domain ip_v6_records "AAAA" in
  if negb (is_ip domain) then result
  else result && validate_dns_records domain (Some (Text domain)) "".

(** The second [urlparse] cannot raise once [is_safe_schema] holds. *)
Definition is_safe_url (url : string) : bool :=
  if negb (is_safe_schema url) then false
  else match Urllib.urlparse url with
       | Some result => is_safe_domain (Urllib.netloc result)
       | None => false
       end.

(** Issue one upstream request: it is logged, then answered. *)
Definition send (req : HttpRequest) : M Response :=
  fun w =>
    let w' := {| nonces := nonces w; http_log := http_log w ++ [req] |} in
    match http_send E (http_log w) req with
    | HttpOk r => (Ret r, w')
    | HttpRaise e => (Raise e, w')
    end.

(** [func(url, timeout=timeout, headers={"Accept-Encoding": "identity"})] *)
Definition probe_request (meth url : string) : HttpRequest :=
  {| method := meth; url := url; params := ∅;
     req_headers := {[ "Accept-Encoding"%string := Some "identity"%string ]};
     req_data := None; stream := false;
     timeout := Some (requests_timeout (config E)) |}.

(** [requests.get(url, stream=True, timeout=timeout)] *)
Definition fallback_request (url : string) : HttpRequest :=
  {| method := "get"; url := url; params := ∅; req_headers := ∅;
     req_data := None; stream := true;
     timeout := Some (requests_timeout (config E)) |}.

(** [requests.get(url, stream=True)] *)
Definition checksum_request (url : string) : HttpRequest :=
  {| method := "get"; url := url; params := ∅; req_headers := ∅;
     req_data := None; stream := true; timeout := None |}.

Definition sufficient (result : Response) : bool :=
  (status_code result =? 200)
  && (truthy_opt (headers_get "Content-Type" result)
      || truthy_opt (headers_get "Content-Range" result))
  && truthy_opt (headers_get "Content-Length" result).

(** The loop [for method in ["head", "options"]]: the first response
    it returns, if any. *)
Fixpoint probe_loop (methods : list string) (url : string)
    (with_checksum : bool) : M (option Response) :=
  match methods with
  | [] => ret None
  | meth :: rest =>
      result <~ send (probe_request meth url) ;;
      if negb with_checksum && sufficient result then ret (Some result)
      else probe_loop rest url with_checksum
  end.

(** [r.raise_for_status()] *)
Definition raise_for_status (r : Response) : M unit :=
  if (400 <=? status_code r) && (status_code r <? 600)
  then raise (HTTPError (status_code r)) else ret tt.

Definition _get_result_from_url (url : string) (with_checksum : bool)
  : M (Response * gmap string string) :=
  let chunk_size := requests_chunk_size (config E) in
  found <~ probe_loop ["head"; "options"]%string url with_checksum ;;
  match found with
  | Some result => ret (result, ∅)
  | None =>
      if negb with_checksum then
        r <~ send (fallback_request url) ;; ret (r, ∅)
      else
        r <~ send (checksum_request url) ;;
        raise_for_status r ;;
        let sha :=
          fold_left sha_update (iter_content chunk_size r) sha_new in
        ret (r, {[ "checksum"%string := sha256_hexdigest E sha;
                   "checksumType"%string := "sha256"%string ]})
  end.

(** [x or ""] *)
Definition or_empty (v : option string) : string :=
  match v with
  | Some s => if truthy s then s else EmptyString
  | None => EmptyString
  end.

(** The block under [if result.status_code == 200:] of
    [check_url_details]; [None] when control falls through to the
    final [return False, {}]. *)
Definition describe (result : Response) (extra_data : gmap string string)
  : option (bool * gmap string string) :=
  if status_code result =? 200 then
    let content_type := headers_get "Content-Type" result in
    let content_length := headers_get "Content-Length" result in
    let content_range := headers_get "Content-Range" result in
    let content_length :=
      if negb (truthy_opt content_length) && truthy_opt content_range
      then match split "-" (default EmptyString content_range) !! 1%nat with
           | Some x => Some x
           | None => content_length
           end
      else content_length in
    let content_type :=
      if truthy_opt content_type
      then head (split ";" (default EmptyString content_type))
      else content_type in
    if truthy_opt content_type || truthy_opt content_length then
      let details : gmap string string :=
        {[ "contentLength"%string := or_empty content_length;
           "contentType"%string := or_empty content_type ]} in
      let details :=
        if bool_decide (extra_data = ∅) then details
        else extra_data ∪ details in
      Some (true, details)
    else None
  else None.

(** The body of the [try] of [check_url_details]. *)
Definition check_url_details_try (url : string) (with_checksum : bool)
  : M (option (bool * gmap string string)) :=
  if negb (is_safe_url url) then ret (Some (false, ∅))
  else
    res <~ _get_result_from_url url with_checksum ;;
    let '(result, extra_data) := res in
    ret (describe result extra_data).

Definition check_url_details (url : string) (with_checksum : bool)
  : M (bool * gmap string string) :=
  r <~ try_except (check_url_details_try url with_checksum)
         is_RequestException (fun _ => ret None) ;;
  match r with
  | Some v => ret v
  | None => ret (false, ∅)
  end.

End WithEnv.
End Url.

(** ** The framework's request and response objects *)

(** [werkzeug.datastructures.Range]: the unit and the list of ranges. *)
Record RangeSpec := {
  units : string;
  ranges : list (Z * option Z)
}.

(** The [flask.request] fields the code reads.  [args] are the query
    arguments and [json_body] the JSON body, an object with text fields;
    [request_headers] is keyed by the lower-case header name; [range] is
    the framework's parse of the [Range] header: [None] when the header is
    absent or is not a well-formed range specification, a [Range] object
    (always truthy) otherwise. *)
Record FlaskRequest := {
  args : gmap string string;
  json_body : gmap string string;
  request_headers : gmap string string;
  range : option RangeSpec
}.

(** The first argument of [flask.Response]: bytes relayed as they are, the
    text [json.dumps(v)], or a generator of chunks. *)
Inductive Body :=
| RawBytes (b : bytes)
| JsonDumps (v : json)
| Stream (chunks : list bytes).

(** [flask.Response(body, status, headers=..., content_type=...)] *)
Record FlaskResponse := {
  resp_body : Body;
  resp_status : Z;
  resp_headers : odict;
  resp_content_type : option string
}.

(** ** [ocean_provider/user_nonce.py] *)

Module UserNonce.

(** Modelled from the spec: the module [ocean_provider.user_nonce] is not
    part of the sources at hand.  The specification gives
    [getNonce(identity)]: the current nonce of the identity, 0 when the
    identity has not been seen. *)
Definition get_nonce (address : option string) : M Z :=
  fun w => (Ret (default 0 (nonces w !! address)), w).

(** Modelled from the spec: [incrementNonce(identity)] advances the
    stored nonce of the identity by 1. *)
Definition increment_nonce (address : option string) : M unit :=
  fun w =>
    (Ret tt,
     {| nonces := <[address := default 0 (nonces w !! address) + 1]> (nonces w);
        http_log := http_log w |}).

End UserNonce.

(** ** [ocean_provider/utils/util.py] *)

Module Util.
Import PyStr.

(** [p.rfind(c)], [-1] when [c] does not occur. *)
Fixpoint rfind_from (c : ascii) (s : string) (i : Z) (acc : Z) : Z :=
  match s with
  | EmptyString => acc
  | String d s' => rfind_from c s' (i + 1) (if ch_eqb d c then i else acc)
  end.

Definition rfind (c : ascii) (s : string) : Z := rfind_from c s 0 (-1).

(** [p[i:j]] for [0 <= i]. *)
Definition slice (i j : Z) (p : string) : string :=
  String.substring (Z.to_nat i) (Z.to_nat (j - i)) p.

(** [os.path.splitext(p)[1]] (POSIX): the extension starts at the last
    dot of the last path component, unless only dots precede it. *)
Definition splitext_ext (p : string) : string :=
  let sepIndex := rfind "/" p in
  let dotIndex := rfind "." p in
  if sepIndex <? dotIndex then
    if existsb_str (fun d => negb (ch_eqb d "."))
                   (slice (sepIndex + 1) dotIndex p)
    then slice dotIndex (Z.of_nat (String.length p)) p
    else EmptyString
  else EmptyString.

(** [request.args if request.args else request.json], for a request
    that has query arguments or a JSON object as its body; module [Bare]
    has the request with neither, whose [request.json] is [None]. *)
Definition get_request_data (request : FlaskRequest) : gmap string string :=
  if bool_decide (args request = ∅) then json_body request else args request.

(** The chunks [_generate] yields: the non-empty ones. *)
Definition _generate (response : Response) : list bytes :=
  filter (fun chunk => chunk ≠ []) (Url.iter_content 4096 response).

(** A context [dict] as a JSON object. *)
Definition json_of_context (context : odict) : json :=
  JDict (json_of_opt <$> context).

Definition service_unavailable (error : exn) (context : odict)
  : FlaskResponse :=
  {| resp_body :=
       JsonDumps (JDict {[ "error"%string := JStr (exn_str error);
                           "context"%string := json_of_context context ]});
     resp_status := 503;
     resp_headers :=
       {[ "content-type"%string := Some "application/json"%string ]};
     resp_content_type := None |}.

Section WithEnv.
Context (E : Env).

(** The file name before reconciliation: the last path segment of the
    URL, or the [filename] parameter of the upstream
    [Content-Disposition] header when there is one. *)
Definition derived_filename (url : string) (response : Response)
  : string :=
  let filename := last_or EmptyString (split "/" url) in
  let content_disposition_header :=
    headers_get "content-disposition" response in
  if truthy_opt content_disposition_header then
    let content_filename :=
      content_disposition_filename E
        (default EmptyString content_disposition_header) in
    if truthy_opt content_filename
    then default EmptyString content_filename else filename
  else filename.

(** The content type before reconciliation: the upstream
    [Content-Type] header when there is one, else the declared type. *)
Definition known_content_type (response : Response)
    (content_type : option string) : option string :=
  let content_type_header := headers_get "content-type" response in
  if truthy_opt content_type_header then content_type_header
  else content_type.

(** The non-range branch: file name and content type of the answer. *)
Definition reconcile (url : string) (response : Response)
    (content_type : option string) : string * option string :=
  let filename := derived_filename url response in
  let content_type := known_content_type response content_type in
  let file_ext := splitext_ext filename in
  if truthy file_ext && negb (truthy_opt content_type) then
    (filename, mimetypes_guess_type E filename)
  else if negb (truthy file_ext) && truthy_opt content_type then
    let extension :=
      mimetypes_guess_extension E (default EmptyString content_type) in
    if truthy_opt extension
    then (filename +:+ default EmptyString extension, content_type)
    else (filename, content_type)
  else (filename, content_type).

(** The headers of the non-range answer. *)
Definition attachment_headers (filename : string) : odict :=
  {[ "Content-Disposition"%string :=
       Some ("attachment;filename=" +:+ filename);
     "Access-Control-Expose-Headers"%string :=
       Some "Content-Disposition"%string;
     "Connection"%string := Some "close"%string ]}.

(** [requests_session.get(download_url,
    headers=download_request_headers, stream=True, timeout=3)] *)
Definition download_request (download_url : string)
    (download_request_headers : odict) : HttpRequest :=
  {| method := "get"; url := download_url; params := ∅;
     req_headers := download_request_headers; req_data := None;
     stream := true; timeout := Some 3 |}.

Definition build_download_response_try (request : FlaskRequest)
    (url download_url : string) (content_type : option string)
  : M FlaskResponse :=
  if negb (Url.is_safe_url E url)
  then raise (ValueError ("Unsafe url " +:+ url))
  else
    let is_range_request := bool_decide (is_Some (range request)) in
    let download_request_headers : odict :=
      if is_range_request
      then {[ "Range"%string := request_headers request !! "range"%string ]}
      else ∅ in
    let download_response_headers := download_request_headers in
    response <~ Url.send E
      (download_request download_url download_request_headers) ;;
    let '(download_response_headers, content_type) :=
      if negb is_range_request then
        let '(filename, content_type) :=
          reconcile url response content_type in
        (attachment_headers filename, content_type)
      else (download_response_headers, content_type) in
    ret {| resp_body := Stream (_generate response);
           resp_status := status_code response;
           resp_headers := download_response_headers;
           resp_content_type := content_type |}.

(** [except Exception as e: logger.error(...); raise] *)
Definition build_download_response (request : FlaskRequest)
    (url download_url : string) (content_type : option string)
  : M FlaskResponse :=
  try_except (build_download_response_try request url download_url
                content_type)
    (fun _ => true) (fun e => raise e).

Definition get_compute_endpoint : string :=
  operator_service_url (config E) +:+ "/api/v1/operator/compute".

Definition get_compute_result_endpoint : string :=
  operator_service_url (config E) +:+ "/api/v1/operator/getResult".

(** [body[key] = v] when [v is not None] *)
Definition set_if_present (key : string) (v : option string)
    (body : gmap string string) : gmap string string :=
  match v with Some x => <[key := x]> body | None => body end.

Definition process_compute_request (data : gmap string string)
  : gmap string string :=
  let did := data !! "documentId"%string in
  let owner := data !! "consumerAddress"%string in
  let job_id := data !! "jobId"%string in
  let tx_id := data !! "transferTxId"%string in
  let body : gmap string string :=
    {[ "providerAddress"%string := provider_address E ]} in
  let body := set_if_present "owner" owner body in
  let body := set_if_present "jobId" job_id body in
  let body := set_if_present "agreementId" tx_id body in
  let body := set_if_present "documentId" did body in
  let msg_to_sign :=
    provider_address E
    +:+ default EmptyString (body !! "jobId"%string)
    +:+ default EmptyString (body !! "documentId"%string) in
  <["providerSignature"%string := sign_message E msg_to_sign]> body.

End WithEnv.
End Util.

(** ** [ocean_provider/routes/consume.py] and [routes/compute.py]

    The route functions as they run once their [@validate] decorator,
    whose rules are not among the sources, has let the request through. *)

Module Routes.
Import PyStr.

Definition standard_headers : odict :=
  {[ "Content-type"%string := Some "application/json"%string;
     "Connection"%string := Some "close"%string ]}.

Definition json_headers : odict :=
  {[ "content-type"%string := Some "application/json"%string ]}.

(** [f"{v}"] for a value that is text or [None]. *)
Definition fmt (v : option string) : string := default "None"%string v.

Definition keys_to_filter : list string :=
  ["resultsUrl"; "algorithmLogUrl"; "resultsDid"]%string.

(** [for k in keys_to_filter: job_info.pop(k, None)]: only a [dict] has
    a two-argument [pop]. *)
Definition pop_keys (job_info : json) : exn + json :=
  match job_info with
  | JDict d => inr (JDict (foldr delete d keys_to_filter))
  | JList _ => inl (TypeError "pop expected at most 1 argument, got 2")
  | _ => inl (AttributeError "object has no attribute 'pop'")
  end.

(** The loop over [resp_content]: it stops at the first exception. *)
Fixpoint filter_jobs (resp_content : list json) : exn + list json :=
  match resp_content with
  | [] => inr []
  | job_info :: rest =>
      match pop_keys job_info with
      | inl e => inl e
      | inr job_info' =>
          match filter_jobs rest with
          | inl e => inl e
          | inr rest' => inr (job_info' :: rest')
          end
      end
  end.

Definition of_sum {A} (r : exn + A) : M A :=
  match r with inl e => raise e | inr a => ret a end.

(** The request data as the context of an error answer. *)
Definition context_of (data : gmap string string) : odict := Some <$> data.

Section WithEnv.
Context (E : Env).

(** [verify_signature(owner, signature, original_msg, nonce)]: returns,
    or raises what the check reports. *)
Definition verify_signature (owner signature : option string)
    (original_msg : string) (nonce : Z) : M unit :=
  match verify_signature_check E owner signature original_msg nonce with
  | None => ret tt
  | Some e => raise e
  end.

(** [GET /nonce] *)
Definition nonce (request : FlaskRequest) : M FlaskResponse :=
  let data := Util.get_request_data request in
  let address := data !! "userAddress"%string in
  nonce <~ UserNonce.get_nonce address ;;
  ret {| resp_body := JsonDumps (JDict {[ "nonce"%string := JNum nonce ]});
         resp_status := 200;
         resp_headers := json_headers;
         resp_content_type := None |}.

(** The loop of [fileinfo] over [enumerate(url_list)]. *)
Fixpoint fileinfo_loop (i : Z) (url_list : list string)
    (with_checksum : bool) : M (list json) :=
  match url_list with
  | [] => ret []
  | url :: rest =>
      r <~ Url.check_url_details E url with_checksum ;;
      let '(valid, details) := r in
      let info : gmap string json :=
        (JStr <$> details)
        ∪ {[ "index"%string := JNum i; "valid"%string := JBool valid ]} in
      infos <~ fileinfo_loop (i + 1) rest with_checksum ;;
      ret (JDict info :: infos)
  end.

(** [POST /fileinfo] *)
Definition fileinfo (request : FlaskRequest) : M FlaskResponse :=
  let data := Util.get_request_data request in
  let did := data !! "did"%string in
  let url := data !! "url"%string in
  url_list <~
    (if truthy_opt did
     then of_sum (asset_download_urls E (default EmptyString did))
     else (u <~ of_sum (get_download_url E url) ;; ret [u])) ;;
  let with_checksum := truthy_opt (data !! "checksum"%string) in
  files_info <~ fileinfo_loop 0 url_list with_checksum ;;
  ret {| resp_body := JsonDumps (JList files_info);
         resp_status := 200;
         resp_headers := json_headers;
         resp_content_type := None |}.

(** A call [requests_session.<meth>(get_compute_endpoint(),
    params=body, headers=standard_headers)]. *)
Definition operator_request (meth : string) (body : gmap string string)
  : HttpRequest :=
  {| method := meth; url := Util.get_compute_endpoint E; params := body;
     req_headers := standard_headers; req_data := None;
     stream := false; timeout := None |}.

Definition relay (response : Response) : FlaskResponse :=
  {| resp_body := RawBytes (content response);
     resp_status := status_code response;
     resp_headers := standard_headers;
     resp_content_type := None |}.

(** The body of the [try] of [computeDelete] and [computeStop]. *)
Definition compute_forward (meth : string) (data : gmap string string)
  : M FlaskResponse :=
  let body := Util.process_compute_request E data in
  response <~ Url.send E (operator_request meth body) ;;
  match body !! "owner"%string with
  | None => raise (KeyError "owner")
  | Some owner =>
      UserNonce.increment_nonce (Some owner) ;;
      ret (relay response)
  end.

(** [DELETE /compute] *)
Definition computeDelete (request : FlaskRequest) : M FlaskResponse :=
  let data := Util.get_request_data request in
  try_except (compute_forward "delete" data) (fun _ => true)
    (fun e => ret (Util.service_unavailable e (context_of data))).

(** [PUT /compute] *)
Definition computeStop (request : FlaskRequest) : M FlaskResponse :=
  let data := Util.get_request_data request in
  try_except (compute_forward "put" data) (fun _ => true)
    (fun e => ret (Util.service_unavailable e (context_of data))).

(** The back-compatibility section of [computeStatus]: the final value
    of [signed_request]. *)
Definition check_signed (data : gmap string string) : M bool :=
  let signed_request := truthy_opt (data !! "signature"%string) in
  if signed_request then
    let owner := data !! "consumerAddress"%string in
    let did := data !! "documentId"%string in
    let jobId := data !! "jobId"%string in
    let original_msg := fmt owner +:+ fmt jobId +:+ fmt did in
    signed_request <~
      try_except
        (n <~ UserNonce.get_nonce owner ;;
         verify_signature owner (data !! "signature"%string)
           original_msg n ;;
         ret true)
        is_InvalidSignatureError (fun _ => ret false) ;;
    UserNonce.increment_nonce owner ;;
    ret signed_request
  else ret false.

(** The body of the [try] of [computeStatus]. *)
Definition computeStatus_try (data : gmap string string)
  : M FlaskResponse :=
  let body := Util.process_compute_request E data in
  response <~ Url.send E (operator_request "get" body) ;;
  signed_request <~ check_signed data ;;
  if negb signed_request then
    match json_loads E (content response) with
    | None => raise (ValueError "JSONDecodeError")
    | Some resp_content =>
        let resp_content :=
          match resp_content with
          | JList l => l
          | v => [v]
          end in
        _response <~ of_sum (filter_jobs resp_content) ;;
        ret {| resp_body := JsonDumps (JList _response);
               resp_status := status_code response;
               resp_headers := standard_headers;
               resp_content_type := None |}
    end
  else ret (relay response).

(** [GET /compute] *)
Definition computeStatus (request : FlaskRequest) : M FlaskResponse :=
  let data := Util.get_request_data request in
  try_except (computeStatus_try data) (fun _ => true)
    (fun e => ret (Util.service_unavailable e (context_of data))).

(** The URL [computeResult] builds for the operator service. *)
Definition compute_result_url (data : gmap string string) : string :=
  let url := Util.get_compute_result_endpoint E in
  let msg_to_sign :=
    fmt (data !! "jobId"%string) +:+ fmt (data !! "index"%string)
    +:+ fmt (data !! "consumerAddress"%string) in
  let provider_signature := sign_message E msg_to_sign in
  let params : odict :=
    {[ "index"%string := data !! "index"%string;
       "consumerAddress"%string := data !! "consumerAddress"%string;
       "jobId"%string := data !! "jobId"%string;
       "consumerSignature"%string := data !! "signature"%string;
       "providerSignature"%string := Some provider_signature ]} in
  prepare_url E url params.

(** The context of the error answer of [computeResult]. *)
Definition compute_result_context (data : gmap string string) : odict :=
  {[ "jobId"%string := data !! "jobId"%string;
     "index"%string := data !! "index"%string;
     "consumerAddress"%string := data !! "consumerAddress"%string ]}.

(** [GET /computeResult] *)
Definition computeResult (request : FlaskRequest) : M FlaskResponse :=
  let data := Util.get_request_data request in
  let result_url := compute_result_url data in
  UserNonce.increment_nonce (data !! "consumerAddress"%string) ;;
  try_except
    (Util.build_download_response E request result_url result_url None)
    (fun _ => true)
    (fun e =>
       ret (Util.service_unavailable e (compute_result_context data))).

End WithEnv.
End Routes.

(** ** Concrete surroundings for examples *)

Module Sample.

Definition b (s : string) : bytes := String.list_byte_of_string s.

Definition cfg (allow : bool) : Config :=
  {| allow_non_public_ip := allow;
     requests_timeout := 5;
     requests_chunk_size := 4;
     operator_service_url := "http://operator" |}.

(** A resolver that knows two names and fails on every other query. *)
Definition dns (domain record_type : string) : DnsOutcome :=
  if String.eqb domain "example.com" then
    if String.eqb record_type "A" then DnsAnswer ["93.184.216.34 "%string]
    else DnsRaise (OtherException "NoAnswer")
  else if String.eqb domain "intranet.test" then
    if String.eqb record_type "A" then DnsAnswer ["10.0.0.5"%string]
    else DnsAnswer ["fd00::5"%string]
  else DnsRaise (OtherException "NXDOMAIN").

Definition plain (status : Z) (hs : gmap string string) (body : string)
  : Response :=
  {| status_code := status; headers := hs; content := b body;
     chunk_lengths := fun chunk_size =>
       repeat (Pos.to_nat chunk_size)
         (length (b body) / Pos.to_nat chunk_size)%nat |}.

Definition text_headers : gmap string string :=
  {[ "content-type"%string := "text/plain; charset=utf-8"%string;
     "content-length"%string := "11"%string ]}.

Definition jobs_json : json :=
  JList [ JDict {[ "jobId"%string := JStr "j1";
                   "status"%string := JNum 70;
                   "resultsUrl"%string := JStr "http://r/1";
                   "algorithmLogUrl"%string := JStr "http://r/log";
                   "resultsDid"%string := JStr "did:op:1" ]} ].

(** Upstream servers: a text file, a file without headers, a resource
    that answers only [GET], and the operator service. *)
Definition http (history : list HttpRequest) (req : HttpRequest)
  : HttpOutcome :=
  if String.eqb (url req) "http://example.com/hello" then
    if String.eqb (method req) "get"
    then match req_headers req !! "Range"%string with
         | Some _ =>
             HttpOk (plain 206 {[ "content-range"%string :=
                                    "bytes 0-4/11"%string ]} "hello")
         | None => HttpOk (plain 200 text_headers "hello world")
         end
    else HttpOk (plain 200 text_headers "")
  else if String.eqb (url req) "http://example.com/notes" then
    HttpOk (plain 200 {[ "content-type"%string := "text/plain"%string ]}
              "abc")
  else if String.eqb (url req) "http://example.com/bare" then
    HttpOk (plain 200 ∅ "hello world")
  else if String.eqb (url req) "http://example.com/report.csv" then
    HttpOk (plain 200 ∅ "a,b")
  else if String.eqb (url req) "http://operator/api/v1/operator/compute" then
    HttpOk (plain 200 ∅ "[jobs]")
  else HttpRaise (RequestException "connection refused").

(** A digest table: the SHA-256 of the two bodies the examples hash. *)
Definition digest (body : bytes) : string :=
  if bool_decide (body = b "hello world")
  then "b94d27b9934d3e08a52e52d7da7dabfac484efe37a5380ee9088f7ace2efcde9"
  else if bool_decide (body = [])
  then "e3b0c44298fc1c149afbf4c8996fb92427ae41e4649b934ca495991b7852b855"
  else "".

Definition guess_type (filename : string) : option string :=
  if String.eqb (Util.splitext_ext filename) ".csv" then Some "text/csv"%string
  else if String.eqb (Util.splitext_ext filename) ".txt"
  then Some "text/plain"%string
  else None.

Definition guess_extension (content_type : string) : option string :=
  if String.eqb content_type "text/plain" then Some ".txt"%string
  else if String.eqb content_type "text/csv" then Some ".csv"%string
  else None.

Definition loads (content : bytes) : option json :=
  if bool_decide (content = b "[jobs]") then Some jobs_json else None.

Definition env (allow : bool) : Env :=
  {| config := cfg allow;
     dns_resolve := dns;
     http_send := http;
     sha256_hexdigest := digest;
     mimetypes_guess_type := guess_type;
     mimetypes_guess_extension := guess_extension;
     content_disposition_filename := fun _ => None;
     json_loads := loads;
     provider_address := "0xProvider";
     sign_message := fun m => "signed:" +:+ m;
     verify_signature_check := fun owner sig msg n =>
       if bool_decide (sig = Some ("good:" +:+ msg)%string) then None
       else Some (InvalidSignatureError "Invalid signature");
     prepare_url := fun u _ => u;
     asset_download_urls := fun _ => inl (OtherException "no such asset");
     get_download_url := fun u =>
       match u with
       | Some u => inr u
       | None => inl (OtherException "no url")
       end |}.

Definition world0 : World := {| nonces := ∅; http_log := [] |}.

Definition get_request (query : gmap string string)
    (hs : gmap string string) (r : option RangeSpec) : FlaskRequest :=
  {| args := query; json_body := ∅; request_headers := hs; range := r |}.

(** A request without query and headers. *)
Definition plain_request : FlaskRequest := get_request ∅ ∅ None.

(** A request for the first five bytes. *)
Definition range_request : FlaskRequest :=
  get_request ∅ {[ "range"%string := "bytes=0-4"%string ]}
    (Some {| units := "bytes"; ranges := [(0, Some 5)] |}).

(** A request whose [Range] header is no range specification. *)
Definition unparsed_range_request : FlaskRequest :=
  get_request ∅ {[ "range"%string := "bytes"%string ]} None.

(** Status requests: without a signature, with a forged one, with a good
    one. *)
Definition status_unsigned : FlaskRequest :=
  get_request {[ "consumerAddress"%string := "0xabc"%string;
                 "jobId"%string := "j1"%string ]} ∅ None.

Definition status_forged : FlaskRequest :=
  get_request {[ "consumerAddress"%string := "0xabc"%string;
                 "jobId"%string := "j1"%string;
                 "signature"%string := "forged"%string ]} ∅ None.

Definition status_signed : FlaskRequest :=
  get_request {[ "consumerAddress"%string := "0xabc"%string;
                 "jobId"%string := "j1"%string;
                 "signature"%string := "good:0xabcj1None"%string ]} ∅ None.

Definition fileinfo_request : FlaskRequest :=
  get_request {[ "url"%string := "http://example.com/hello"%string ]} ∅ None.

Definition nonce_request : FlaskRequest :=
  get_request {[ "userAddress"%string := "0xabc"%string ]} ∅ None.

Definition result_request : FlaskRequest :=
  get_request {[ "consumerAddress"%string := "0xabc"%string;
                 "jobId"%string := "j1"%string;
                 "index"%string := "0"%string ]} ∅ None.

End Sample.

(** ** Vocabulary of the statements *)

(** A computation that never touches the nonce table. *)
Definition keeps_nonces {A} (m : M A) : Prop :=
  forall w, nonces (m w).2 = nonces w.

(** The world after the upstream requests [reqs] were issued. *)
Definition logged (reqs : list HttpRequest) (w : World) : World :=
  {| nonces := nonces w; http_log := http_log w ++ reqs |}.

(** The world after the nonce of [address] advanced by one. *)
Definition bumped (address : option string) (w : World) : World :=
  {| nonces := <[address := default 0 (nonces w !! address) + 1]> (nonces w);
     http_log := http_log w |}.

(** The descriptor entries the checksum path adds. *)
Definition checksum_entries (E : Env) (body : bytes) : gmap string string :=
  {[ "checksum"%string := sha256_hexdigest E body;
     "checksumType"%string := "sha256"%string ]}.

(** The keys of the job descriptions of a JSON document: of the document
    itself when it is an object, of its elements when it is a list. *)
Definition job_keys (v : json) : list string :=
  match v with
  | JDict d => elements (dom d)
  | JList l =>
      concat ((fun job => match job with
                          | JDict d => elements (dom d)
                          | _ => []
                          end) <$> l)
  | _ => []
  end.

(** The keys of the job descriptions in the body of an answer. *)
Definition body_job_keys (E : Env) (body : Body) : list string :=
  match body with
  | JsonDumps v => job_keys v
  | RawBytes bs =>
      match json_loads E bs with Some v => job_keys v | None => [] end
  | Stream _ => []
  end.

(** ** Python values beyond text: truthiness, subscripting, fallible steps *)

Module Py.

#[global] Instance exn_eq_dec : EqDecision exn.
Proof. solve_decision. Defined.

(** Exceptions of classes the exception type does not list are
    [OtherException] with the class name. *)
Definition ConnectionClosed : exn := OtherException "ConnectionClosed".
Definition IndexError : exn := OtherException "IndexError".
Definition AssertionError : exn := OtherException "AssertionError".

(** [isinstance(e, ConnectionClosed)] *)
Definition is_ConnectionClosed (e : exn) : bool :=
  bool_decide (e = ConnectionClosed).

(** [bool(v)] for a JSON value. *)
Definition json_truthy (v : json) : bool :=
  match v with
  | JNull => false
  | JBool b => b
  | JNum n => negb (n =? 0)
  | JStr s => PyStr.truthy s
  | JList l => match l with [] => false | _ :: _ => true end
  | JDict d => negb (bool_decide (d = ∅))
  end.

(** [l[i]] for a list: a negative index counts from the end, an index
    outside [-len(l) .. len(l) - 1] raises [IndexError]. *)
Definition list_getitem {A} (l : list A) (i : Z) : exn + A :=
  let n := Z.of_nat (length l) in
  let j := if i <? 0 then i + n else i in
  if (0 <=? j) && (j <? n)
  then match l !! Z.to_nat j with
       | Some x => inr x
       | None => inl IndexError
       end
  else inl IndexError.

(** A step that may raise, followed by the rest. *)
Definition and_then {A B} (r : exn + A) (k : A -> exn + B) : exn + B :=
  match r with
  | inl e => inl e
  | inr a => k a
  end.

(** [[f(x) for x in l]]: the first exception ends the comprehension. *)
Fixpoint map_raise {A B} (f : A -> exn + B) (l : list A) : exn + list B :=
  match l with
  | [] => inr []
  | x :: rest =>
      and_then (f x) (fun y =>
      and_then (map_raise f rest) (fun ys => inr (y :: ys)))
  end.

End Py.

(** ** [ocean_provider/utils/util.py]: dictionaries *)

Module UtilDict.

(** [{key: dictionary[key] for key in dictionary if key in keys}] *)
Definition filter_dictionary {V} (dictionary : gmap string V)
    (keys : list string) : gmap string V :=
  filter (fun kv => kv.1 ∈ keys) dictionary.

(** [{key: dictionary[key] for key in dictionary
     if key.startswith(prefix)}] *)
Definition filter_dictionary_starts_with {V} (dictionary : gmap string V)
    (prefix : string) : gmap string V :=
  filter (fun kv => PyStr.startswith prefix kv.1 = true) dictionary.

(** [decode_from_data(data, key, dec_type)], with [json.loads] on text
    given by [loads] ([None] when it raises [JSONDecodeError]).  The
    result is a Python value; the error marker [-1] is [JNum (-1)]. *)
Definition decode_from_data (loads : string -> option json)
    (data : gmap string json) (key : string) (dec_type : string) : json :=
  let default_value :=
    if String.eqb dec_type "list" then JList [] else JDict ∅ in
  let data := default default_value (data !! key) in
  match data with
  | JStr EmptyString => default_value
  | JStr s =>
      match loads s with
      | Some v => v
      | None => JNum (-1)
      end
  | _ => data
  end.

End UtilDict.

(** ** [ocean_provider/utils/util.py]: the files of an asset *)

Module Assets.
Import Py.

(** The fields of an asset the code reads. *)
Record Asset := {
  asset_did : string;
  encrypted_files : string
}.

Section WithCollaborators.

(** [json.loads] on text ([None] when it raises), [do_decrypt] with the
    provider wallet, and the URL the storage driver generates
    ([Osmosis(url, config_file).data_plugin.generate_url(url)]). *)
Context (loads : string -> option json).
Context (do_decrypt : json -> exn + option string).
Context (generate_url : json -> exn + json).

(** [json.loads(text)] *)
Definition json_loads_text (text : string) : exn + json :=
  match loads text with
  | Some v => inr v
  | None => inl (ValueError "JSONDecodeError")
  end.

(** [v["encryptedDocument"]] *)
Definition encrypted_document (v : json) : exn + json :=
  match v with
  | JDict d =>
      match d !! "encryptedDocument"%string with
      | Some x => inr x
      | None => inl (KeyError "encryptedDocument")
      end
  | _ => inl (TypeError "not subscriptable by a key")
  end.

(** [get_asset_files_list]: [None] when nothing was decrypted. *)
Definition get_asset_files_list (asset : Asset)
  : exn + option (list json) :=
  and_then
    (if PyStr.startswith "{" (encrypted_files asset)
     then and_then (json_loads_text (encrypted_files asset)) encrypted_document
     else inr (JStr (encrypted_files asset)))
    (fun encrypted =>
  and_then (do_decrypt encrypted) (fun files_str =>
  match files_str with
  | None => inr None
  | Some EmptyString => inr None
  | Some files_str =>
      and_then (json_loads_text files_str) (fun files_list =>
      match files_list with
      | JList l => inr (Some l)
      | _ => inl (TypeError "Expected a files list")
      end)
  end)).

(** The body of the loop of [get_asset_urls] for one entry. *)
Definition file_url (file_meta_dict : json) : exn + json :=
  match file_meta_dict with
  | JDict d =>
      if negb (json_truthy file_meta_dict)
      then inl (TypeError "Invalid file meta")
      else match d !! "url"%string with
           | Some u => inr u
           | None => inl (ValueError "The url key is not found")
           end
  | _ => inl (TypeError "Invalid file meta")
  end.

Definition get_asset_urls (asset : Asset) : exn + list json :=
  and_then (get_asset_files_list asset) (fun files_list =>
  match files_list with
  | None | Some [] => inr []
  | Some files_list => map_raise file_url files_list
  end).

(** [get_asset_url_at_index]: [None] when the asset has no URL. *)
Definition get_asset_url_at_index (url_index : Z) (asset : Asset)
  : exn + option json :=
  and_then (get_asset_urls asset) (fun files_list =>
  match files_list with
  | [] => inr None
  | _ :: _ =>
      if Z.of_nat (length files_list) <=? url_index
      then inl (ValueError "url index is invalid")
      else and_then (list_getitem files_list url_index)
             (fun u => inr (Some u))
  end).

Definition get_asset_download_urls (asset : Asset) : exn + list json :=
  and_then (get_asset_urls asset) (map_raise generate_url).

End WithCollaborators.
End Assets.

(** ** [ocean_provider/utils/util.py]: order validation and compute info *)

Module Orders.
Import Py.

Section WithLedger.

(** The result type of [verify_order_tx], and the outcome of the call
    [dt_contract.verify_order_tx(tx_id, did, int(service_id), amount,
    sender)] at its [k]-th evaluation, counted from 0. *)
Context {T : Type}.
Context (verify_order_tx : nat -> exn + T).

(** The [while i < num_tries] loop of [validate_order] from the state [i],
    with [fuel] iterations left: the value returned or the exception
    raised, and the number of calls made in all.  [inr None] is the
    implicit [return None] after the loop. *)
Fixpoint validate_order_loop (num_tries fuel i : nat)
  : (exn + option T) * nat :=
  match fuel with
  | O => (inr None, i)
  | S fuel' =>
      let i := S i in
      match verify_order_tx (i - 1) with
      | inr r => (inr (Some r), i)
      | inl e =>
          if is_ConnectionClosed e then
            if (i =? num_tries)%nat then (inl e, i)
            else validate_order_loop num_tries fuel' i
          else (inl e, i)
      end
  end.

(** [validate_order]; [prepared] is the outcome of the two statements
    before the loop, [DataToken(web3, token_address)] and
    [to_wei(str(num_tokens))]. *)
Definition validate_order (prepared : option exn)
  : (exn + option T) * nat :=
  match prepared with
  | Some e => (inl e, O)
  | None =>
      let num_tries := 3%nat in
      validate_order_loop num_tries num_tries 0
  end.

End WithLedger.
End Orders.

Module ComputeInfo.

Section WithEnv.
Context (E : Env).

(** [requests.get(get_config().operator_service_url)] *)
Definition compute_info_request : HttpRequest :=
  {| method := "get"; url := operator_service_url (config E); params := ∅;
     req_headers := ∅; req_data := None; stream := false; timeout := None |}.

(** [compute_info.get(key)]: [None] is [JNull]. *)
Definition info_get (compute_info : gmap string json) (key : string) : json :=
  default JNull (compute_info !! key).

(** The body of the [try] of [get_compute_info]. *)
Definition get_compute_info_try : M (json * json) :=
  response <~ Url.send E compute_info_request ;;
  match json_loads E (content response) with
  | None => raise (ValueError "JSONDecodeError")
  | Some (JDict compute_info) =>
      let limits :=
        JDict {[ "algoTimeLimit"%string :=
                   info_get compute_info "algoTimeLimit";
                 "storageExpiry"%string :=
                   info_get compute_info "storageExpiry" ]} in
      let compute_address := info_get compute_info "address" in
      ret (compute_address, limits)
  | Some _ => raise (AttributeError "object has no attribute 'get'")
  end.

(** [get_compute_info]: the pair [(None, None)] is [(JNull, JNull)]. *)
Definition get_compute_info : M (json * json) :=
  try_except get_compute_info_try (fun _ => true)
    (fun _ => ret (JNull, JNull)).

End WithEnv.
End ComputeInfo.

(** ** [ocean_provider/utils/url.py]: the provider behind a URL *)

Module SameProvider.
Import Py.

Section WithEnv.
Context (E : Env).

(** The outcome of
    [DataServiceProvider._http_method("get", root).json()]. *)
Context (provider_info : string -> exn + json).

(** [isinstance(e, (requests.exceptions.RequestException, KeyError))] *)
Definition is_caught (e : exn) : bool :=
  is_RequestException e || match e with KeyError _ => true | _ => false end.

(** The [try] of [is_this_same_provider]: the value of [address]. *)
Definition provider_address_at (root : string) : exn + json :=
  match provider_info root with
  | inl e => if is_caught e then inr JNull else inl e
  | inr (JDict d) => inr (default JNull (d !! "providerAddress"%string))
  | inr _ => inl (TypeError "not subscriptable by a key")
  end.

(** [is_this_same_provider]: a Python value, [None] being [JNull]. *)
Definition is_this_same_provider (url : string) : exn + json :=
  match Urllib.urlparse url with
  | None => inl (ValueError "Invalid IPv6 URL")
  | Some result =>
      let root :=
        Urllib.scheme result +:+ "://" +:+ Urllib.netloc result +:+ "/" in
      and_then (provider_address_at root) (fun address =>
      if json_truthy address then
        match address with
        | JStr a =>
            inr (JBool (String.eqb (PyStr.lower a)
                          (PyStr.lower (provider_address E))))
        | _ => inl (AttributeError "object has no attribute 'lower'")
        end
      else inr address)
  end.

End WithEnv.
End SameProvider.

(** ** [ocean_provider/routes/consume.py]: [encrypt] *)

Module Encrypt.

Section WithEnv.
Context (E : Env).

(** [json.loads] on text ([None] when it raises), [json.dumps(v,
    separators=(",", ":"))], and [do_encrypt] with the provider wallet,
    whose result is a value [json.dumps] accepts. *)
Context (loads : string -> option json).
Context (dumps_compact : json -> string).
Context (do_encrypt : string -> exn + json).

(** [json.dumps(json.loads(data.get("document")), separators=(",", ":"))] *)
Definition normalise_document (document : option string) : exn + string :=
  match document with
  | None => inl (TypeError "the JSON object must be str, bytes or bytearray")
  | Some text =>
      match loads text with
      | Some v => inr (dumps_compact v)
      | None => inl (ValueError "JSONDecodeError")
      end
  end.

(** The context of the error answer of [encrypt]. *)
Definition encrypt_context (data : gmap string string) : odict :=
  {[ "providerAddress"%string := Some (provider_address E);
     "documentId"%string := data !! "documentId"%string;
     "publisherAddress"%string := data !! "publisherAddress"%string ]}.

(** [POST /encrypt] *)
Definition encrypt (request : FlaskRequest) : M FlaskResponse :=
  let data := Util.get_request_data request in
  document <~ Routes.of_sum
                (normalise_document (data !! "document"%string)) ;;
  let publisher_address := data !! "publisherAddress"%string in
  try_except
    (encrypted_document <~ Routes.of_sum (do_encrypt document) ;;
     UserNonce.increment_nonce publisher_address ;;
     ret {| resp_body :=
              JsonDumps (JDict {[ "encryptedDocument"%string :=
                                    encrypted_document ]});
            resp_status := 201;
            resp_headers := Routes.json_headers;
            resp_content_type := None |})
    (fun _ => true)
    (fun e => ret (Util.service_unavailable e (encrypt_context data))).

End WithEnv.
End Encrypt.

(** ** Variations of the sample surroundings *)

Module Fixtures.

(** [E] with another upstream. *)
Definition with_http (E : Env)
    (http : list HttpRequest -> HttpRequest -> HttpOutcome) : Env :=
  {| config := config E;
     dns_resolve := dns_resolve E;
     http_send := http;
     sha256_hexdigest := sha256_hexdigest E;
     mimetypes_guess_type := mimetypes_guess_type E;
     mimetypes_guess_extension := mimetypes_guess_extension E;
     content_disposition_filename := content_disposition_filename E;
     json_loads := json_loads E;
     provider_address := provider_address E;
     sign_message := sign_message E;
     verify_signature_check := verify_signature_check E;
     prepare_url := prepare_url E;
     asset_download_urls := asset_download_urls E;
     get_download_url := get_download_url E |}.

(** [E] with another resolver. *)
Definition with_dns (E : Env) (dns : string -> string -> DnsOutcome) : Env :=
  {| config := config E;
     dns_resolve := dns;
     http_send := http_send E;
     sha256_hexdigest := sha256_hexdigest E;
     mimetypes_guess_type := mimetypes_guess_type E;
     mimetypes_guess_extension := mimetypes_guess_extension E;
     content_disposition_filename := content_disposition_filename E;
     json_loads := json_loads E;
     provider_address := provider_address E;
     sign_message := sign_message E;
     verify_signature_check := verify_signature_check E;
     prepare_url := prepare_url E;
     asset_download_urls := asset_download_urls E;
     get_download_url := get_download_url E |}.

(** [E] with another [json.loads]. *)
Definition with_loads (E : Env) (loads : bytes -> option json) : Env :=
  {| config := config E;
     dns_resolve := dns_resolve E;
     http_send := http_send E;
     sha256_hexdigest := sha256_hexdigest E;
     mimetypes_guess_type := mimetypes_guess_type E;
     mimetypes_guess_extension := mimetypes_guess_extension E;
     content_disposition_filename := content_disposition_filename E;
     json_loads := loads;
     provider_address := provider_address E;
     sign_message := sign_message E;
     verify_signature_check := verify_signature_check E;
     prepare_url := prepare_url E;
     asset_download_urls := asset_download_urls E;
     get_download_url := get_download_url E |}.

(** An upstream whose client library fails with an exception that is no
    [RequestException]. *)
Definition broken_http (history : list HttpRequest) (req : HttpRequest)
  : HttpOutcome :=
  HttpRaise (OtherException "broken pipe").

(** A resolver that answers a loopback address for every name but
    [example.com]. *)
Definition rebinding_dns (domain record_type : string) : DnsOutcome :=
  if String.eqb domain "example.com" then Sample.dns domain record_type
  else DnsAnswer ["127.0.0.1"%string].

End Fixtures.

(** ** A sample asset *)

Module AssetFixtures.

(** The decrypted file list of the sample asset: two files. *)
Definition files : list json :=
  [ JDict {[ "url"%string := JStr "http://example.com/hello";
             "contentType"%string := JStr "text/plain" ]};
    JDict {[ "url"%string := JStr "http://example.com/notes" ]} ].

(** [json.loads] on the two texts of the sample asset. *)
Definition loads (text : string) : option json :=
  if String.eqb text "<files>" then Some (JList files)
  else if String.eqb text "{wrapped}"
  then Some (JDict {[ "encryptedDocument"%string := JStr "0xcipher" ]})
  else None.

(** Decryption with the provider wallet: one ciphertext is known. *)
Definition do_decrypt (encrypted : json) : exn + option string :=
  match encrypted with
  | JStr "0xcipher" => inr (Some "<files>"%string)
  | _ => inl (OtherException "decryption failed")
  end.

(** The storage driver signs a URL by adding a token. *)
Definition generate_url (url : json) : exn + json :=
  match url with
  | JStr u => inr (JStr (u +:+ "?token=t"))
  | _ => inl (OtherException "unsupported url")
  end.

Definition asset : Assets.Asset :=
  {| Assets.asset_did := "did:op:1"; Assets.encrypted_files := "0xcipher" |}.

Definition wrapped_asset : Assets.Asset :=
  {| Assets.asset_did := "did:op:1"; Assets.encrypted_files := "{wrapped}" |}.

End AssetFixtures.

(** ** [ocean_provider/routes/compute.py]: [computeStart] *)

Module Start.

(** What the route reads of a [WorkflowValidator] after [validate()]:
    the [error] when the status is false, the [workflow] when it is
    true. *)
Inductive Validation :=
| Rejected (error : json)
| Accepted (workflow : json).

Section WithEnv.
Context (E : Env).

(** [WorkflowValidator(get_web3(), consumer_address, provider_wallet,
    data)] followed by [validate()], either of which may raise. *)
Context (validate_workflow : gmap string string -> exn + Validation).






End WithEnv.
End Start.

(** ** [ocean_provider/utils/url.py]: [append_userdata] *)

Module Userdata.
Import Py.

Section WithCollaborators.

(** [json.loads] on text ([None] when it raises [JSONDecodeError]) and
    [PreparedRequest.prepare_url(url, userdata)] followed by reading
    [req.url]. *)
Context (loads : string -> option json).
Context (prepare_url : string -> json -> exn + string).

(** [append_userdata(url, data, key)]; a missing key reads as [None]. *)
Definition append_userdata (url : string) (data : gmap string json)
    (key : string) : exn + string :=
  let userdata := default JNull (data !! key) in
  if negb (json_truthy userdata) then inr url
  else
    match userdata with
    | JDict _ => prepare_url url userdata
    | JStr text =>
        match loads text with
        | Some userdata => prepare_url url userdata
        | None => inr url
        end
    | _ =>
        inl (TypeError "the JSON object must be str, bytes or bytearray")
    end.

End WithCollaborators.
End Userdata.

(** ** [ocean_provider/utils/url.py] with the construction of the resolver

    [_get_records] constructs its resolver before the [try] that guards
    the lookup, so an exception of the construction is not caught there.
    The functions of module [Url] are these functions in a process where
    every construction returns. *)

Module Resolving.
Import PyStr Py.

Section WithEnv.
Context (E : Env).

(** The outcome of [dns.resolver.Resolver()] in the call
    [_get_records(domain, record_type)]: [None] when it returns a
    resolver, the exception it raises otherwise. *)
Context (new_resolver : string -> string -> option exn).

Definition _get_records (domain record_type : string)
  : exn + option Url.Records :=
  match new_resolver domain record_type with
  | Some e => inl e
  | None =>
      inr (match dns_resolve E domain record_type with
           | DnsAnswer rrset => Some (Url.Answer rrset)
           | DnsRaise _ => None
           end)
  end.

Definition is_safe_domain (domain : string) : exn + bool :=
  and_then (_get_records domain "A") (fun ip_v4_records =>
  and_then (_get_records domain "AAAA") (fun ip_v6_records =>
  let result :=
    Url.validate_dns_records E domain ip_v4_records "A"
    && Url.validate_dns_records E domain ip_v6_records "AAAA" in
  if negb (Url.is_ip domain) then inr result
  else inr (result
            && Url.validate_dns_records E domain
                 (Some (Url.Text domain)) ""))).

(** The second [urlparse] cannot raise once [is_safe_schema] holds. *)
Definition is_safe_url (url : string) : exn + bool :=
  if negb (Url.is_safe_schema url) then inr false
  else match Urllib.urlparse url with
       | Some result => is_safe_domain (Urllib.netloc result)
       | None => inr false
       end.

(** The body of the [try] of [check_url_details]. *)
Definition check_url_details_try (url : string) (with_checksum : bool)
  : M (option (bool * gmap string string)) :=
  safe <~ Routes.of_sum (is_safe_url url) ;;
  if negb safe then ret (Some (false, ∅))
  else
    res <~ Url._get_result_from_url E url with_checksum ;;
    let '(result, extra_data) := res in
    ret (Url.describe result extra_data).

Definition check_url_details (url : string) (with_checksum : bool)
  : M (bool * gmap string string) :=
  r <~ try_except (check_url_details_try url with_checksum)
         is_RequestException (fun _ => ret None) ;;
  match r with
  | Some v => ret v
  | None => ret (false, ∅)
  end.

End WithEnv.

(** A host without resolver configuration, and one with it. *)
Definition unconfigured (domain record_type : string) : option exn :=
  Some (OtherException "NoResolverConfiguration").

Definition configured (domain record_type : string) : option exn := None.

End Resolving.

(** ** The compute routes on a request that may carry no data *)

Module Bare.

(** A request whose body need not be JSON: [bare_json] is [request.json],
    [None] when the body is no JSON document. *)
Record Request := {
  bare_args : gmap string string;
  bare_json : option (gmap string string);
  bare_headers : gmap string string;
  bare_range : option RangeSpec
}.

(** [request.args if request.args else request.json] *)
Definition get_request_data (request : Request)
  : option (gmap string string) :=
  if bool_decide (bare_args request = ∅) then bare_json request
  else Some (bare_args request).

(** [None.get(...)] and [None.items()] *)
Definition no_get : exn :=
  AttributeError "'NoneType' object has no attribute 'get'".
Definition no_items : exn :=
  AttributeError "'NoneType' object has no attribute 'items'".

(** [service_unavailable(e, data, logger)]: it starts by reading
    [context.items()]. *)
Definition service_unavailable (error : exn)
    (context : option (gmap string string)) : M FlaskResponse :=
  match context with
  | None => raise no_items
  | Some data => ret (Util.service_unavailable error (Routes.context_of data))
  end.

Section WithEnv.
Context (E : Env).

(** The [try] of [computeDelete] and [computeStop]: its first statement,
    [process_compute_request(data)], reads [data.get]. *)
Definition compute_forward (meth : string)
    (data : option (gmap string string)) : M FlaskResponse :=
  match data with
  | None => raise no_get
  | Some data => Routes.compute_forward E meth data
  end.

(** [DELETE /compute] *)
Definition computeDelete (request : Request) : M FlaskResponse :=
  let data := get_request_data request in
  try_except (compute_forward "delete" data) (fun _ => true)
    (fun e => service_unavailable e data).

(** [PUT /compute] *)
Definition computeStop (request : Request) : M FlaskResponse :=
  let data := get_request_data request in
  try_except (compute_forward "put" data) (fun _ => true)
    (fun e => service_unavailable e data).

(** The [try] of [computeStatus], which also starts with
    [process_compute_request(data)]. *)
Definition computeStatus_try (data : option (gmap string string))
  : M FlaskResponse :=
  match data with
  | None => raise no_get
  | Some data => Routes.computeStatus_try E data
  end.

(** [GET /compute] *)
Definition computeStatus (request : Request) : M FlaskResponse :=
  let data := get_request_data request in
  try_except (computeStatus_try data) (fun _ => true)
    (fun e => service_unavailable e data).

End WithEnv.

(** Sample requests: one with query arguments, one with nothing. *)
Definition with_args : Request :=
  {| bare_args := {[ "consumerAddress"%string := "0xabc"%string;
                     "jobId"%string := "j1"%string ]};
     bare_json := None; bare_headers := ∅; bare_range := None |}.


End Bare.

(* ===================================================================== *)
(** * Properties *)
(* ===================================================================== *)

(** ** Sanity checks of the library models *)

Example split_slash :
  PyStr.split "/" "http://a/b" = ["http:"; ""; "a"; "b"]%string.
Proof. reflexivity. Qed.

Example split_empty : PyStr.split "/" "" = [""]%string.
Proof. reflexivity. Qed.

Example strip_spaces : PyStr.strip "  10.0.0.1 " = "10.0.0.1"%string.
Proof. reflexivity. Qed.

Example isnumeric_examples :
  PyStr.isnumeric "127001" = true /\ PyStr.isnumeric "" = false
  /\ PyStr.isnumeric "[::1]" = false.
Proof. repeat split. Qed.

Example urlparse_v4 :
  Urllib.urlparse "http://127.0.0.1/x"
  = Some {| Urllib.scheme := "http"; Urllib.netloc := "127.0.0.1" |}.
Proof. reflexivity. Qed.

Example urlparse_v6 :
  Urllib.urlparse "http://[::1]/x"
  = Some {| Urllib.scheme := "http"; Urllib.netloc := "[::1]" |}.
Proof. reflexivity. Qed.

Example urlparse_port :
  Urllib.urlparse "HTTPS://example.com:8080?q"
  = Some {| Urllib.scheme := "https"; Urllib.netloc := "example.com:8080" |}.
Proof. reflexivity. Qed.

Example urlparse_plain :
  Urllib.urlparse "not a url"
  = Some {| Urllib.scheme := ""; Urllib.netloc := "" |}.
Proof. reflexivity. Qed.

Example urlparse_bracket : Urllib.urlparse "http://[::1/x" = None.
Proof. reflexivity. Qed.

Example urlparse_bracketed_hosts :
  Urllib.urlparse "http://[foo]/x" = None
  /\ Urllib.urlparse "http://[1.2.3.4]/x" = None
  /\ Urllib.urlparse "http://a[::1]/x" = None
  /\ Urllib.urlparse "http://[::1]x/" = None
  /\ Urllib.urlparse "http://[v1.x]/"
     = Some {| Urllib.scheme := "http"; Urllib.netloc := "[v1.x]" |}
  /\ Urllib.urlparse "http://u@[fe80::1%eth0]:80/"
     = Some {| Urllib.scheme := "http";
               Urllib.netloc := "u@[fe80::1%eth0]:80" |}.
Proof. repeat split; reflexivity. Qed.

Example ip_address_examples :
  Ipaddress.ip_address "127.0.0.1" = Some (Ipaddress.IPv4Address 2130706433)
  /\ Ipaddress.ip_address "::1" = Some (Ipaddress.IPv6Address 1)
  /\ Ipaddress.ip_address "::ffff:10.0.0.1"
     = Some (Ipaddress.IPv6Address 281470849515521)
  /\ Ipaddress.ip_address "2001:db8::1:0:0:1"
     = Some (Ipaddress.IPv6Address
               (Ipaddress.v6 [0x2001; 0xdb8; 0; 0; 1; 0; 0; 1]))
  /\ Ipaddress.ip_address "1:2:3:4:5:6:7:8"
     = Some (Ipaddress.IPv6Address (Ipaddress.v6 [1; 2; 3; 4; 5; 6; 7; 8]))
  /\ Ipaddress.ip_address "fe80::1%eth0"
     = Some (Ipaddress.IPv6Address (Ipaddress.v6 [0xfe80; 0; 0; 0; 0; 0; 0; 1]))
  /\ Ipaddress.ip_address "[::1]" = None
  /\ Ipaddress.ip_address "1" = None
  /\ Ipaddress.ip_address "01.2.3.4" = None
  /\ Ipaddress.ip_address "1.2.3.256" = None
  /\ Ipaddress.ip_address ":::1" = None
  /\ Ipaddress.ip_address "1::2::3" = None
  /\ Ipaddress.ip_address "example.com" = None.
Proof. vm_compute. repeat split. Qed.

Example ip_flags_examples :
  (Ipaddress.is_private <$> Ipaddress.ip_address "10.1.2.3") = Some true
  /\ (Ipaddress.is_loopback <$> Ipaddress.ip_address "127.0.0.1") = Some true
  /\ (Ipaddress.is_loopback <$> Ipaddress.ip_address "::1") = Some true
  /\ (Ipaddress.is_private <$> Ipaddress.ip_address "8.8.8.8") = Some false
  /\ (Ipaddress.is_reserved <$> Ipaddress.ip_address "8.8.8.8") = Some false
  /\ (Ipaddress.is_reserved <$> Ipaddress.ip_address "240.0.0.1") = Some true
  /\ (Ipaddress.is_private <$> Ipaddress.ip_address "169.254.169.254")
     = Some true
  /\ (Ipaddress.is_private <$> Ipaddress.ip_address "2606:4700::6810:84e5")
     = Some false
  /\ (Ipaddress.is_reserved <$> Ipaddress.ip_address "2606:4700::6810:84e5")
     = Some false
  /\ (Ipaddress.is_private <$> Ipaddress.ip_address "fd00::1") = Some true.
Proof. vm_compute. repeat split. Qed.

Example ip_address_more :
  Ipaddress.ip_address "1::"
     = Some (Ipaddress.IPv6Address 5192296858534827628530496329220096)
  /\ Ipaddress.ip_address "::"
     = Some (Ipaddress.IPv6Address 0)
  /\ Ipaddress.ip_address "1:2:3:4:5:6:7::"
     = Some (Ipaddress.IPv6Address 5192455318486707404433266433261568)
  /\ Ipaddress.ip_address "::2:3:4:5:6:7:8"
     = Some (Ipaddress.IPv6Address 158459951879775902770104041480)
  /\ Ipaddress.ip_address "1:2:3:4:5:6:7:8:9"
     = None
  /\ Ipaddress.ip_address "::1.2.3.4"
     = Some (Ipaddress.IPv6Address 16909060)
  /\ Ipaddress.ip_address "1::%"
     = None
  /\ Ipaddress.ip_address "12345::"
     = None
  /\ Ipaddress.ip_address "1:2:3:4:5:6:7::8"
     = None
  /\ Ipaddress.ip_address " 1.2.3.4"
     = None
  /\ Ipaddress.ip_address "1.2.3.4/8"
     = None
  /\ Ipaddress.ip_address "1.2.3"
     = None
  /\ Ipaddress.ip_address "0.0.0.0"
     = Some (Ipaddress.IPv4Address 0)
  /\ Ipaddress.ip_address "255.255.255.255"
     = Some (Ipaddress.IPv4Address 4294967295)
  /\ Ipaddress.ip_address "1.2.3.4.5"
     = None
  /\ Ipaddress.ip_address "::g"
     = None
  /\ Ipaddress.ip_address "a:b:c:d:e:f:0:1"
     = Some (Ipaddress.IPv6Address 51923840109643282840007714694758401)
  /\ Ipaddress.ip_address "A:B::"
     = Some (Ipaddress.IPv6Address 51923840095135933193018492275654656)
  /\ Ipaddress.ip_address "1:2:3:4:5:6:1.2.3.4"
     = Some (Ipaddress.IPv6Address 5192455318486707404433266449711876)
  /\ Ipaddress.ip_address "::1.2.3"
     = None
  /\ Ipaddress.ip_address "1.02.3.4"
     = None
  /\ Ipaddress.ip_address ""
     = None.
Proof. vm_compute. repeat split. Qed.

Example ip_flags_more :
  (Ipaddress.flags <$> Ipaddress.ip_address "10.1.2.3")
     = Some (true, false, false)
  /\ (Ipaddress.flags <$> Ipaddress.ip_address "8.8.8.8")
     = Some (false, false, false)
  /\ (Ipaddress.flags <$> Ipaddress.ip_address "192.0.0.9")
     = Some (false, false, false)
  /\ (Ipaddress.flags <$> Ipaddress.ip_address "100.64.0.1")
     = Some (false, false, false)
  /\ (Ipaddress.flags <$> Ipaddress.ip_address "::ffff:10.0.0.1")
     = Some (true, true, false)
  /\ (Ipaddress.flags <$> Ipaddress.ip_address "2001:db8::1")
     = Some (true, false, false)
  /\ (Ipaddress.flags <$> Ipaddress.ip_address "2001:20::1")
     = Some (false, false, false)
  /\ (Ipaddress.flags <$> Ipaddress.ip_address "64:ff9b::1")
     = Some (false, true, false)
  /\ (Ipaddress.flags <$> Ipaddress.ip_address "fec0::1")
     = Some (false, false, false)
  /\ (Ipaddress.flags <$> Ipaddress.ip_address "::")
     = Some (true, true, false)
  /\ (Ipaddress.flags <$> Ipaddress.ip_address "0.0.0.0")
     = Some (true, false, false)
  /\ (Ipaddress.flags <$> Ipaddress.ip_address "2002::1")
     = Some (true, false, false)
  /\ (Ipaddress.flags <$> Ipaddress.ip_address "ff02::1")
     = Some (false, false, false)
  /\ (Ipaddress.flags <$> Ipaddress.ip_address "172.31.255.255")
     = Some (true, false, false)
  /\ (Ipaddress.flags <$> Ipaddress.ip_address "172.32.0.0")
     = Some (false, false, false)
  /\ (Ipaddress.flags <$> Ipaddress.ip_address "192.0.0.171")
     = Some (true, false, false)
  /\ (Ipaddress.flags <$> Ipaddress.ip_address "198.19.255.255")
     = Some (true, false, false)
  /\ (Ipaddress.flags <$> Ipaddress.ip_address "::ffff:8.8.8.8")
     = Some (false, true, false)
  /\ (Ipaddress.flags <$> Ipaddress.ip_address "fe80::1")
     = Some (true, false, false)
  /\ (Ipaddress.flags <$> Ipaddress.ip_address "2001:1::1")
     = Some (false, false, false)
  /\ (Ipaddress.flags <$> Ipaddress.ip_address "100::1")
     = Some (true, true, false).
Proof. vm_compute. repeat split. Qed.

(** ** The effect monad *)

Section MonadFacts.
Context {A B : Type}.

Lemma bind_ret_eq (m : M A) (k : A -> M B) (w w' : World) (a : A) :
  m w = (Ret a, w') -> bind m k w = k a w'.
Proof. intros H. unfold bind. by rewrite H. Qed.

Lemma try_except_raise_eq (m : M A) (h : exn -> bool) (f : exn -> M A)
    (w w' : World) (e : exn) :
  m w = (Raise e, w') ->
  try_except m h f w = if h e then f e w' else (Raise e, w').
Proof. intros H. unfold try_except. by rewrite H. Qed.
End MonadFacts.

Create HintDb keeps discriminated.

Lemma keeps_nonces_ret {A} (a : A) : keeps_nonces (ret a).
Proof. by intros w. Qed.

Lemma keeps_nonces_raise {A} (e : exn) : keeps_nonces (@raise A e).
Proof. by intros w. Qed.

Lemma keeps_nonces_bind {A B} (m : M A) (k : A -> M B) :
  keeps_nonces m -> (forall a, keeps_nonces (k a)) -> keeps_nonces (bind m k).
Proof.
  intros Hm Hk w. unfold bind. specialize (Hm w).
  destruct (m w) as [[a|e] w1]; simpl in *; [|done].
  by rewrite Hk.
Qed.

Lemma keeps_nonces_try {A} (m : M A) (h : exn -> bool) (f : exn -> M A) :
  keeps_nonces m -> (forall e, keeps_nonces (f e)) ->
  keeps_nonces (try_except m h f).
Proof.
  intros Hm Hf w. unfold try_except. specialize (Hm w).
  destruct (m w) as [[a|e] w1]; simpl in *; [done|].
  destruct (h e); [by rewrite Hf | done].
Qed.

Lemma keeps_nonces_of_sum {A} (r : exn + A) : keeps_nonces (Routes.of_sum r).
Proof. destruct r; by intros w. Qed.

Lemma keeps_nonces_send (E : Env) (req : HttpRequest) :
  keeps_nonces (Url.send E req).
Proof. intros w. unfold Url.send. by destruct (http_send E _ _). Qed.

Lemma keeps_nonces_get_nonce (a : option string) :
  keeps_nonces (UserNonce.get_nonce a).
Proof. by intros w. Qed.

#[export] Hint Resolve keeps_nonces_ret keeps_nonces_raise keeps_nonces_bind
  keeps_nonces_try keeps_nonces_of_sum keeps_nonces_send
  keeps_nonces_get_nonce : keeps.

(** ** The SSRF screen *)

Section UrlFacts.
Context (E : Env).

Lemma ip_address_one_char (c : ascii) :
  Ipaddress.ip_address (String c EmptyString) = None.
Proof. destruct c as [[] [] [] [] [] [] [] []]; vm_compute; reflexivity. Qed.

Lemma remove_dot_nonempty (s : string) :
  PyStr.truthy (PyStr.remove "." s) = true -> PyStr.truthy s = true.
Proof. by destruct s. Qed.

(** A text that passes [is_ip] is not empty. *)
Lemma is_ip_nonempty (domain : string) :
  Url.is_ip domain = true -> exists c rest, domain = String c rest.
Proof.
  unfold Url.is_ip, PyStr.isnumeric. intros H.
  apply andb_true_iff in H as [H _]. apply remove_dot_nonempty in H.
  destruct domain; [discriminate | eauto].
Qed.

(** The literal check iterates over the characters of the text, and no
    single character is an address: the check fails on every text that
    passes [is_ip], whatever the configuration. *)
Lemma literal_check_fails (domain : string) :
  Url.is_ip domain = true ->
  Url.validate_dns_records E domain (Some (Url.Text domain)) "" = false.
Proof.
  intros H. destruct (is_ip_nonempty _ H) as (c & rest & ->).
  unfold Url.validate_dns_records. simpl.
  unfold Url.validate_dns_record. by rewrite ip_address_one_char.
Qed.

Lemma is_safe_domain_literal (domain : string) :
  Url.is_ip domain = true -> Url.is_safe_domain E domain = false.
Proof.
  intros H. unfold Url.is_safe_domain. rewrite H.
  change (negb true) with false. cbv iota zeta.
  rewrite literal_check_fails by done. apply andb_false_r.
Qed.

Lemma is_safe_domain_not_literal (domain : string) :
  Url.is_ip domain = false ->
  Url.is_safe_domain E domain
  = Url.validate_dns_records E domain (Url._get_records E domain "A") "A"
    && Url.validate_dns_records E domain
         (Url._get_records E domain "AAAA") "AAAA".
Proof. intros H. unfold Url.is_safe_domain. by rewrite H. Qed.

Lemma is_safe_url_parsed (url : string) (result : Urllib.ParseResult) :
  Urllib.urlparse url = Some result ->
  Url.is_safe_url E url
  = PyStr.truthy (Urllib.scheme result) && PyStr.truthy (Urllib.netloc result)
    && Url.is_safe_domain E (Urllib.netloc result).
Proof.
  intros H. unfold Url.is_safe_url, Url.is_safe_schema. rewrite H.
  by destruct (PyStr.truthy (Urllib.scheme result) && _).
Qed.

Lemma get_records_raise (domain record_type : string) (e : exn) :
  dns_resolve E domain record_type = DnsRaise e ->
  Url._get_records E domain record_type = None.
Proof. intros H. unfold Url._get_records. by rewrite H. Qed.

End UrlFacts.

(** The record checks read the surroundings only through the
    configuration. *)
Lemma validate_dns_records_config (E E' : Env) (domain : string)
    (records : option Url.Records) (record_type : string) :
  config E' = config E ->
  Url.validate_dns_records E' domain records record_type
  = Url.validate_dns_records E domain records record_type.
Proof.
  intros Hc. destruct records as [rs|]; [|done]. simpl.
  induction (Url.iterate rs) as [|r l IH]; [done|]. simpl.
  rewrite IH. unfold Url.validate_dns_record. by rewrite Hc.
Qed.

(** *** Literal hosts *)

(** A bracketed IPv6 literal is judged safe under the default
    configuration when the resolver has no records for it: the statement
    of C1 that [isSafe("http://[::1]/x")] is false by default does not
    hold. *)
Lemma ipv6_literal_safe_by_default :
  allow_non_public_ip (config (Sample.env false)) = false
  /\ dns_resolve (Sample.env false) "[::1]" "A"
     = DnsRaise (OtherException "NXDOMAIN")
  /\ dns_resolve (Sample.env false) "[::1]" "AAAA"
     = DnsRaise (OtherException "NXDOMAIN")
  /\ Url.is_safe_url (Sample.env false) "http://[::1]/x" = true.
Proof. repeat split; vm_compute; reflexivity. Qed.

(** C1 (amended).  For every URL whose network location consists of digits
    and dots only ([is_ip]), [is_safe_url] adds a literal check of the
    network location to the checks of its A and AAAA records; under the
    default configuration [isSafe("http://127.0.0.1/x")] is false.  A
    bracketed IPv6 literal is not recognised as a literal:
    [isSafe("http://[::1]/x")] is decided by the DNS records of the name
    ["[::1]"] alone and is true, with or without [allow_non_public_ip],
    when the resolution of that name fails. *)
Theorem literal_check_dotted_only (E : Env) :
  (forall url result,
      Urllib.urlparse url = Some result ->
      PyStr.truthy (Urllib.scheme result) = true ->
      Url.is_ip (Urllib.netloc result) = true ->
      Url.is_safe_url E url
      = Url.validate_dns_records E (Urllib.netloc result)
          (Url._get_records E (Urllib.netloc result) "A") "A"
        && Url.validate_dns_records E (Urllib.netloc result)
             (Url._get_records E (Urllib.netloc result) "AAAA") "AAAA"
        && Url.validate_dns_records E (Urllib.netloc result)
             (Some (Url.Text (Urllib.netloc result))) "")
  /\ (allow_non_public_ip (config E) = false ->
      Url.is_safe_url E "http://127.0.0.1/x" = false)
  /\ (forall e4 e6,
         dns_resolve E "[::1]" "A" = DnsRaise e4 ->
         dns_resolve E "[::1]" "AAAA" = DnsRaise e6 ->
         Url.is_safe_url E "http://[::1]/x" = true).
Proof.
  split; [|split].
  - intros url result Hp Hs Hip.
    rewrite (is_safe_url_parsed E url result Hp), Hs.
    destruct (is_ip_nonempty _ Hip) as (c & rest & Hnl).
    unfold Url.is_safe_domain. rewrite Hip, Hnl. reflexivity.
  - intros _.
    rewrite (is_safe_url_parsed E _ _ urlparse_v4). simpl Urllib.netloc.
    rewrite is_safe_domain_literal by reflexivity. apply andb_false_r.
  - intros e4 e6 H4 H6.
    rewrite (is_safe_url_parsed E _ _ urlparse_v6). simpl Urllib.netloc.
    rewrite is_safe_domain_not_literal by reflexivity.
    by rewrite (get_records_raise E _ _ _ H4), (get_records_raise E _ _ _ H6).
Qed.

Lemma literal_check_dotted_only_witness :
  Url.is_safe_url (Sample.env false) "http://127.0.0.1/x" = false
  /\ Url.is_safe_url (Sample.env true) "http://[::1]/x" = true.
Proof.
  split.
  - apply (proj1 (proj2 (literal_check_dotted_only (Sample.env false)))).
    reflexivity.
  - apply (proj2 (proj2 (literal_check_dotted_only (Sample.env true)))
             (OtherException "NXDOMAIN") (OtherException "NXDOMAIN"));
      reflexivity.
Defined.

(** The literal check never succeeds: a host of digits and dots makes the
    URL unsafe whatever the configuration and whatever the address. *)
Lemma dotted_literal_never_safe (E : Env) (url : string)
    (result : Urllib.ParseResult) :
  Urllib.urlparse url = Some result ->
  Url.is_ip (Urllib.netloc result) = true ->
  Url.is_safe_url E url = false.
Proof.
  intros Hp Hip. rewrite (is_safe_url_parsed E url result Hp).
  rewrite is_safe_domain_literal by done. apply andb_false_r.
Qed.

Example loopback_literal_with_override :
  Url.is_safe_url (Sample.env true) "http://127.0.0.1/x" = false.
Proof. apply (dotted_literal_never_safe _ _ _ urlparse_v4). reflexivity. Qed.

Example public_literal :
  Url.is_safe_url (Sample.env false) "http://8.8.8.8/x" = false.
Proof. vm_compute. reflexivity. Qed.

Example resolved_names :
  Url.is_safe_url (Sample.env false) "http://example.com/hello" = true
  /\ Url.is_safe_url (Sample.env false) "http://intranet.test/x" = false
  /\ Url.is_safe_url (Sample.env true) "http://intranet.test/x" = true
  /\ Url.is_safe_url (Sample.env false) "not a url" = false.
Proof. repeat split; vm_compute; reflexivity. Qed.

(** *** Resolver failures *)

(** A lookup that fails makes the verdict on the domain at least as
    favourable as under any resolver that differs only in answering that
    lookup. *)
Lemma lookup_failure_favourable (E E' : Env) (domain record_type : string)
    (e : exn) :
  dns_resolve E domain record_type = DnsRaise e ->
  config E' = config E ->
  (forall rt, rt <> record_type ->
              dns_resolve E' domain rt = dns_resolve E domain rt) ->
  Url.is_safe_domain E' domain = true ->
  Url.is_safe_domain E domain = true.
Proof.
  intros Hfail Hc Hsame. pose proof (get_records_raise E _ _ _ Hfail) as Hnone.
  unfold Url.is_safe_domain.
  rewrite !(validate_dns_records_config E E') by done.
  assert (Hrec : forall rt,
             Url.validate_dns_records E domain
               (Url._get_records E' domain rt) rt = true ->
             Url.validate_dns_records E domain
               (Url._get_records E domain rt) rt = true).
  { intros rt Hv. destruct (decide (rt = record_type)) as [->|Hne].
    - by rewrite Hnone.
    - unfold Url._get_records in *. by rewrite <- (Hsame rt Hne). }
  destruct (negb (Url.is_ip domain)).
  - intros [H4 H6]%andb_true_iff. by rewrite (Hrec _ H4), (Hrec _ H6).
  - intros [[H4 H6]%andb_true_iff Hl]%andb_true_iff.
    by rewrite (Hrec _ H4), (Hrec _ H6), Hl.
Qed.

Section ResolvingFacts.
Context (E : Env).
Context (new_resolver : string -> string -> option exn).

Lemma resolving_get_records (domain record_type : string) :
  new_resolver domain record_type = None ->
  Resolving._get_records E new_resolver domain record_type
  = inr (Url._get_records E domain record_type).
Proof. intros H. unfold Resolving._get_records. by rewrite H. Qed.

Lemma resolving_is_safe_domain (domain : string) :
  new_resolver domain "A" = None ->
  new_resolver domain "AAAA" = None ->
  Resolving.is_safe_domain E new_resolver domain
  = inr (Url.is_safe_domain E domain).
Proof.
  intros H4 H6. unfold Resolving.is_safe_domain.
  rewrite !resolving_get_records by done.
  cbn [Py.and_then]. unfold Url.is_safe_domain.
  by destruct (negb (Url.is_ip domain)).
Qed.

Lemma resolving_is_safe_domain_raise (domain : string) (e : exn) :
  new_resolver domain "A" = Some e
  \/ (new_resolver domain "A" = None /\ new_resolver domain "AAAA" = Some e) ->
  Resolving.is_safe_domain E new_resolver domain = inl e.
Proof.
  unfold Resolving.is_safe_domain, Resolving._get_records.
  intros [-> | [-> ->]]; reflexivity.
Qed.

Lemma resolving_is_safe_url (url : string) :
  (forall result,
      Urllib.urlparse url = Some result ->
      new_resolver (Urllib.netloc result) "A" = None
      /\ new_resolver (Urllib.netloc result) "AAAA" = None) ->
  Resolving.is_safe_url E new_resolver url = inr (Url.is_safe_url E url).
Proof.
  intros H. unfold Resolving.is_safe_url, Url.is_safe_url.
  destruct (negb (Url.is_safe_schema url)); [done|].
  destruct (Urllib.urlparse url) as [result|]; [|done].
  destruct (H result eq_refl) as [H4 H6].
  by apply resolving_is_safe_domain.
Qed.

Lemma resolving_is_safe_url_raise (url : string)
    (result : Urllib.ParseResult) (e : exn) :
  Urllib.urlparse url = Some result ->
  PyStr.truthy (Urllib.scheme result) = true ->
  PyStr.truthy (Urllib.netloc result) = true ->
  new_resolver (Urllib.netloc result) "A" = Some e
  \/ (new_resolver (Urllib.netloc result) "A" = None
      /\ new_resolver (Urllib.netloc result) "AAAA" = Some e) ->
  Resolving.is_safe_url E new_resolver url = inl e.
Proof.
  intros Hp Hs Hn He. unfold Resolving.is_safe_url, Url.is_safe_schema.
  rewrite Hp, Hs, Hn. cbn [andb negb].
  by apply resolving_is_safe_domain_raise.
Qed.

Lemma resolving_check_url_details (url : string) (with_checksum : bool)
    (w : World) :
  Resolving.check_url_details E new_resolver url with_checksum w
  = match Resolving.is_safe_url E new_resolver url with
    | inl e =>
        if is_RequestException e then (Ret (false, ∅), w) else (Raise e, w)
    | inr false => (Ret (false, ∅), w)
    | inr true =>
        match Url._get_result_from_url E url with_checksum w with
        | (Ret (result, extra_data), w') =>
            (Ret (default (false, ∅) (Url.describe result extra_data)), w')
        | (Raise e, w') =>
            if is_RequestException e then (Ret (false, ∅), w')
            else (Raise e, w')
        end
    end.
Proof.
  unfold Resolving.check_url_details, Resolving.check_url_details_try,
    try_except, bind.
  destruct (Resolving.is_safe_url E new_resolver url) as [e|[|]];
    cbn [Routes.of_sum raise ret negb].
  - by destruct (is_RequestException e).
  - destruct (Url._get_result_from_url E url with_checksum w)
      as [[[result extra]|e] w'].
    + by destruct (Url.describe result extra).
    + by destruct (is_RequestException e).
  - done.
Qed.

End ResolvingFacts.

(** C5.  A failure of the lookup, of any kind, yields no record set
    ([_get_records] returns [None] and raises nothing), the absent record
    set passes the check, and the verdict on the domain is at least as
    favourable as under any resolver that differs only in answering that
    lookup: whenever the resolver can be constructed, [is_safe_domain]
    returns a verdict whatever the lookups do.  An exception of the
    construction of the resolver, which precedes the guarded lookup, is
    not caught: it is raised by [_get_records], [is_safe_domain] and, for
    a URL with scheme and network location, [is_safe_url], and passes
    through [check_url_details] unless it is a [RequestException]. *)
Theorem resolver_failure_is_no_violation (E : Env)
    (new_resolver : string -> string -> option exn)
    (domain record_type : string) :
  (forall e,
      new_resolver domain record_type = None ->
      dns_resolve E domain record_type = DnsRaise e ->
      Resolving._get_records E new_resolver domain record_type = inr None
      /\ Url.validate_dns_records E domain None record_type = true)
  /\ (new_resolver domain "A" = None ->
      new_resolver domain "AAAA" = None ->
      exists verdict,
        Resolving.is_safe_domain E new_resolver domain = inr verdict)
  /\ (forall e E',
         new_resolver domain "A" = None ->
         new_resolver domain "AAAA" = None ->
         dns_resolve E domain record_type = DnsRaise e ->
         config E' = config E ->
         (forall rt, rt <> record_type ->
                     dns_resolve E' domain rt = dns_resolve E domain rt) ->
         Resolving.is_safe_domain E' new_resolver domain = inr true ->
         Resolving.is_safe_domain E new_resolver domain = inr true)
  /\ (forall e,
         new_resolver domain record_type = Some e ->
         Resolving._get_records E new_resolver domain record_type = inl e)
  /\ (forall e,
         new_resolver domain "A" = Some e
         \/ (new_resolver domain "A" = None
             /\ new_resolver domain "AAAA" = Some e) ->
         Resolving.is_safe_domain E new_resolver domain = inl e
         /\ forall url result with_checksum w,
             Urllib.urlparse url = Some result ->
             PyStr.truthy (Urllib.scheme result) = true ->
             Urllib.netloc result = domain ->
             PyStr.truthy domain = true ->
             Resolving.is_safe_url E new_resolver url = inl e
             /\ Resolving.check_url_details E new_resolver url with_checksum w
                = if is_RequestException e then (Ret (false, ∅), w)
                  else (Raise e, w)).
Proof.
  split_and!.
  - intros e Hnew Hfail. split; [|done].
    rewrite resolving_get_records by done.
    by rewrite (get_records_raise E _ _ _ Hfail).
  - intros H4 H6. eexists. by apply resolving_is_safe_domain.
  - intros e E' H4 H6 Hfail Hc Hsame.
    rewrite !resolving_is_safe_domain by done.
    intros [= H]. f_equal.
    by apply (lookup_failure_favourable E E' domain record_type e).
  - intros e Hnew. unfold Resolving._get_records. by rewrite Hnew.
  - intros e He. split; [by apply resolving_is_safe_domain_raise|].
    intros url result with_checksum w Hp Hs <- Hn.
    assert (Hurl : Resolving.is_safe_url E new_resolver url = inl e)
      by (by apply (resolving_is_safe_url_raise E new_resolver url result)).
    split; [done|]. by rewrite resolving_check_url_details, Hurl.
Qed.

Lemma resolver_failure_is_no_violation_witness :
  Resolving._get_records (Sample.env false) Resolving.configured
    "example.com" "AAAA"
  = inr None
  /\ Url.validate_dns_records (Sample.env false) "example.com" None "AAAA"
     = true.
Proof.
  pose proof (resolver_failure_is_no_violation (Sample.env false)
                Resolving.configured "example.com" "AAAA") as (H & _).
  exact (H (OtherException "NoAnswer") eq_refl eq_refl).
Defined.

(** Against C5 as stated: on a host without resolver configuration the
    error of the resolver is not swallowed; it is raised by
    [_get_records], by [is_safe_url] and by [check_url_details]. *)
Lemma resolver_construction_error_propagates :
  Resolving._get_records (Sample.env false) Resolving.unconfigured
    "example.com" "A"
  = inl (OtherException "NoResolverConfiguration")
  /\ Resolving.is_safe_url (Sample.env false) Resolving.unconfigured
       "http://example.com/hello"
     = inl (OtherException "NoResolverConfiguration")
  /\ Resolving.check_url_details (Sample.env false) Resolving.unconfigured
       "http://example.com/hello" false Sample.world0
     = (Raise (OtherException "NoResolverConfiguration"), Sample.world0).
Proof. split_and!; vm_compute; reflexivity. Qed.

(** When every lookup fails and the host is not a dotted literal, a URL
    with a scheme and a network location is safe. *)
Lemma all_lookups_fail_safe (E : Env) (url : string)
    (result : Urllib.ParseResult) :
  Urllib.urlparse url = Some result ->
  PyStr.truthy (Urllib.scheme result) = true ->
  PyStr.truthy (Urllib.netloc result) = true ->
  Url.is_ip (Urllib.netloc result) = false ->
  (forall rt, exists e, dns_resolve E (Urllib.netloc result) rt = DnsRaise e) ->
  Url.is_safe_url E url = true.
Proof.
  intros Hp Hs Hn Hip Hfail.
  rewrite (is_safe_url_parsed E url result Hp), Hs, Hn.
  rewrite is_safe_domain_not_literal by done.
  destruct (Hfail "A"%string) as [e4 H4]. destruct (Hfail "AAAA"%string) as [e6 H6].
  by rewrite (get_records_raise E _ _ _ H4), (get_records_raise E _ _ _ H6).
Qed.

(** ** The content probe *)

Lemma logged_logged (l1 l2 : list HttpRequest) (w : World) :
  logged l2 (logged l1 w) = logged (l1 ++ l2) w.
Proof. unfold logged. simpl. by rewrite app_assoc. Qed.

Section SendFacts.
Context (E : Env).

Lemma send_eq (req : HttpRequest) (w : World) :
  Url.send E req w
  = (match http_send E (http_log w) req with
     | HttpOk r => Ret r
     | HttpRaise e => Raise e
     end, logged [req] w).
Proof. unfold Url.send. by destruct (http_send E _ _). Qed.

End SendFacts.

(** *** Chunked hashing *)

Lemma cut_concat (lengths : list nat) (body : bytes) :
  concat (Url.cut lengths body) = body.
Proof.
  revert body. induction lengths as [|n rest IH]; intros body;
    cbn [Url.cut].
  - destruct body; [reflexivity|]. cbn [concat]. apply app_nil_r.
  - cbn [concat]. rewrite IH. apply take_drop.
Qed.

Lemma iter_content_concat (chunk_size : positive) (r : Response) :
  concat (Url.iter_content chunk_size r) = content r.
Proof. apply cut_concat. Qed.

Lemma sha_update_fold (chunks : list bytes) (sha : bytes) :
  fold_left Url.sha_update chunks sha = sha ++ concat chunks.
Proof.
  revert sha. induction chunks as [|c chunks IH]; intros sha; simpl.
  - by rewrite app_nil_r.
  - rewrite IH. unfold Url.sha_update. by rewrite app_assoc.
Qed.

(** Feeding the items one by one hashes the whole body, however it is
    cut. *)
Lemma sha_of_chunks (chunk_size : positive) (r : Response) :
  fold_left Url.sha_update (Url.iter_content chunk_size r) Url.sha_new
  = content r.
Proof. by rewrite sha_update_fold, iter_content_concat. Qed.

(** *** What [_get_result_from_url] and [check_url_details] compute *)

Section ProbeFacts.
Context (E : Env).

Local Abbreviation head_req url := (Url.probe_request E "head" url).
Local Abbreviation options_req url := (Url.probe_request E "options" url).
Local Abbreviation get_req url := (Url.checksum_request url).

Lemma get_result_checksum_eq (url : string) (w : World) :
  Url._get_result_from_url E url true w
  = match http_send E (http_log w) (head_req url) with
    | HttpRaise e => (Raise e, logged [head_req url] w)
    | HttpOk _ =>
        match http_send E (http_log w ++ [head_req url]) (options_req url) with
        | HttpRaise e => (Raise e, logged [head_req url; options_req url] w)
        | HttpOk _ =>
            match http_send E (http_log w ++ [head_req url; options_req url])
                    (get_req url) with
            | HttpRaise e =>
                (Raise e, logged [head_req url; options_req url; get_req url] w)
            | HttpOk r =>
                if (400 <=? status_code r) && (status_code r <? 600)
                then (Raise (HTTPError (status_code r)),
                      logged [head_req url; options_req url; get_req url] w)
                else (Ret (r, checksum_entries E (content r)),
                      logged [head_req url; options_req url; get_req url] w)
            end
        end
    end.
Proof.
  unfold Url._get_result_from_url, Url.probe_loop.
  unfold bind at 1. unfold bind at 1. rewrite send_eq.
  destruct (http_send E (http_log w) (head_req url)) as [r1|e1]; [|done].
  change (negb true && Url.sufficient r1) with false. cbv iota.
  unfold bind at 1. rewrite send_eq, logged_logged. cbn [app].
  change (http_log (logged [head_req url] w))
    with (http_log w ++ [head_req url]).
  destruct (http_send E (http_log w ++ [head_req url]) (options_req url))
    as [r2|e2]; [|done].
  change (negb true && Url.sufficient r2) with false. cbv iota.
  unfold ret at 1. change (negb true) with false. cbv iota.
  unfold bind at 1. rewrite send_eq, logged_logged. cbn [app].
  change (http_log (logged [head_req url; options_req url] w))
    with (http_log w ++ [head_req url; options_req url]).
  destruct (http_send E (http_log w ++ [head_req url; options_req url])
              (get_req url)) as [r|e]; [|done].
  unfold bind, Url.raise_for_status.
  destruct ((400 <=? status_code r) && (status_code r <? 600)); [done|].
  unfold ret. by rewrite sha_of_chunks.
Qed.

Lemma get_result_plain_extra (url : string) (w w' : World) (r : Response)
    (extra : gmap string string) :
  Url._get_result_from_url E url false w = (Ret (r, extra), w') -> extra = ∅.
Proof.
  unfold Url._get_result_from_url, Url.probe_loop.
  unfold bind at 1. unfold bind at 1. rewrite send_eq.
  destruct (http_send E (http_log w) (head_req url)) as [r1|e1]; [|done].
  change (negb false) with true. cbv iota. rewrite !andb_true_l.
  destruct (Url.sufficient r1).
  { unfold ret. by intros [= _ <- _]. }
  unfold bind at 1. rewrite send_eq.
  destruct (http_send E _ (options_req url)) as [r2|e2]; [|done].
  rewrite !andb_true_l.
  destruct (Url.sufficient r2).
  { unfold ret. by intros [= _ <- _]. }
  unfold ret at 1. unfold bind. rewrite send_eq.
  destruct (http_send E _ (Url.fallback_request E url)) as [r3|e3]; [|done].
  unfold ret. by intros [= _ <- _].
Qed.

Lemma get_result_extra (url : string) (with_checksum : bool) (w w' : World)
    (r : Response) (extra : gmap string string) :
  Url._get_result_from_url E url with_checksum w = (Ret (r, extra), w') ->
  extra = if with_checksum then checksum_entries E (content r) else ∅.
Proof.
  destruct with_checksum; [|apply get_result_plain_extra].
  rewrite get_result_checksum_eq.
  repeat match goal with
         | |- context [match ?x with _ => _ end] => destruct x
         end; try done.
  by intros [= <- <- _].
Qed.

Lemma check_url_details_eq (url : string) (with_checksum : bool) (w : World) :
  Url.check_url_details E url with_checksum w
  = if Url.is_safe_url E url then
      match Url._get_result_from_url E url with_checksum w with
      | (Ret (result, extra_data), w') =>
          (Ret (default (false, ∅) (Url.describe result extra_data)), w')
      | (Raise e, w') =>
          if is_RequestException e then (Ret (false, ∅), w')
          else (Raise e, w')
      end
    else (Ret (false, ∅), w).
Proof.
  unfold Url.check_url_details, Url.check_url_details_try.
  destruct (Url.is_safe_url E url); [|done].
  change (negb true) with false. cbv iota.
  unfold bind, try_except.
  destruct (Url._get_result_from_url E url with_checksum w)
    as [[[result extra_data]|e] w']; simpl.
  - by destruct (Url.describe result extra_data).
  - by destruct (is_RequestException e).
Qed.

End ProbeFacts.

Lemma or_empty_truthy (v : option string) :
  PyStr.truthy_opt v = true -> Url.or_empty v <> EmptyString.
Proof. destruct v as [[|c s]|]; simpl; done. Qed.

Lemma checksum_entries_lookup (E : Env) (body : bytes) :
  checksum_entries E body !! "checksum"%string = Some (sha256_hexdigest E body)
  /\ checksum_entries E body !! "checksumType"%string = Some "sha256"%string
  /\ checksum_entries E body !! "contentType"%string = None
  /\ checksum_entries E body !! "contentLength"%string = None
  /\ checksum_entries E body <> ∅.
Proof.
  unfold checksum_entries. split_and!; try by simplify_map_eq.
  all: try apply insert_non_empty.
Qed.

(** What a successful descriptor holds. *)
Lemma describe_Some (result : Response) (extra_data d : gmap string string)
    (valid : bool) :
  Url.describe result extra_data = Some (valid, d) ->
  extra_data !! "contentType"%string = None ->
  extra_data !! "contentLength"%string = None ->
  valid = true /\ status_code result = 200
  /\ (forall k, k <> "contentType"%string -> k <> "contentLength"%string ->
                d !! k = extra_data !! k)
  /\ exists ct cl,
      d !! "contentType"%string = Some ct
      /\ d !! "contentLength"%string = Some cl
      /\ (ct <> EmptyString \/ cl <> EmptyString).
Proof.
  unfold Url.describe. intros H Hct Hcl.
  destruct (status_code result =? 200) eqn:Hs; [|done].
  apply Z.eqb_eq in Hs. cbv zeta in H.
  match type of H with
  | context [PyStr.truthy_opt ?t || PyStr.truthy_opt ?l] =>
      set (ct := t) in *; set (cl := l) in *
  end.
  destruct (PyStr.truthy_opt ct || PyStr.truthy_opt cl) eqn:Hor; [|done].
  injection H as <- <-. split; [done|]. split; [done|].
  assert (Hd : forall (m : gmap string string),
             m = (if bool_decide (extra_data = ∅)
                  then {[ "contentLength"%string := Url.or_empty cl;
                          "contentType"%string := Url.or_empty ct ]}
                  else extra_data ∪ {[ "contentLength"%string := Url.or_empty cl;
                                       "contentType"%string := Url.or_empty ct ]}) ->
             forall k, m !! k
                       = match extra_data !! k with
                         | Some v => Some v
                         | None => ({[ "contentLength"%string := Url.or_empty cl;
                                       "contentType"%string := Url.or_empty ct ]}
                                     : gmap string string) !! k
                         end).
  { intros m -> k. case_bool_decide as He.
    - subst extra_data. by rewrite lookup_empty.
    - rewrite lookup_union. by destruct (extra_data !! k), (_ !! k). }
  split.
  - intros k Hk1 Hk2. rewrite (Hd _ eq_refl k).
    destruct (extra_data !! k); [done|]. by simplify_map_eq.
  - exists (Url.or_empty ct), (Url.or_empty cl).
    rewrite !(Hd _ eq_refl), Hct, Hcl. split; [by simplify_map_eq|].
    split; [by simplify_map_eq|].
    apply orb_true_iff in Hor as [H|H]; [left|right]; by apply or_empty_truthy.
Qed.

(** Without a content type and without a length, given or derivable from
    [Content-Range], there is no descriptor. *)
Lemma describe_nothing_known (result : Response)
    (extra_data : gmap string string) :
  PyStr.truthy_opt (headers_get "Content-Type" result) = false ->
  PyStr.truthy_opt (headers_get "Content-Length" result) = false ->
  (forall content_range,
      headers_get "Content-Range" result = Some content_range ->
      PyStr.truthy_opt (PyStr.split "-" content_range !! 1%nat) = false) ->
  Url.describe result extra_data = None.
Proof.
  intros H1 H2 H3. unfold Url.describe.
  destruct (status_code result =? 200); [|done].
  rewrite H1, H2. cbv zeta. simpl negb. rewrite andb_true_l.
  destruct (headers_get "Content-Range" result) as [cr|] eqn:Hcr.
  - specialize (H3 cr eq_refl). simpl default.
    destruct (PyStr.truthy_opt (Some cr)).
    + destruct (PyStr.split "-" cr !! 1%nat) as [x|] eqn:Hx.
      * by rewrite H1, H3.
      * by rewrite H1, H2.
    + by rewrite H1, H2.
  - simpl. by rewrite H1, H2.
Qed.

(** *** Statements about the content probe *)

Lemma fileinfo_loop_single (E : Env) (i : Z) (url : string)
    (with_checksum valid : bool) (details : gmap string string)
    (w w' : World) :
  Url.check_url_details E url with_checksum w = (Ret (valid, details), w') ->
  Routes.fileinfo_loop E i [url] with_checksum w
  = (Ret [JDict ((JStr <$> details)
                 ∪ {[ "index"%string := JNum i;
                      "valid"%string := JBool valid ]})], w').
Proof.
  intros H. unfold Routes.fileinfo_loop.
  rewrite (bind_ret_eq _ _ _ _ _ H). reflexivity.
Qed.

(** C9.  For a URL that [is_safe_url] rejects, [check_url_details] returns
    [(False, {})] and leaves the world as it was: no upstream request is
    issued.  A transport failure of the probe gives the same value, so the
    entry [/fileinfo] reports for either URL is [valid = false] with no
    further key, in an answer with status 200. *)
Theorem unsafe_url_reported_invalid (E : Env) (url : string)
    (with_checksum : bool) (w : World) :
  Url.is_safe_url E url = false ->
  Url.check_url_details E url with_checksum w = (Ret (false, ∅), w)
  /\ (forall url' w1 e w2,
         Url._get_result_from_url E url' with_checksum w1 = (Raise e, w2) ->
         is_RequestException e = true ->
         (Url.check_url_details E url' with_checksum w1).1 = Ret (false, ∅)
         /\ forall i,
             (Routes.fileinfo_loop E i [url'] with_checksum w1).1
             = (Routes.fileinfo_loop E i [url] with_checksum w).1)
  /\ (forall i,
         Routes.fileinfo_loop E i [url] with_checksum w
         = (Ret [JDict {[ "index"%string := JNum i;
                          "valid"%string := JBool false ]}], w))
  /\ (forall request,
         let data := Util.get_request_data request in
         PyStr.truthy_opt (data !! "did"%string) = false ->
         get_download_url E (data !! "url"%string) = inr url ->
         Routes.fileinfo E request w
         = (Ret {| resp_body :=
                     JsonDumps
                       (JList [JDict {[ "index"%string := JNum 0;
                                        "valid"%string := JBool false ]}]);
                   resp_status := 200;
                   resp_headers := Routes.json_headers;
                   resp_content_type := None |}, w)).
Proof.
  intros Hunsafe.
  assert (Hc : forall wc,
             Url.check_url_details E url wc w = (Ret (false, ∅), w)).
  { intros wc. by rewrite check_url_details_eq, Hunsafe. }
  assert (Hf : forall wc i,
             Routes.fileinfo_loop E i [url] wc w
             = (Ret [JDict {[ "index"%string := JNum i;
                              "valid"%string := JBool false ]}], w)).
  { intros wc i. rewrite (fileinfo_loop_single E i _ _ _ _ _ _ (Hc wc)).
    by rewrite fmap_empty, (left_id_L ∅ (∪)). }
  split_and!; [done| |done|].
  - intros url' w1 e w2 Hraise He.
    assert (Hc' : exists w3, Url.check_url_details E url' with_checksum w1
                             = (Ret (false, ∅), w3)).
    { rewrite check_url_details_eq. destruct (Url.is_safe_url E url'); [|eauto].
      rewrite Hraise, He. eauto. }
    destruct Hc' as [w3 Hc']. split; [by rewrite Hc'|].
    intros i. rewrite (fileinfo_loop_single E i _ _ _ _ _ _ Hc'), Hf.
    by rewrite fmap_empty, (left_id_L ∅ (∪)).
  - intros request data Hdid Hurl. unfold Routes.fileinfo. fold data.
    rewrite Hdid, Hurl. unfold bind, Routes.of_sum, ret.
    by rewrite Hf.
Qed.

Lemma unsafe_url_reported_invalid_witness :
  Url.check_url_details (Sample.env false) "http://intranet.test/x" false
    Sample.world0
  = (Ret (false, ∅), Sample.world0).
Proof.
  apply (unsafe_url_reported_invalid (Sample.env false)
           "http://intranet.test/x" false Sample.world0).
  reflexivity.
Defined.

(** C10.  [check_url_details] answers [(True, details)] only for a
    response with status 200, and then [details] holds a [contentType] and
    a [contentLength] of which at least one is not empty; a response with
    status 200 that carries neither a [Content-Type] nor a
    [Content-Length], and no [Content-Range] with a length after its
    first dash, gives [(False, {})]. *)
Theorem descriptor_needs_headers (E : Env) (url : string)
    (with_checksum : bool) (w : World) :
  (forall details w',
      Url.check_url_details E url with_checksum w = (Ret (true, details), w') ->
      exists r extra,
        Url._get_result_from_url E url with_checksum w = (Ret (r, extra), w')
        /\ status_code r = 200
        /\ exists ct cl,
            details !! "contentType"%string = Some ct
            /\ details !! "contentLength"%string = Some cl
            /\ (ct <> EmptyString \/ cl <> EmptyString))
  /\ (forall r extra w',
         Url._get_result_from_url E url with_checksum w = (Ret (r, extra), w') ->
         status_code r = 200 ->
         PyStr.truthy_opt (headers_get "Content-Type" r) = false ->
         PyStr.truthy_opt (headers_get "Content-Length" r) = false ->
         (forall content_range,
             headers_get "Content-Range" r = Some content_range ->
             PyStr.truthy_opt (PyStr.split "-" content_range !! 1%nat)
             = false) ->
         (Url.check_url_details E url with_checksum w).1 = Ret (false, ∅)).
Proof.
  split.
  - intros details w' H. rewrite check_url_details_eq in H.
    destruct (Url.is_safe_url E url); [|discriminate].
    destruct (Url._get_result_from_url E url with_checksum w)
      as [[[r extra]|e] w1] eqn:Hg.
    + injection H as Hd <-. exists r, extra. split; [done|].
      destruct (Url.describe r extra) as [[v d]|] eqn:Hdesc;
        [|discriminate].
      simpl in Hd. injection Hd as -> ->.
      pose proof (get_result_extra E _ _ _ _ _ _ Hg) as Hx.
      destruct (checksum_entries_lookup E (content r)) as (_ & _ & H1 & H2 & _).
      assert (extra !! "contentType"%string = None
              /\ extra !! "contentLength"%string = None) as [Hn1 Hn2].
      { subst extra. by destruct with_checksum. }
      destruct (describe_Some _ _ _ _ Hdesc Hn1 Hn2) as (_ & Hs & _ & Hex).
      done.
    + destruct (is_RequestException e); discriminate.
  - intros r extra w' Hg Hs H1 H2 H3. rewrite check_url_details_eq.
    destruct (Url.is_safe_url E url); [|done].
    by rewrite Hg, (describe_nothing_known _ _ H1 H2 H3).
Qed.

Lemma descriptor_needs_headers_witness :
  (Url.check_url_details (Sample.env false) "http://example.com/bare" false
     Sample.world0).1
  = Ret (false, ∅).
Proof.
  eapply (proj2 (descriptor_needs_headers (Sample.env false)
                   "http://example.com/bare" false Sample.world0)
            (Sample.plain 200 ∅ "hello world") ∅);
    [reflexivity .. | discriminate].
Defined.

Lemma describe_known (result : Response) (extra_data : gmap string string) :
  status_code result = 200 ->
  (exists cl, headers_get "Content-Length" result = Some cl
              /\ PyStr.truthy cl = true)
  \/ (exists ct t, headers_get "Content-Type" result = Some ct
                   /\ head (PyStr.split ";" ct) = Some t
                   /\ PyStr.truthy t = true) ->
  exists d,
    Url.describe result extra_data = Some (true, d)
    /\ forall k, k <> "contentType"%string -> k <> "contentLength"%string ->
                 d !! k = extra_data !! k.
Proof.
  intros Hstatus Hknown. unfold Url.describe.
  rewrite Hstatus. change (200 =? 200) with true. cbv zeta.
  match goal with
  | |- context [if ?c then Some _ else None] =>
      assert (Hc : c = true)
  end.
  { destruct Hknown as [(cl & Hcl & Ht) | (ct & t & Hct & Hhead & Ht)].
    - rewrite Hcl. cbn [PyStr.truthy_opt]. rewrite Ht. cbn [negb andb].
      cbn [PyStr.truthy_opt]. rewrite Ht. apply orb_true_r.
    - assert (Hne : PyStr.truthy ct = true).
      { destruct ct; [|reflexivity].
        cbn in Hhead. injection Hhead as <-. discriminate. }
      rewrite Hct. cbn [PyStr.truthy_opt default from_option id].
      rewrite Hne, Hhead. cbn [PyStr.truthy_opt]. rewrite Ht. reflexivity. }
  rewrite Hc. eexists. split; [reflexivity|].
  intros k Hk1 Hk2.
  destruct (bool_decide (extra_data = ∅)) eqn:Hemp.
  - apply bool_decide_eq_true in Hemp. subst extra_data.
    rewrite lookup_empty. simplify_map_eq. reflexivity.
  - rewrite lookup_union. simplify_map_eq.
    destruct (extra_data !! k); reflexivity.
Qed.

(** C8.  With a checksum requested the probe sends [HEAD], then
    [OPTIONS], then a streamed [GET], each only when the one before was
    answered: an exception of [HEAD] or [OPTIONS] ends the probe without
    a [GET], and an error status of the [GET] raises.  Otherwise the
    result is the [GET] response with the SHA-256 hex digest of its
    entire body, however the body is cut into items, under ["checksum"]
    and ["sha256"] under ["checksumType"].  [check_url_details] reports a
    descriptor with both entries whenever that response has status 200
    and a content length or a content type; with another status the
    digest is dropped and the URL reported invalid, as it is after a
    [RequestException].  Every descriptor with a checksum arises from an
    answered [GET], and two probes that receive the same body report the
    same digest. *)
Theorem checksum_hashes_whole_body (E : Env) (url : string) (w : World) :
  let head_req := Url.probe_request E "head" url in
  let options_req := Url.probe_request E "options" url in
  let get_req := Url.checksum_request url in
  let answered r1 r2 r :=
    http_send E (http_log w) head_req = HttpOk r1
    /\ http_send E (http_log w ++ [head_req]) options_req = HttpOk r2
    /\ http_send E (http_log w ++ [head_req; options_req]) get_req
       = HttpOk r in
  (forall e,
      http_send E (http_log w) head_req = HttpRaise e ->
      Url._get_result_from_url E url true w
      = (Raise e, logged [head_req] w))
  /\ (forall r1 e,
         http_send E (http_log w) head_req = HttpOk r1 ->
         http_send E (http_log w ++ [head_req]) options_req = HttpRaise e ->
         Url._get_result_from_url E url true w
         = (Raise e, logged [head_req; options_req] w))
  /\ (forall r1 r2 e,
         http_send E (http_log w) head_req = HttpOk r1 ->
         http_send E (http_log w ++ [head_req]) options_req = HttpOk r2 ->
         http_send E (http_log w ++ [head_req; options_req]) get_req
         = HttpRaise e ->
         Url._get_result_from_url E url true w
         = (Raise e, logged [head_req; options_req; get_req] w))
  /\ (forall r1 r2 r,
         answered r1 r2 r ->
         Url._get_result_from_url E url true w
         = (if (400 <=? status_code r) && (status_code r <? 600)
            then Raise (HTTPError (status_code r))
            else Ret (r, checksum_entries E (content r)),
            logged [head_req; options_req; get_req] w))
  /\ (forall (chunk_size : positive) (r : Response),
         fold_left Url.sha_update (Url.iter_content chunk_size r)
           Url.sha_new = content r)
  /\ (forall r1 r2 r,
         Url.is_safe_url E url = true ->
         answered r1 r2 r ->
         status_code r = 200 ->
         (exists cl, headers_get "Content-Length" r = Some cl
                     /\ PyStr.truthy cl = true)
         \/ (exists ct t, headers_get "Content-Type" r = Some ct
                          /\ head (PyStr.split ";" ct) = Some t
                          /\ PyStr.truthy t = true) ->
         exists details,
           Url.check_url_details E url true w
           = (Ret (true, details), logged [head_req; options_req; get_req] w)
           /\ details !! "checksum"%string
              = Some (sha256_hexdigest E (content r))
           /\ details !! "checksumType"%string = Some "sha256"%string)
  /\ (forall r1 r2 r,
         Url.is_safe_url E url = true ->
         answered r1 r2 r ->
         status_code r <> 200 ->
         Url.check_url_details E url true w
         = (Ret (false, ∅), logged [head_req; options_req; get_req] w))
  /\ (forall details w',
         Url.check_url_details E url true w = (Ret (true, details), w') ->
         exists r,
           w' = logged [head_req; options_req; get_req] w
           /\ http_send E (http_log w ++ [head_req; options_req]) get_req
              = HttpOk r
           /\ details !! "checksum"%string
              = Some (sha256_hexdigest E (content r))
           /\ details !! "checksumType"%string = Some "sha256"%string)
  /\ (forall w2 d1 d2 w1' w2' r1 r2,
         Url.check_url_details E url true w = (Ret (true, d1), w1') ->
         Url.check_url_details E url true w2 = (Ret (true, d2), w2') ->
         http_send E (http_log w ++ [head_req; options_req]) get_req
         = HttpOk r1 ->
         http_send E (http_log w2 ++ [head_req; options_req]) get_req
         = HttpOk r2 ->
         content r1 = content r2 ->
         d1 !! "checksum"%string = d2 !! "checksum"%string).
Proof.
  intros head_req options_req get_req answered.
  assert (Hinv : forall w0 r extra w',
             Url._get_result_from_url E url true w0 = (Ret (r, extra), w') ->
             w' = logged [head_req; options_req; get_req] w0
             /\ http_send E (http_log w0 ++ [head_req; options_req]) get_req
                = HttpOk r
             /\ extra = checksum_entries E (content r)).
  { intros w0 r extra w'. rewrite get_result_checksum_eq.
    fold head_req options_req get_req.
    destruct (http_send E (http_log w0) head_req) as [a1|]; [|discriminate].
    destruct (http_send E (http_log w0 ++ [head_req]) options_req) as [a2|];
      [|discriminate].
    destruct (http_send E (http_log w0 ++ [head_req; options_req]) get_req)
      as [a3|]; [|discriminate].
    destruct ((400 <=? status_code a3) && (status_code a3 <? 600));
      [discriminate|].
    by intros [= <- <- <-]. }
  assert (Hdesc : forall w0 details w',
             Url.check_url_details E url true w0 = (Ret (true, details), w') ->
             exists r,
               w' = logged [head_req; options_req; get_req] w0
               /\ http_send E (http_log w0 ++ [head_req; options_req]) get_req
                  = HttpOk r
               /\ details !! "checksum"%string
                  = Some (sha256_hexdigest E (content r))
               /\ details !! "checksumType"%string = Some "sha256"%string).
  { intros w0 details w' H. rewrite check_url_details_eq in H.
    destruct (Url.is_safe_url E url); [|discriminate].
    destruct (Url._get_result_from_url E url true w0)
      as [[[r extra]|e] w1] eqn:Hg;
      [|destruct (is_RequestException e); discriminate].
    injection H as Hd <-.
    destruct (Url.describe r extra) as [[v d]|] eqn:Hdescribe; [|discriminate].
    simpl in Hd. injection Hd as -> ->.
    destruct (Hinv _ _ _ _ Hg) as (Hw & Hsend & ->).
    destruct (checksum_entries_lookup E (content r)) as (Hc & Ht & H1 & H2 & _).
    destruct (describe_Some _ _ _ _ Hdescribe H1 H2) as (_ & _ & Hk & _).
    exists r. split; [done|]. split; [done|]. by rewrite !Hk, Hc, Ht. }
  assert (Hget : forall r1 r2 r,
             answered r1 r2 r ->
             Url._get_result_from_url E url true w
             = (if (400 <=? status_code r) && (status_code r <? 600)
                then Raise (HTTPError (status_code r))
                else Ret (r, checksum_entries E (content r)),
                logged [head_req; options_req; get_req] w)).
  { intros r1 r2 r (H1 & H2 & H3). rewrite get_result_checksum_eq.
    fold head_req options_req get_req. rewrite H1, H2, H3.
    by destruct ((400 <=? status_code r) && (status_code r <? 600)). }
  split_and!.
  - intros e H1. rewrite get_result_checksum_eq.
    fold head_req. by rewrite H1.
  - intros r1 e H1 H2. rewrite get_result_checksum_eq.
    fold head_req options_req. by rewrite H1, H2.
  - intros r1 r2 e H1 H2 H3. rewrite get_result_checksum_eq.
    fold head_req options_req get_req. by rewrite H1, H2, H3.
  - exact Hget.
  - intros chunk_size r. apply sha_of_chunks.
  - intros r1 r2 r Hsafe Hans Hstatus Hknown.
    rewrite check_url_details_eq, Hsafe, (Hget _ _ _ Hans), Hstatus.
    change ((400 <=? 200) && (200 <? 600)) with false. cbv iota.
    destruct (describe_known r (checksum_entries E (content r)) Hstatus Hknown)
      as (d & -> & Hk).
    destruct (checksum_entries_lookup E (content r)) as (Hc & Ht & _).
    exists d. split; [done|]. by rewrite !Hk, Hc, Ht.
  - intros r1 r2 r Hsafe Hans Hstatus.
    rewrite check_url_details_eq, Hsafe, (Hget _ _ _ Hans).
    destruct ((400 <=? status_code r) && (status_code r <? 600)); [done|].
    unfold Url.describe.
    by rewrite (proj2 (Z.eqb_neq _ _) Hstatus).
  - apply Hdesc.
  - intros w2 d1 d2 w1' w2' r1 r2 Hc1 Hc2 Hs1 Hs2 Hbody.
    destruct (Hdesc _ _ _ Hc1) as (r1' & _ & Hs1' & -> & _).
    destruct (Hdesc _ _ _ Hc2) as (r2' & _ & Hs2' & -> & _).
    rewrite Hs1 in Hs1'. rewrite Hs2 in Hs2'.
    injection Hs1' as <-. injection Hs2' as <-. by rewrite Hbody.
Qed.

Lemma checksum_hashes_whole_body_witness :
  exists details,
    Url.check_url_details (Sample.env false) "http://example.com/hello" true
      Sample.world0
    = (Ret (true, details),
       logged [Url.probe_request (Sample.env false) "head"
                 "http://example.com/hello";
               Url.probe_request (Sample.env false) "options"
                 "http://example.com/hello";
               Url.checksum_request "http://example.com/hello"]
         Sample.world0)
    /\ details !! "checksum"%string
       = Some (sha256_hexdigest (Sample.env false)
                 (content (Sample.plain 200 Sample.text_headers
                             "hello world")))
    /\ details !! "checksumType"%string = Some "sha256"%string.
Proof.
  pose proof (checksum_hashes_whole_body (Sample.env false)
                "http://example.com/hello" Sample.world0)
    as (_ & _ & _ & _ & _ & H & _).
  apply (H (Sample.plain 200 Sample.text_headers "")
           (Sample.plain 200 Sample.text_headers "")
           (Sample.plain 200 Sample.text_headers "hello world"));
    [reflexivity | repeat split | reflexivity |].
  left. exists "11"%string. split; reflexivity.
Defined.

(** Against C8 as stated: a [HEAD] that raises ends the probe, so no
    [GET] is performed; and a 200 answer without content type and length
    has its body fetched and hashed, yet no digest is returned. *)
Lemma checksum_not_always_reported :
  Url.check_url_details (Sample.env false) "http://example.com/gone" true
    Sample.world0
  = (Ret (false, ∅),
     logged [Url.probe_request (Sample.env false) "head"
               "http://example.com/gone"] Sample.world0)
  /\ http_send (Sample.env false)
       [Url.probe_request (Sample.env false) "head"
          "http://example.com/bare";
        Url.probe_request (Sample.env false) "options"
          "http://example.com/bare"]
       (Url.checksum_request "http://example.com/bare")
     = HttpOk (Sample.plain 200 ∅ "hello world")
  /\ Url.check_url_details (Sample.env false) "http://example.com/bare" true
       Sample.world0
     = (Ret (false, ∅),
        logged [Url.probe_request (Sample.env false) "head"
                  "http://example.com/bare";
                Url.probe_request (Sample.env false) "options"
                  "http://example.com/bare";
                Url.checksum_request "http://example.com/bare"]
          Sample.world0).
Proof. split_and!; vm_compute; reflexivity. Qed.

Example checksum_of_hello :
  (Url.check_url_details (Sample.env false) "http://example.com/hello" true
     Sample.world0).1
  = Ret (true,
         {[ "checksum"%string :=
              "b94d27b9934d3e08a52e52d7da7dabfac484efe37a5380ee9088f7ace2efcde9"%string;
            "checksumType"%string := "sha256"%string;
            "contentLength"%string := "11"%string;
            "contentType"%string := "text/plain"%string ]}).
Proof. vm_compute. reflexivity. Qed.

Example plain_probe_stops_at_head :
  (Url.check_url_details (Sample.env false) "http://example.com/hello" false
     Sample.world0)
  = (Ret (true, {[ "contentLength"%string := "11"%string;
                   "contentType"%string := "text/plain"%string ]}),
     logged [Url.probe_request (Sample.env false) "head"
               "http://example.com/hello"] Sample.world0).
Proof. vm_compute. reflexivity. Qed.

(** ** The download responder *)

Section DownloadFacts.
Context (E : Env).

(** The headers sent upstream: the client's [Range] header on a range
    request, nothing otherwise. *)
Lemma build_download_response_eq (request : FlaskRequest)
    (url download_url : string) (content_type : option string) (w : World) :
  let is_range_request := bool_decide (is_Some (range request)) in
  let hs : odict :=
    if is_range_request
    then {[ "Range"%string := request_headers request !! "range"%string ]}
    else ∅ in
  let req := Util.download_request download_url hs in
  Util.build_download_response E request url download_url content_type w
  = if Url.is_safe_url E url then
      match http_send E (http_log w) req with
      | HttpOk response =>
          (Ret {| resp_body := Stream (Util._generate response);
                  resp_status := status_code response;
                  resp_headers :=
                    if is_range_request then hs
                    else Util.attachment_headers
                           (Util.reconcile E url response content_type).1;
                  resp_content_type :=
                    if is_range_request then content_type
                    else (Util.reconcile E url response content_type).2 |},
           logged [req] w)
      | HttpRaise e => (Raise e, logged [req] w)
      end
    else (Raise (ValueError ("Unsafe url " +:+ url)), w).
Proof.
  intros is_range_request hs req.
  unfold Util.build_download_response, Util.build_download_response_try.
  unfold try_except.
  destruct (Url.is_safe_url E url); [|done].
  change (negb true) with false. cbv iota.
  fold is_range_request. fold hs. fold req.
  unfold bind. rewrite send_eq.
  destruct (http_send E (http_log w) req) as [response|e]; [|done].
  destruct is_range_request; [done|]. simpl negb. cbv iota.
  by destruct (Util.reconcile E url response content_type).
Qed.

End DownloadFacts.

(** C4.  For a URL that [is_safe_url] rejects, [build_download_response]
    raises before any upstream request: the world is left as it was, so
    nothing is fetched, and no response and hence no payload is produced.
    The handler of its callers turns the exception into the generic
    failure answer with status 503; so does [computeResult] when the URL
    it built is rejected. *)
Theorem unsafe_url_never_fetched (E : Env) (request : FlaskRequest)
    (url download_url : string) (content_type : option string) (w : World) :
  Url.is_safe_url E url = false ->
  Util.build_download_response E request url download_url content_type w
  = (Raise (ValueError ("Unsafe url " +:+ url)), w)
  /\ (forall context,
         try_except
           (Util.build_download_response E request url download_url
              content_type)
           (fun _ => true)
           (fun e => ret (Util.service_unavailable e context)) w
         = (Ret (Util.service_unavailable
                   (ValueError ("Unsafe url " +:+ url)) context), w)
         /\ resp_status (Util.service_unavailable
                           (ValueError ("Unsafe url " +:+ url)) context)
            = 503)
  /\ (url = Routes.compute_result_url E (Util.get_request_data request) ->
      exists answer w',
        Routes.computeResult E request w = (Ret answer, w')
        /\ resp_status answer = 503
        /\ http_log w' = http_log w).
Proof.
  intros Hunsafe.
  assert (Hraise : forall dl ct w0,
             Util.build_download_response E request url dl ct w0
             = (Raise (ValueError ("Unsafe url " +:+ url)), w0)).
  { intros dl ct w0. by rewrite build_download_response_eq, Hunsafe. }
  split; [apply Hraise|]. split.
  - intros context. by rewrite (try_except_raise_eq _ _ _ _ _ _ (Hraise _ _ _)).
  - intros ->. unfold Routes.computeResult.
    set (data := Util.get_request_data request) in *.
    unfold bind. simpl.
    rewrite (try_except_raise_eq _ _ _ _ _ _ (Hraise _ _ _)). simpl.
    by eexists _, _.
Qed.

Lemma unsafe_url_never_fetched_witness :
  Util.build_download_response (Sample.env false) Sample.plain_request
    "http://intranet.test/x" "http://intranet.test/x" None Sample.world0
  = (Raise (ValueError "Unsafe url http://intranet.test/x"), Sample.world0).
Proof.
  apply (unsafe_url_never_fetched (Sample.env false) Sample.plain_request
           "http://intranet.test/x" "http://intranet.test/x" None
           Sample.world0).
  reflexivity.
Defined.

(** A request that carries a [Range] header the framework cannot parse
    ([request.range] is [None]) is served on the full-body path: nothing
    is forwarded upstream and the answer carries [Content-Disposition].
    The statement of C6 for every request that carries a [Range] header
    does not hold. *)
Lemma unparsed_range_not_forwarded :
  request_headers Sample.unparsed_range_request !! "range"%string
  = Some "bytes"%string
  /\ Util.build_download_response (Sample.env false)
       Sample.unparsed_range_request "http://example.com/notes"
       "http://example.com/notes" None Sample.world0
     = (Ret {| resp_body := Stream [Sample.b "abc"];
               resp_status := 200;
               resp_headers := Util.attachment_headers "notes.txt";
               resp_content_type := Some "text/plain"%string |},
        logged [Util.download_request "http://example.com/notes" ∅]
          Sample.world0).
Proof. split; vm_compute; reflexivity. Qed.

(** C6 (amended).  For every client request whose [Range] header the
    framework parses into a range ([request.range] is truthy), with a safe
    URL and an answered upstream fetch, [build_download_response] forwards
    the header verbatim to the upstream fetch, answers with that same
    header set, propagates the upstream status code as it is (206 when the
    upstream answers 206), leaves the declared content type alone and
    attaches no [Content-Disposition] header. *)
Theorem range_passthrough (E : Env) (request : FlaskRequest)
    (url download_url : string) (content_type : option string) (w : World)
    (response : Response) :
  let hs : odict :=
    {[ "Range"%string := request_headers request !! "range"%string ]} in
  let req := Util.download_request download_url hs in
  is_Some (range request) ->
  Url.is_safe_url E url = true ->
  http_send E (http_log w) req = HttpOk response ->
  Util.build_download_response E request url download_url content_type w
  = (Ret {| resp_body := Stream (Util._generate response);
            resp_status := status_code response;
            resp_headers := hs;
            resp_content_type := content_type |},
     logged [req] w)
  /\ req_headers req = hs
  /\ hs !! "Content-Disposition"%string = None.
Proof.
  intros hs req Hrange Hsafe Hsend.
  rewrite build_download_response_eq, Hsafe.
  rewrite (bool_decide_eq_true_2 _ Hrange).
  fold hs. fold req. rewrite Hsend. done.
Qed.

Lemma range_passthrough_witness :
  Util.build_download_response (Sample.env false) Sample.range_request
    "http://example.com/hello" "http://example.com/hello" None Sample.world0
  = (Ret {| resp_body := Stream [Sample.b "hello"];
            resp_status := 206;
            resp_headers := {[ "Range"%string := Some "bytes=0-4"%string ]};
            resp_content_type := None |},
     logged [Util.download_request "http://example.com/hello"
               {[ "Range"%string := Some "bytes=0-4"%string ]}]
       Sample.world0).
Proof.
  pose proof (range_passthrough (Sample.env false) Sample.range_request
                "http://example.com/hello" "http://example.com/hello" None
                Sample.world0
                (Sample.plain 206 {[ "content-range"%string :=
                                       "bytes 0-4/11"%string ]} "hello")
                (ex_intro _ _ eq_refl) eq_refl eq_refl) as [H _].
  exact H.
Defined.

(** C7.  On the full-body path the answer carries
    [Content-Disposition: attachment;filename=<name>] and the content
    type, both as reconciled: when the derived file name has no extension
    and a content type is known, the extension [mimetypes] guesses for the
    type is appended (so [.txt] for [text/plain] when that is the guess);
    when the file name has an extension and no content type is known, the
    content type is the one [mimetypes] guesses from the file name (so the
    CSV type for [report.csv] when that is the guess). *)
Theorem filename_and_type_reconciled (E : Env) (request : FlaskRequest)
    (url download_url : string) (declared : option string) (w : World)
    (response : Response) :
  let filename := Util.derived_filename E url response in
  let content_type := Util.known_content_type response declared in
  let req := Util.download_request download_url ∅ in
  range request = None ->
  Url.is_safe_url E url = true ->
  http_send E (http_log w) req = HttpOk response ->
  (exists name type,
      Util.reconcile E url response declared = (name, type)
      /\ Util.build_download_response E request url download_url declared w
         = (Ret {| resp_body := Stream (Util._generate response);
                   resp_status := status_code response;
                   resp_headers := Util.attachment_headers name;
                   resp_content_type := type |},
            logged [req] w)
      /\ Util.attachment_headers name !! "Content-Disposition"%string
         = Some (Some ("attachment;filename=" +:+ name)))
  /\ (Util.splitext_ext filename = EmptyString ->
      PyStr.truthy_opt content_type = true ->
      forall extension,
        mimetypes_guess_extension E (default EmptyString content_type)
        = Some extension ->
        PyStr.truthy extension = true ->
        Util.reconcile E url response declared
        = (filename +:+ extension, content_type))
  /\ (Util.splitext_ext filename = EmptyString ->
      content_type = Some "text/plain"%string ->
      mimetypes_guess_extension E "text/plain" = Some ".txt"%string ->
      Util.reconcile E url response declared
      = (filename +:+ ".txt", Some "text/plain"%string))
  /\ (Util.splitext_ext filename <> EmptyString ->
      PyStr.truthy_opt content_type = false ->
      Util.reconcile E url response declared
      = (filename, mimetypes_guess_type E filename))
  /\ (filename = "report.csv"%string ->
      PyStr.truthy_opt content_type = false ->
      mimetypes_guess_type E "report.csv" = Some "text/csv"%string ->
      Util.reconcile E url response declared
      = ("report.csv"%string, Some "text/csv"%string)).
Proof.
  intros filename content_type req Hrange Hsafe Hsend.
  assert (Hext : forall extension,
             Util.splitext_ext filename = EmptyString ->
             PyStr.truthy_opt content_type = true ->
             mimetypes_guess_extension E (default EmptyString content_type)
             = Some extension ->
             PyStr.truthy extension = true ->
             Util.reconcile E url response declared
             = (filename +:+ extension, content_type)).
  { intros extension He Hct Hg Ht. unfold Util.reconcile.
    fold filename. fold content_type. rewrite He, Hct, Hg. simpl. by rewrite Ht. }
  assert (Htype : Util.splitext_ext filename <> EmptyString ->
                  PyStr.truthy_opt content_type = false ->
                  Util.reconcile E url response declared
                  = (filename, mimetypes_guess_type E filename)).
  { intros He Hct. unfold Util.reconcile. fold filename. fold content_type.
    rewrite Hct. by destruct (Util.splitext_ext filename). }
  split_and!.
  - destruct (Util.reconcile E url response declared) as [name type] eqn:Hr.
    exists name, type. split; [done|]. split; [|done].
    rewrite build_download_response_eq, Hsafe.
    assert (Hno : bool_decide (is_Some (range request)) = false).
    { apply bool_decide_eq_false_2. rewrite Hrange. by intros [? ?]. }
    rewrite Hno. fold req. by rewrite Hsend, Hr.
  - intros He Hct extension. by apply Hext.
  - intros He Hct Hg. rewrite (Hext ".txt"%string He); rewrite ?Hct; done.
  - done.
  - intros Hf Hct Hg. rewrite Htype; [by rewrite Hf, Hg| |done].
    by rewrite Hf.
Qed.

Lemma filename_and_type_reconciled_witness :
  Util.reconcile (Sample.env false) "http://example.com/notes"
    (Sample.plain 200 {[ "content-type"%string := "text/plain"%string ]} "abc")
    None
  = ("notes.txt"%string, Some "text/plain"%string)
  /\ Util.reconcile (Sample.env false) "http://example.com/report.csv"
       (Sample.plain 200 ∅ "a,b") None
     = ("report.csv"%string, Some "text/csv"%string).
Proof.
  split.
  - pose proof (filename_and_type_reconciled (Sample.env false)
                  Sample.plain_request "http://example.com/notes"
                  "http://example.com/notes" None Sample.world0
                  (Sample.plain 200
                     {[ "content-type"%string := "text/plain"%string ]} "abc")
                  eq_refl eq_refl eq_refl) as (_ & _ & H & _).
    exact (H eq_refl eq_refl eq_refl).
  - pose proof (filename_and_type_reconciled (Sample.env false)
                  Sample.plain_request
                  "http://example.com/report.csv"
                  "http://example.com/report.csv" None Sample.world0
                  (Sample.plain 200 ∅ "a,b")
                  eq_refl eq_refl eq_refl) as (_ & _ & _ & _ & H).
    exact (H eq_refl eq_refl eq_refl).
Defined.

Example download_notes :
  (Util.build_download_response (Sample.env false)
     Sample.plain_request "http://example.com/notes"
     "http://example.com/notes" None Sample.world0).1
  = Ret {| resp_body := Stream [Sample.b "abc"];
           resp_status := 200;
           resp_headers := Util.attachment_headers "notes.txt";
           resp_content_type := Some "text/plain"%string |}.
Proof. vm_compute. reflexivity. Qed.

(** ** The routes *)

(** *** Redaction of the compute status *)

Lemma foldr_delete_lookup (keys : list string) (d : gmap string json)
    (k : string) :
  foldr delete d keys !! k = if bool_decide (k ∈ keys) then None else d !! k.
Proof.
  induction keys as [|k' keys IH]; cbn [foldr].
  - by rewrite bool_decide_eq_false_2 by apply not_elem_of_nil.
  - destruct (decide (k = k')) as [->|Hne].
    + rewrite lookup_delete_eq. rewrite bool_decide_eq_true_2; [done|].
      apply elem_of_cons. by left.
    + rewrite lookup_delete_ne by done. rewrite IH.
      assert (Hb : bool_decide (k ∈ keys) = bool_decide (k ∈ k' :: keys)).
      { apply bool_decide_ext. rewrite elem_of_cons. tauto. }
      by rewrite Hb.
Qed.

Lemma pop_keys_dict (job_info job_info' : json) :
  Routes.pop_keys job_info = inr job_info' ->
  exists d, job_info = JDict d
            /\ job_info' = JDict (foldr delete d Routes.keys_to_filter).
Proof. destruct job_info; simpl; intros [= <-]. eauto. Qed.

Lemma pop_keys_clean (job_info job_info' : json) (k : string) :
  Routes.pop_keys job_info = inr job_info' ->
  k ∈ Routes.keys_to_filter -> k ∉ job_keys job_info'.
Proof.
  intros (d & -> & ->)%pop_keys_dict Hk. unfold job_keys.
  rewrite elem_of_elements, elem_of_dom, foldr_delete_lookup.
  rewrite bool_decide_eq_true_2 by done. by intros [? ?].
Qed.

(** The keys other than the three survive with their values. *)
Lemma pop_keys_keeps (d : gmap string json) (k : string) :
  k ∉ Routes.keys_to_filter ->
  foldr delete d Routes.keys_to_filter !! k = d !! k.
Proof.
  intros Hk. rewrite foldr_delete_lookup. by rewrite bool_decide_eq_false_2.
Qed.

Lemma filter_jobs_clean (resp_content filtered : list json) (k : string) :
  Routes.filter_jobs resp_content = inr filtered ->
  k ∈ Routes.keys_to_filter -> k ∉ job_keys (JList filtered).
Proof.
  intros H Hk. revert filtered H.
  induction resp_content as [|job rest IH]; intros filtered H; simpl in H.
  - injection H as <-. simpl. apply not_elem_of_nil.
  - destruct (Routes.pop_keys job) as [e|job'] eqn:Hp; [done|].
    destruct (Routes.filter_jobs rest) as [e|rest'] eqn:Hr; [done|].
    injection H as <-. simpl. rewrite elem_of_app. intros [Hin|Hin].
    + pose proof (pop_keys_clean _ _ _ Hp Hk) as Hc.
      destruct (pop_keys_dict _ _ Hp) as (d & _ & ->). done.
    + by apply (IH rest' eq_refl).
Qed.

Lemma service_unavailable_clean (E : Env) (e : exn) (context : odict)
    (k : string) :
  k ∈ Routes.keys_to_filter ->
  k ∉ body_job_keys E (resp_body (Util.service_unavailable e context)).
Proof.
  intros Hk. simpl. rewrite elem_of_elements, dom_insert_L, dom_singleton_L.
  rewrite elem_of_union, !elem_of_singleton.
  unfold Routes.keys_to_filter in Hk. rewrite !elem_of_cons, elem_of_nil in Hk.
  intros [-> | ->]; destruct Hk as [Hk|[Hk|[Hk|[]]]]; discriminate.
Qed.

Section StatusFacts.
Context (E : Env).

(** The message the consumer signs for a status request. *)
Local Abbreviation original_msg data :=
  (Routes.fmt (data !! "consumerAddress"%string)
   +:+ Routes.fmt (data !! "jobId"%string)
   +:+ Routes.fmt (data !! "documentId"%string)).

(** The outcome of the signature check of a status request in world [w]. *)
Local Abbreviation verdict data w :=
  (verify_signature_check E (data !! "consumerAddress"%string)
     (data !! "signature"%string) (original_msg data)
     (default 0 (nonces w !! (data !! "consumerAddress"%string)))).

Lemma check_signed_eq (data : gmap string string) (w : World) :
  Routes.check_signed E data w
  = if PyStr.truthy_opt (data !! "signature"%string) then
      match verdict data w with
      | None => (Ret true, bumped (data !! "consumerAddress"%string) w)
      | Some e =>
          if is_InvalidSignatureError e
          then (Ret false, bumped (data !! "consumerAddress"%string) w)
          else (Raise e, w)
      end
    else (Ret false, w).
Proof.
  unfold Routes.check_signed.
  destruct (PyStr.truthy_opt (data !! "signature"%string)); [|done].
  unfold bind, try_except, UserNonce.get_nonce, Routes.verify_signature.
  destruct (verdict data w) as [e|]; [|done].
  unfold raise. by destruct (is_InvalidSignatureError e).
Qed.

(** Without a signature, or with one the check rejects, the request
    does not count as signed. *)
Lemma check_signed_unsigned (data : gmap string string) (w : World) :
  PyStr.truthy_opt (data !! "signature"%string) = false
  \/ (exists e, verdict data w = Some e) ->
  (Routes.check_signed E data w).1 <> Ret true.
Proof.
  rewrite check_signed_eq. intros [Hno|[e He]].
  - by rewrite Hno.
  - rewrite He. destruct (PyStr.truthy_opt _); [|done].
    by destruct (is_InvalidSignatureError e).
Qed.

End StatusFacts.

Lemma filter_jobs_dicts (jobs : list (gmap string json)) :
  Routes.filter_jobs (JDict <$> jobs)
  = inr ((fun d => JDict (delete "resultsUrl"%string
                            (delete "algorithmLogUrl"%string
                               (delete "resultsDid"%string d)))) <$> jobs).
Proof.
  induction jobs as [|d jobs IH]; [reflexivity|].
  cbn [fmap list_fmap Routes.filter_jobs Routes.pop_keys].
  change (list_fmap _ _ JDict jobs) with (JDict <$> jobs).
  rewrite IH. reflexivity.
Qed.

(** C2.  For every [GET /compute] request whose signature is absent (or
    empty) or fails verification, whatever the operator service answered,
    the answer of [computeStatus] has none of the keys [resultsUrl],
    [algorithmLogUrl], [resultsDid] in the job descriptions of its body.
    When the signature is absent or rejected as invalid and the operator
    service answered a list of job objects, or a single one, the answer
    has the upstream status and its body is the list of these objects
    with exactly the three keys removed, also when upstream had them;
    every other case is the generic failure answer. *)
Theorem unsigned_status_is_redacted (E : Env) (request : FlaskRequest)
    (w : World) :
  let data := Util.get_request_data request in
  let owner := data !! "consumerAddress"%string in
  let original_msg :=
    Routes.fmt owner +:+ Routes.fmt (data !! "jobId"%string)
    +:+ Routes.fmt (data !! "documentId"%string) in
  let verdict :=
    verify_signature_check E owner (data !! "signature"%string)
      original_msg (default 0 (nonces w !! owner)) in
  let req :=
    Routes.operator_request E "get" (Util.process_compute_request E data) in
  let redact (d : gmap string json) : json :=
    JDict (delete "resultsUrl"%string
             (delete "algorithmLogUrl"%string
                (delete "resultsDid"%string d))) in
  PyStr.truthy_opt (data !! "signature"%string) = false
  \/ (exists e, verdict = Some e) ->
  exists answer w',
    Routes.computeStatus E request w = (Ret answer, w')
    /\ ("resultsUrl"%string ∉ body_job_keys E (resp_body answer))
    /\ ("algorithmLogUrl"%string ∉ body_job_keys E (resp_body answer))
    /\ ("resultsDid"%string ∉ body_job_keys E (resp_body answer))
    /\ (PyStr.truthy_opt (data !! "signature"%string) = false
        \/ (exists e, verdict = Some e /\ is_InvalidSignatureError e = true) ->
        forall response,
          http_send E (http_log w) req = HttpOk response ->
          (forall jobs,
              json_loads E (content response) = Some (JList (JDict <$> jobs)) ->
              resp_status answer = status_code response
              /\ resp_body answer = JsonDumps (JList (redact <$> jobs)))
          /\ (forall job,
                 json_loads E (content response) = Some (JDict job) ->
                 resp_status answer = status_code response
                 /\ resp_body answer = JsonDumps (JList [redact job]))).
Proof.
  intros data owner original_msg verdict req redact Hsig.
  assert (Hclean : forall (answer : FlaskResponse) (Q : Prop),
             (forall k, k ∈ Routes.keys_to_filter ->
                        k ∉ body_job_keys E (resp_body answer)) ->
             Q ->
             ("resultsUrl"%string ∉ body_job_keys E (resp_body answer))
             /\ ("algorithmLogUrl"%string
                 ∉ body_job_keys E (resp_body answer))
             /\ ("resultsDid"%string ∉ body_job_keys E (resp_body answer))
             /\ Q).
  { intros answer Q H HQ. unfold Routes.keys_to_filter in H.
    split_and!; [apply H; rewrite !elem_of_cons; auto ..| exact HQ]. }
  pose proof (check_signed_eq E data (logged [req] w)) as Hcs.
  cbn [logged nonces] in Hcs. fold owner original_msg verdict in Hcs.
  unfold Routes.computeStatus. fold data.
  unfold try_except, Routes.computeStatus_try.
  unfold bind at 1. rewrite send_eq. fold req.
  destruct (http_send E (http_log w) req) as [response|e0] eqn:Hsend.
  2:{ eexists _, _. split; [done|].
      apply Hclean; [intros k Hk; by apply service_unavailable_clean|].
      intros _ response' [=]. }
  unfold bind at 1. rewrite Hcs.
  assert (Hout :
            (if PyStr.truthy_opt (data !! "signature"%string)
             then match verdict with
                  | Some e =>
                      if is_InvalidSignatureError e
                      then (Ret false, bumped owner (logged [req] w))
                      else (Raise e, logged [req] w)
                  | None => (Ret true, bumped owner (logged [req] w))
                  end
             else (Ret false, logged [req] w))
            = (Ret false,
               if PyStr.truthy_opt (data !! "signature"%string)
               then bumped owner (logged [req] w) else logged [req] w)
            \/ exists e w1,
                (if PyStr.truthy_opt (data !! "signature"%string)
                 then match verdict with
                      | Some e =>
                          if is_InvalidSignatureError e
                          then (Ret false, bumped owner (logged [req] w))
                          else (Raise e, logged [req] w)
                      | None => (Ret true, bumped owner (logged [req] w))
                      end
                 else (Ret false, logged [req] w))
                = (Raise e, w1)
                /\ PyStr.truthy_opt (data !! "signature"%string) = true
                /\ verdict = Some e /\ is_InvalidSignatureError e = false).
  { destruct (PyStr.truthy_opt (data !! "signature"%string)) eqn:Ht;
      [|left; reflexivity].
    destruct Hsig as [Hsig|[e He]]; [discriminate|]. rewrite He.
    destruct (is_InvalidSignatureError e) eqn:Hi; [left; reflexivity|].
    right. eauto 10. }
  destruct Hout as [-> | (e & w1 & -> & Ht & Hv & Hi)].
  2:{ eexists _, _. split; [done|].
      apply Hclean; [intros k Hk; by apply service_unavailable_clean|].
      intros [Hno | (e' & Hv' & Hi')]; [congruence|].
      rewrite Hv in Hv'. injection Hv' as <-. congruence. }
  cbn [negb]. cbv iota.
  destruct (json_loads E (content response)) as [resp_content|] eqn:Hjson.
  2:{ eexists _, _. split; [done|].
      apply Hclean; [intros k Hk; by apply service_unavailable_clean|].
      intros _ response' [= <-]. split; intros ? ?; congruence. }
  unfold bind, Routes.of_sum.
  destruct (Routes.filter_jobs _) as [e2|filtered] eqn:Hf.
  { eexists _, _. split; [done|].
    apply Hclean; [intros k Hk; by apply service_unavailable_clean|].
    intros _ response' [= <-]. split.
    - intros jobs Hj. rewrite Hjson in Hj. injection Hj as ->.
      rewrite filter_jobs_dicts in Hf. discriminate.
    - intros job Hj. rewrite Hjson in Hj. injection Hj as ->.
      pose proof (filter_jobs_dicts [job]) as Hd.
      cbn [fmap list_fmap] in Hd. rewrite Hd in Hf. discriminate. }
  eexists _, _. split; [done|].
  apply Hclean; [intros k Hk; by apply (filter_jobs_clean _ _ _ Hf)|].
  intros _ response' [= <-]. split.
  - intros jobs Hj. rewrite Hjson in Hj. injection Hj as ->.
    rewrite filter_jobs_dicts in Hf.
    injection Hf as <-. split; reflexivity.
  - intros job Hj. rewrite Hjson in Hj. injection Hj as ->.
    pose proof (filter_jobs_dicts [job]) as Hd.
    cbn [fmap list_fmap] in Hd. rewrite Hd in Hf.
    injection Hf as <-. split; reflexivity.
Qed.

Lemma unsigned_status_is_redacted_witness :
  exists answer w',
    Routes.computeStatus (Sample.env false) Sample.status_unsigned
      Sample.world0
    = (Ret answer, w')
    /\ ("resultsUrl"%string
        ∉ body_job_keys (Sample.env false) (resp_body answer))
    /\ ("algorithmLogUrl"%string
        ∉ body_job_keys (Sample.env false) (resp_body answer))
    /\ ("resultsDid"%string
        ∉ body_job_keys (Sample.env false) (resp_body answer)).
Proof.
  destruct (unsigned_status_is_redacted (Sample.env false)
              Sample.status_unsigned Sample.world0)
    as (answer & w' & H & H1 & H2 & H3 & _).
  - left. reflexivity.
  - exists answer, w'. auto.
Defined.

Example status_without_signature :
  (Routes.computeStatus (Sample.env false) Sample.status_unsigned
     Sample.world0).1
  = Ret {| resp_body :=
             JsonDumps (JList [JDict {[ "jobId"%string := JStr "j1";
                                        "status"%string := JNum 70 ]}]);
           resp_status := 200;
           resp_headers := Routes.standard_headers;
           resp_content_type := None |}.
Proof. vm_compute. reflexivity. Qed.

Example status_with_bad_signature :
  Routes.computeStatus (Sample.env false) Sample.status_forged Sample.world0
  = (Ret {| resp_body :=
              JsonDumps (JList [JDict {[ "jobId"%string := JStr "j1";
                                         "status"%string := JNum 70 ]}]);
            resp_status := 200;
            resp_headers := Routes.standard_headers;
            resp_content_type := None |},
     bumped (Some "0xabc"%string)
       (logged [Routes.operator_request (Sample.env false) "get"
                  (Util.process_compute_request (Sample.env false)
                     (Util.get_request_data Sample.status_forged))]
          Sample.world0)).
Proof. vm_compute. reflexivity. Qed.

Example status_with_good_signature :
  (Routes.computeStatus (Sample.env false) Sample.status_signed
     Sample.world0).1
  = Ret {| resp_body := RawBytes (Sample.b "[jobs]");
           resp_status := 200;
           resp_headers := Routes.standard_headers;
           resp_content_type := None |}.
Proof. vm_compute. reflexivity. Qed.

(** *** Effect of the routes on the nonce table *)

Section NonceFacts.
Context (E : Env).

Lemma keeps_nonces_probe_loop (methods : list string) (url : string)
    (with_checksum : bool) :
  keeps_nonces (Url.probe_loop E methods url with_checksum).
Proof.
  induction methods as [|meth rest IH]; simpl; [auto with keeps|].
  apply keeps_nonces_bind; [auto with keeps|].
  intros result. destruct (negb with_checksum && Url.sufficient result);
    auto with keeps.
Qed.

Lemma keeps_nonces_raise_for_status (r : Response) :
  keeps_nonces (Url.raise_for_status r).
Proof. unfold Url.raise_for_status. destruct (_ && _); auto with keeps. Qed.

Lemma keeps_nonces_get_result (url : string) (with_checksum : bool) :
  keeps_nonces (Url._get_result_from_url E url with_checksum).
Proof.
  unfold Url._get_result_from_url.
  apply keeps_nonces_bind; [apply keeps_nonces_probe_loop|].
  intros [result|]; [auto with keeps|].
  destruct with_checksum; simpl.
  - apply keeps_nonces_bind; [auto with keeps|]. intros r.
    apply keeps_nonces_bind; [apply keeps_nonces_raise_for_status|].
    auto with keeps.
  - auto with keeps.
Qed.

Lemma keeps_nonces_check_url_details (url : string) (with_checksum : bool) :
  keeps_nonces (Url.check_url_details E url with_checksum).
Proof.
  unfold Url.check_url_details, Url.check_url_details_try.
  apply keeps_nonces_bind.
  - apply keeps_nonces_try; [|auto with keeps].
    destruct (negb (Url.is_safe_url E url)); [auto with keeps|].
    apply keeps_nonces_bind; [apply keeps_nonces_get_result|].
    intros [result extra_data]. auto with keeps.
  - intros [v|]; auto with keeps.
Qed.

Lemma keeps_nonces_fileinfo_loop (i : Z) (url_list : list string)
    (with_checksum : bool) :
  keeps_nonces (Routes.fileinfo_loop E i url_list with_checksum).
Proof.
  revert i. induction url_list as [|url rest IH]; intros i; simpl;
    [auto with keeps|].
  apply keeps_nonces_bind; [apply keeps_nonces_check_url_details|].
  intros [valid details]. apply keeps_nonces_bind; [apply IH|].
  auto with keeps.
Qed.

Lemma keeps_nonces_nonce (request : FlaskRequest) :
  keeps_nonces (Routes.nonce request).
Proof. unfold Routes.nonce. auto with keeps. Qed.

Lemma keeps_nonces_fileinfo (request : FlaskRequest) :
  keeps_nonces (Routes.fileinfo E request).
Proof.
  unfold Routes.fileinfo. apply keeps_nonces_bind.
  - destruct (PyStr.truthy_opt _); auto with keeps.
  - intros url_list.
    apply keeps_nonces_bind; [apply keeps_nonces_fileinfo_loop|].
    auto with keeps.
Qed.

Lemma keeps_nonces_build_download_response (request : FlaskRequest)
    (url download_url : string) (content_type : option string) :
  keeps_nonces
    (Util.build_download_response E request url download_url content_type).
Proof.
  intros w. rewrite build_download_response_eq.
  destruct (Url.is_safe_url E url); [|done].
  by destruct (http_send E _ _).
Qed.

(** [computeResult] advances the nonce of the caller by one, whatever
    the download does. *)
Lemma computeResult_nonces (request : FlaskRequest) (w : World) :
  let caller :=
    Util.get_request_data request !! "consumerAddress"%string in
  nonces (Routes.computeResult E request w).2
  = <[caller := default 0 (nonces w !! caller) + 1]> (nonces w).
Proof.
  intros caller. unfold Routes.computeResult, bind.
  unfold UserNonce.increment_nonce at 1. fold caller.
  match goal with
  | |- nonces (try_except ?m ?h ?f ?w1).2 = _ =>
      assert (Hk : keeps_nonces (try_except m h f))
  end.
  { apply keeps_nonces_try;
      [apply keeps_nonces_build_download_response | auto with keeps]. }
  by rewrite Hk.
Qed.

(** The world [computeStatus] leaves behind. *)
Lemma computeStatus_world (request : FlaskRequest) (w : World) :
  let data := Util.get_request_data request in
  let req :=
    Routes.operator_request E "get" (Util.process_compute_request E data) in
  (Routes.computeStatus E request w).2
  = match http_send E (http_log w) req with
    | HttpOk _ => (Routes.check_signed E data (logged [req] w)).2
    | HttpRaise _ => logged [req] w
    end.
Proof.
  intros data req. unfold Routes.computeStatus. fold data.
  unfold try_except, Routes.computeStatus_try, bind. fold req.
  rewrite send_eq.
  destruct (http_send E (http_log w) req) as [response|e]; [|done].
  destruct (Routes.check_signed E data _) as [[[|]|e] w1]; simpl; [done| |done].
  destruct (json_loads E (content response)) as [v|]; [|done].
  unfold Routes.of_sum. by destruct (Routes.filter_jobs _).
Qed.

End NonceFacts.

Section ForwardFacts.
Context (E : Env).

Lemma process_compute_request_owner (data : gmap string string) :
  Util.process_compute_request E data !! "owner"%string
  = data !! "consumerAddress"%string.
Proof.
  unfold Util.process_compute_request, Util.set_if_present.
  destruct (data !! "consumerAddress"%string),
    (data !! "jobId"%string), (data !! "transferTxId"%string),
    (data !! "documentId"%string);
    by simplify_map_eq.
Qed.

(** The nonce table after [computeDelete] or [computeStop]. *)
Lemma compute_forward_nonces (meth : string) (data : gmap string string)
    (w : World) :
  let caller := data !! "consumerAddress"%string in
  let req :=
    Routes.operator_request E meth (Util.process_compute_request E data) in
  nonces (try_except (Routes.compute_forward E meth data) (fun _ => true)
            (fun e => ret (Util.service_unavailable e
                             (Routes.context_of data))) w).2
  = match http_send E (http_log w) req, caller with
    | HttpOk _, Some _ =>
        <[caller := default 0 (nonces w !! caller) + 1]> (nonces w)
    | _, _ => nonces w
    end.
Proof.
  intros caller req. unfold try_except, Routes.compute_forward, bind.
  fold req. rewrite send_eq, process_compute_request_owner. fold caller.
  destruct (http_send E (http_log w) req) as [response|e]; [|done].
  by destruct caller.
Qed.

End ForwardFacts.

(** [POST /fileinfo] and [GET /nonce] answer a request without advancing
    any nonce: the statement of C3 that every endpoint increments the
    nonce of the caller exactly once does not hold. *)
Lemma nonce_not_incremented_by_every_route :
  (exists answer w',
      Routes.fileinfo (Sample.env false) Sample.fileinfo_request Sample.world0
      = (Ret answer, w')
      /\ resp_status answer = 200
      /\ nonces w' = nonces Sample.world0)
  /\ Routes.nonce Sample.nonce_request Sample.world0
     = (Ret {| resp_body := JsonDumps (JDict {[ "nonce"%string := JNum 0 ]});
               resp_status := 200;
               resp_headers := Routes.json_headers;
               resp_content_type := None |},
        Sample.world0)
  /\ default 0 (nonces Sample.world0 !! Some "0xabc"%string) = 0.
Proof.
  split; [|split; reflexivity].
  eexists _, _. split; [vm_compute; reflexivity|]. split; reflexivity.
Qed.

(** C3 (amended).  The effect on the nonce table depends on the route.
    [GET /nonce] and [POST /fileinfo] never change it.  [GET
    /computeResult] advances the nonce of the caller by exactly one,
    whatever the download does.  [GET /compute] advances the nonce of the
    caller by exactly one when the operator service answered and the
    request carries a signature that the check accepts or rejects as
    invalid, independent of which, and of what follows; it leaves the
    table as it was when the request carries no signature or the operator
    service call raised.  [DELETE /compute] and [PUT /compute] advance the
    nonce of the caller by exactly one when the operator service answered,
    whatever it answered, and leave the table as it was when the call
    raised. *)
Theorem nonce_effect_by_route (E : Env) (request : FlaskRequest) (w : World) :
  let data := Util.get_request_data request in
  let caller := data !! "consumerAddress"%string in
  let advanced := <[caller := default 0 (nonces w !! caller) + 1]> (nonces w) in
  let req meth :=
    Routes.operator_request E meth (Util.process_compute_request E data) in
  let verdict :=
    verify_signature_check E caller (data !! "signature"%string)
      (Routes.fmt caller +:+ Routes.fmt (data !! "jobId"%string)
       +:+ Routes.fmt (data !! "documentId"%string))
      (default 0 (nonces w !! caller)) in
  nonces (Routes.nonce request w).2 = nonces w
  /\ nonces (Routes.fileinfo E request w).2 = nonces w
  /\ nonces (Routes.computeResult E request w).2 = advanced
  /\ (forall response,
         http_send E (http_log w) (req "get"%string) = HttpOk response ->
         PyStr.truthy_opt (data !! "signature"%string) = true ->
         verdict = None
         \/ (exists e, verdict = Some e /\ is_InvalidSignatureError e = true) ->
         nonces (Routes.computeStatus E request w).2 = advanced)
  /\ (PyStr.truthy_opt (data !! "signature"%string) = false
      \/ (exists e, http_send E (http_log w) (req "get"%string) = HttpRaise e) ->
      nonces (Routes.computeStatus E request w).2 = nonces w)
  /\ (forall response,
         is_Some caller ->
         (http_send E (http_log w) (req "delete"%string) = HttpOk response ->
          nonces (Routes.computeDelete E request w).2 = advanced)
         /\ (http_send E (http_log w) (req "put"%string) = HttpOk response ->
             nonces (Routes.computeStop E request w).2 = advanced))
  /\ (forall e,
         (http_send E (http_log w) (req "delete"%string) = HttpRaise e ->
          nonces (Routes.computeDelete E request w).2 = nonces w)
         /\ (http_send E (http_log w) (req "put"%string) = HttpRaise e ->
             nonces (Routes.computeStop E request w).2 = nonces w)).
Proof.
  intros data caller advanced req verdict. split_and!.
  - apply keeps_nonces_nonce.
  - apply keeps_nonces_fileinfo.
  - apply computeResult_nonces.
  - intros response Hsend Hsig Hv.
    rewrite computeStatus_world. fold data. fold (req "get"%string).
    rewrite Hsend, check_signed_eq, Hsig.
    change (nonces (logged [req "get"%string] w)) with (nonces w).
    fold caller. fold verdict.
    destruct Hv as [-> | (e & -> & ->)]; reflexivity.
  - intros Hcase. rewrite computeStatus_world. fold data.
    fold (req "get"%string).
    destruct (http_send E (http_log w) (req "get"%string))
      as [response|e0] eqn:Hsend; [|done].
    destruct Hcase as [Hno|[e He]]; [|discriminate].
    by rewrite check_signed_eq, Hno.
  - intros response [owner Howner].
    unfold Routes.computeDelete, Routes.computeStop. fold data.
    rewrite !compute_forward_nonces. fold caller.
    fold (req "delete"%string). fold (req "put"%string).
    split; intros ->; subst advanced; by rewrite Howner.
  - intros e. unfold Routes.computeDelete, Routes.computeStop. fold data.
    rewrite !compute_forward_nonces.
    fold (req "delete"%string). fold (req "put"%string).
    split; by intros ->.
Qed.

Lemma nonce_effect_by_route_witness :
  nonces (Routes.computeStatus (Sample.env false) Sample.status_forged
            Sample.world0).2
  = {[ Some "0xabc"%string := 1 ]}.
Proof.
  pose proof (nonce_effect_by_route (Sample.env false) Sample.status_forged
                Sample.world0)
    as (_ & _ & _ & H & _).
  exact (H (Sample.plain 200 ∅ "[jobs]") eq_refl eq_refl
           (or_intror (ex_intro _ (InvalidSignatureError "Invalid signature")
                         (conj eq_refl eq_refl)))).
Defined.

Example computeResult_upstream_down :
  Routes.computeResult (Sample.env false) Sample.result_request Sample.world0
  = (Ret (Util.service_unavailable
            (RequestException "connection refused")
            (Routes.compute_result_context
               (Util.get_request_data Sample.result_request))),
     bumped (Some "0xabc"%string)
       (logged [Util.download_request
                  "http://operator/api/v1/operator/getResult" ∅]
          Sample.world0)).
Proof. vm_compute. reflexivity. Qed.

(** ** Further properties of [ocean_provider/utils/url.py] *)

Lemma validate_each_Forall (E : Env) (domain record_type : string)
    (l : list Url.DnsRecord) :
  Url.validate_each E domain record_type l = true
  <-> Forall (fun record =>
                Url.validate_dns_record E record domain record_type = true) l.
Proof.
  induction l as [|record rest IH]; cbn [Url.validate_each].
  - split; [constructor | reflexivity].
  - destruct (Url.validate_dns_record E record domain record_type) eqn:Hr;
      cbn [negb].
    + rewrite IH. split.
      * intros H. constructor; assumption.
      * intros H. inversion H; subst. assumption.
    + split; [discriminate|].
      intros H. inversion H; subst. congruence.
Qed.

Lemma validate_dns_record_flag (E E' : Env) (record : Url.DnsRecord)
    (domain domain' record_type record_type' : string) :
  allow_non_public_ip (config E') = allow_non_public_ip (config E) ->
  Url.validate_dns_record E' record domain' record_type'
  = Url.validate_dns_record E record domain record_type.
Proof. intros H. unfold Url.validate_dns_record. rewrite H. reflexivity. Qed.

Lemma validate_dns_record_relaxed (E E' : Env) (record : Url.DnsRecord)
    (domain record_type : string) :
  allow_non_public_ip (config E') = true ->
  Url.validate_dns_record E record domain record_type = true ->
  Url.validate_dns_record E' record domain record_type = true.
Proof.
  intros H. unfold Url.validate_dns_record. rewrite H.
  destruct (Ipaddress.ip_address _); [|done].
  destruct (_ || _); done.
Qed.

Lemma validate_dns_record_public (E : Env) (record : Url.DnsRecord)
    (domain record_type : string) :
  Url.validate_dns_record E record domain record_type = true ->
  exists ip,
    Ipaddress.ip_address
      (match record with Url.Str s => s | Url.Rdata t => PyStr.strip t end)
    = Some ip
    /\ (allow_non_public_ip (config E) = false ->
        Ipaddress.is_private ip = false
        /\ Ipaddress.is_reserved ip = false
        /\ Ipaddress.is_loopback ip = false).
Proof.
  unfold Url.validate_dns_record.
  destruct (Ipaddress.ip_address _) as [ip|]; [|discriminate].
  intros H. exists ip. split; [reflexivity|]. intros Hflag.
  rewrite Hflag in H.
  destruct (Ipaddress.is_private ip), (Ipaddress.is_reserved ip),
    (Ipaddress.is_loopback ip); cbn in H; try discriminate; done.
Qed.

Lemma is_safe_url_true_inv (E : Env) (url : string) :
  Url.is_safe_url E url = true ->
  exists result,
    Urllib.urlparse url = Some result
    /\ PyStr.truthy (Urllib.scheme result) = true
    /\ PyStr.truthy (Urllib.netloc result) = true
    /\ Url.is_ip (Urllib.netloc result) = false
    /\ Url.validate_dns_records E (Urllib.netloc result)
         (Url._get_records E (Urllib.netloc result) "A") "A" = true
    /\ Url.validate_dns_records E (Urllib.netloc result)
         (Url._get_records E (Urllib.netloc result) "AAAA") "AAAA" = true.
Proof.
  intros H. destruct (Urllib.urlparse url) as [result|] eqn:Hp.
  - rewrite (is_safe_url_parsed E url result Hp) in H.
    apply andb_true_iff in H as [H Hd]. apply andb_true_iff in H as [Hs Hn].
    exists result. split; [reflexivity|]. split; [exact Hs|].
    split; [exact Hn|].
    destruct (Url.is_ip (Urllib.netloc result)) eqn:Hip.
    + rewrite (is_safe_domain_literal E _ Hip) in Hd. discriminate.
    + rewrite (is_safe_domain_not_literal E _ Hip) in Hd.
      apply andb_true_iff in Hd as [H4 H6]. auto.
  - unfold Url.is_safe_url, Url.is_safe_schema in H. rewrite Hp in H.
    discriminate.
Qed.

Lemma truthy_nonempty (s : string) :
  PyStr.truthy s = true -> s <> EmptyString.
Proof. destruct s; [discriminate | discriminate]. Qed.

(** X1. A URL that [is_safe_url] accepts parses with a non-empty scheme
    and a non-empty network location that is not made of digits and
    dots, and every A or AAAA record the resolver returns for that
    location is, once stripped, an IP address; unless the configuration
    allows non-public addresses, none of them is private, reserved or
    loopback. *)
Theorem safe_url_records_are_public (E : Env) (url : string) :
  Url.is_safe_url E url = true ->
  exists result,
    Urllib.urlparse url = Some result
    /\ Urllib.scheme result <> EmptyString
    /\ Urllib.netloc result <> EmptyString
    /\ Url.is_ip (Urllib.netloc result) = false
    /\ forall record_type rrset record,
         record_type = "A"%string \/ record_type = "AAAA"%string ->
         dns_resolve E (Urllib.netloc result) record_type = DnsAnswer rrset ->
         record ∈ rrset ->
         exists ip,
           Ipaddress.ip_address (PyStr.strip record) = Some ip
           /\ (allow_non_public_ip (config E) = false ->
               Ipaddress.is_private ip = false
               /\ Ipaddress.is_reserved ip = false
               /\ Ipaddress.is_loopback ip = false).
Proof.
  intros H.
  destruct (is_safe_url_true_inv E url H)
    as (result & Hp & Hs & Hn & Hip & H4 & H6).
  exists result. split; [exact Hp|].
  split; [apply truthy_nonempty, Hs|].
  split; [apply truthy_nonempty, Hn|]. split; [exact Hip|].
  intros record_type rrset record Hrt Hdns Hin.
  assert (Hv : Url.validate_dns_records E (Urllib.netloc result)
                 (Url._get_records E (Urllib.netloc result) record_type)
                 record_type = true)
    by (destruct Hrt; subst; assumption).
  unfold Url._get_records in Hv. rewrite Hdns in Hv.
  cbn [Url.validate_dns_records Url.iterate] in Hv.
  apply validate_each_Forall in Hv.
  rewrite Forall_forall in Hv.
  assert (Hr : Url.Rdata record ∈ Url.Rdata <$> rrset)
    by (apply list_elem_of_fmap; eauto).
  exact (validate_dns_record_public E _ _ _ (Hv _ Hr)).
Qed.

Lemma safe_url_records_are_public_witness :
  exists result,
    Urllib.urlparse "http://example.com/hello" = Some result
    /\ Urllib.scheme result <> EmptyString
    /\ Urllib.netloc result <> EmptyString
    /\ Url.is_ip (Urllib.netloc result) = false
    /\ forall record_type rrset record,
         record_type = "A"%string \/ record_type = "AAAA"%string ->
         dns_resolve (Sample.env false) (Urllib.netloc result) record_type
         = DnsAnswer rrset ->
         record ∈ rrset ->
         exists ip,
           Ipaddress.ip_address (PyStr.strip record) = Some ip
           /\ (allow_non_public_ip (config (Sample.env false)) = false ->
               Ipaddress.is_private ip = false
               /\ Ipaddress.is_reserved ip = false
               /\ Ipaddress.is_loopback ip = false).
Proof.
  apply (safe_url_records_are_public (Sample.env false)
           "http://example.com/hello").
  vm_compute. reflexivity.
Defined.

(** X2. Allowing non-public addresses only relaxes the check: with the
    same resolver, every URL that is safe in some configuration is safe
    once non-public addresses are allowed. *)
Theorem override_only_relaxes (E E' : Env) (url : string) :
  dns_resolve E' = dns_resolve E ->
  allow_non_public_ip (config E') = true ->
  Url.is_safe_url E url = true ->
  Url.is_safe_url E' url = true.
Proof.
  intros Hdns Hflag H.
  destruct (is_safe_url_true_inv E url H)
    as (result & Hp & Hs & Hn & Hip & H4 & H6).
  rewrite (is_safe_url_parsed E' url result Hp), Hs, Hn.
  rewrite (is_safe_domain_not_literal E' _ Hip).
  assert (Hrel : forall record_type,
             Url.validate_dns_records E (Urllib.netloc result)
               (Url._get_records E (Urllib.netloc result) record_type)
               record_type = true ->
             Url.validate_dns_records E' (Urllib.netloc result)
               (Url._get_records E' (Urllib.netloc result) record_type)
               record_type = true).
  { intros record_type. unfold Url._get_records. rewrite Hdns.
    destruct (dns_resolve E _ _) as [rrset|]; [|done].
    cbn [Url.validate_dns_records]. rewrite !validate_each_Forall.
    intros Hall. eapply Forall_impl; [exact Hall|]. intros record.
    apply validate_dns_record_relaxed, Hflag. }
  rewrite (Hrel _ H4), (Hrel _ H6). reflexivity.
Qed.

Lemma override_only_relaxes_witness :
  Url.is_safe_url (Sample.env true) "http://example.com/hello" = true.
Proof.
  apply (override_only_relaxes (Sample.env false) (Sample.env true)
           "http://example.com/hello");
    [reflexivity | reflexivity | vm_compute; reflexivity].
Defined.

(** X3. The verdict of [is_safe_url] on a URL depends on the surroundings
    only through the flag [allow_non_public_ip] and the resolver's
    answers for the network location under the record types A and AAAA:
    two environments that agree on these give the same verdict. *)
Theorem safe_url_depends_on_lookups (E E' : Env) (url : string)
    (result : Urllib.ParseResult) :
  Urllib.urlparse url = Some result ->
  allow_non_public_ip (config E') = allow_non_public_ip (config E) ->
  dns_resolve E' (Urllib.netloc result) "A"
  = dns_resolve E (Urllib.netloc result) "A" ->
  dns_resolve E' (Urllib.netloc result) "AAAA"
  = dns_resolve E (Urllib.netloc result) "AAAA" ->
  Url.is_safe_url E' url = Url.is_safe_url E url.
Proof.
  intros Hp Hflag H4 H6.
  rewrite (is_safe_url_parsed E' url result Hp),
    (is_safe_url_parsed E url result Hp).
  f_equal.
  destruct (Url.is_ip (Urllib.netloc result)) eqn:Hip.
  - rewrite !is_safe_domain_literal by exact Hip. reflexivity.
  - rewrite !is_safe_domain_not_literal by exact Hip.
    assert (Hsame : forall records record_type,
               Url.validate_dns_records E' (Urllib.netloc result) records
                 record_type
               = Url.validate_dns_records E (Urllib.netloc result) records
                   record_type).
    { intros [rs|] record_type; [|reflexivity].
      cbn [Url.validate_dns_records].
      induction (Url.iterate rs) as [|record rest IH];
        cbn [Url.validate_each]; [reflexivity|].
      rewrite (validate_dns_record_flag E E' record (Urllib.netloc result)
                 (Urllib.netloc result) record_type record_type Hflag), IH.
      reflexivity. }
    unfold Url._get_records. rewrite H4, H6, !Hsame. reflexivity.
Qed.

Lemma safe_url_depends_on_lookups_witness :
  Url.is_safe_url
    (Fixtures.with_dns (Sample.env false) Fixtures.rebinding_dns)
    "http://example.com/hello"
  = Url.is_safe_url (Sample.env false) "http://example.com/hello".
Proof.
  apply (safe_url_depends_on_lookups (Sample.env false)
           (Fixtures.with_dns (Sample.env false) Fixtures.rebinding_dns)
           "http://example.com/hello"
           {| Urllib.scheme := "http"; Urllib.netloc := "example.com" |});
    reflexivity.
Defined.

Lemma forallb_numeric_remove_dot (s : string) :
  PyStr.forallb_str PyStr.is_numeric (PyStr.remove "." s)
  = PyStr.forallb_str (fun c => PyStr.is_numeric c || PyStr.ch_eqb c ".") s.
Proof.
  induction s as [|c s IH]; [reflexivity|].
  cbn [PyStr.remove PyStr.forallb_str].
  destruct (PyStr.ch_eqb c ".") eqn:Hc.
  - rewrite orb_true_r. exact IH.
  - cbn [PyStr.forallb_str]. rewrite orb_false_r, IH. reflexivity.
Qed.

Lemma is_numeric_ascii (c : ascii) :
  (PyStr.ord c <? 128)%nat = true -> PyStr.is_numeric c = PyStr.is_digit c.
Proof.
  unfold PyStr.is_numeric. intros H. apply Nat.ltb_lt in H.
  rewrite !(proj2 (Nat.eqb_neq _ _)) by lia.
  rewrite !orb_false_r. reflexivity.
Qed.

Lemma is_ip_chars (address : string) :
  Url.is_ip address
  = PyStr.existsb_str PyStr.is_numeric address
    && PyStr.forallb_str (fun c => PyStr.is_numeric c || PyStr.ch_eqb c ".")
         address.
Proof.
  unfold Url.is_ip, PyStr.isnumeric.
  induction address as [|c s IH]; [reflexivity|].
  cbn [PyStr.remove PyStr.existsb_str PyStr.forallb_str].
  destruct (PyStr.ch_eqb c ".") eqn:Hc.
  - apply Ascii.eqb_eq in Hc. subst c.
    rewrite IH. reflexivity.
  - cbn [PyStr.truthy PyStr.forallb_str]. rewrite orb_false_r.
    destruct (PyStr.is_numeric c); cbn [andb orb].
    + apply forallb_numeric_remove_dot.
    + symmetry. apply andb_false_r.
Qed.

(** X4. [is_ip] holds exactly of the texts made of numeric characters
    and dots that hold at least one numeric character, where numeric is
    what [str.isnumeric] accepts: it needs neither four groups nor values
    up to 255, and besides the ASCII digits it accepts the superscripts
    and fractions of Latin-1.  On ASCII text it is the test for digits
    and dots with at least one digit; a text with a colon, as every IPv6
    address has, is never taken for an IP address. *)
Theorem is_ip_numeric_and_dots (address : string) :
  Url.is_ip address
  = PyStr.existsb_str PyStr.is_numeric address
    && PyStr.forallb_str (fun c => PyStr.is_numeric c || PyStr.ch_eqb c ".")
         address
  /\ (forall c,
         PyStr.is_numeric c = true
         <-> PyStr.is_digit c = true
             \/ In (PyStr.ord c) [178; 179; 185; 188; 189; 190]%nat)
  /\ (PyStr.forallb_str (fun c => (PyStr.ord c <? 128)%nat) address = true ->
      Url.is_ip address
      = PyStr.existsb_str PyStr.is_digit address
        && PyStr.forallb_str
             (fun c => PyStr.is_digit c || PyStr.ch_eqb c ".") address)
  /\ (PyStr.contains ":" address = true -> Url.is_ip address = false).
Proof.
  split; [apply is_ip_chars|]. split; [|split].
  - intros c. unfold PyStr.is_numeric. rewrite !orb_true_iff, !Nat.eqb_eq.
    cbn [In]. intuition congruence.
  - intros Hascii. rewrite is_ip_chars.
    assert (Hsame :
              PyStr.existsb_str PyStr.is_numeric address
              = PyStr.existsb_str PyStr.is_digit address
              /\ PyStr.forallb_str
                   (fun c => PyStr.is_numeric c || PyStr.ch_eqb c ".")
                   address
                 = PyStr.forallb_str
                     (fun c => PyStr.is_digit c || PyStr.ch_eqb c ".")
                     address).
    { induction address as [|c s IH]; [split; reflexivity|].
      cbn [PyStr.forallb_str] in Hascii.
      apply andb_true_iff in Hascii as [Hc Hs].
      destruct (IH Hs) as [IH1 IH2].
      cbn [PyStr.forallb_str PyStr.existsb_str].
      rewrite (is_numeric_ascii c Hc), IH1, IH2. split; reflexivity. }
    destruct Hsame as [-> ->]. reflexivity.
  - rewrite is_ip_chars. intros H.
    assert (Hall : PyStr.forallb_str
                     (fun c => PyStr.is_numeric c || PyStr.ch_eqb c ".")
                     address = false).
    { induction address as [|c s IH]; [discriminate|].
      unfold PyStr.contains in H. cbn [PyStr.existsb_str] in H.
      cbn [PyStr.forallb_str].
      destruct (PyStr.ch_eqb ":" c) eqn:Hc.
      - apply Ascii.eqb_eq in Hc. subst c. reflexivity.
      - cbn [orb] in H. rewrite (IH H). apply andb_false_r. }
    rewrite Hall. apply andb_false_r.
Qed.

Lemma is_ip_numeric_and_dots_witness :
  Url.is_ip "2001:db8::1" = false.
Proof.
  pose proof (is_ip_numeric_and_dots "2001:db8::1") as (_ & _ & _ & H).
  exact (H eq_refl).
Defined.

Section RejectedHosts.
Context (E : Env).

(** X5. A URL whose network location is made of digits and dots is
    rejected whatever the resolver answers and whatever the
    configuration allows: [is_safe_url] is false, [check_url_details]
    reports it invalid and [build_download_response] raises, both
    without an upstream request. *)
Theorem dotted_host_always_rejected (url : string)
    (result : Urllib.ParseResult) (with_checksum : bool)
    (request : FlaskRequest) (download_url : string)
    (content_type : option string) (w : World) :
  Urllib.urlparse url = Some result ->
  Url.is_ip (Urllib.netloc result) = true ->
  Url.is_safe_url E url = false
  /\ Url.check_url_details E url with_checksum w = (Ret (false, ∅), w)
  /\ Util.build_download_response E request url download_url content_type w
     = (Raise (ValueError ("Unsafe url " +:+ url)), w).
Proof.
  intros Hp Hip.
  assert (Hs : Url.is_safe_url E url = false).
  { rewrite (is_safe_url_parsed E url result Hp).
    rewrite (is_safe_domain_literal E _ Hip). apply andb_false_r. }
  split; [exact Hs|]. split.
  - rewrite check_url_details_eq, Hs. reflexivity.
  - rewrite build_download_response_eq. cbv zeta. rewrite Hs. reflexivity.
Qed.

End RejectedHosts.

Lemma dotted_host_always_rejected_witness :
  Url.is_safe_url (Sample.env true) "http://8.8.8.8/x" = false
  /\ Url.check_url_details (Sample.env true) "http://8.8.8.8/x" true
       Sample.world0
     = (Ret (false, ∅), Sample.world0)
  /\ Util.build_download_response (Sample.env true) Sample.plain_request
       "http://8.8.8.8/x" "http://example.com/hello" None Sample.world0
     = (Raise (ValueError ("Unsafe url " +:+ "http://8.8.8.8/x")),
        Sample.world0).
Proof.
  apply (dotted_host_always_rejected (Sample.env true) "http://8.8.8.8/x"
           {| Urllib.scheme := "http"; Urllib.netloc := "8.8.8.8" |});
    reflexivity.
Defined.

Section ProbeOrder.
Context (E : Env).

Local Abbreviation head_req url := (Url.probe_request E "head" url).
Local Abbreviation options_req url := (Url.probe_request E "options" url).
Local Abbreviation get_req url := (Url.fallback_request E url).

Lemma get_result_plain_eq (url : string) (w : World) :
  Url._get_result_from_url E url false w
  = match http_send E (http_log w) (head_req url) with
    | HttpRaise e => (Raise e, logged [head_req url] w)
    | HttpOk r1 =>
        if Url.sufficient r1 then (Ret (r1, ∅), logged [head_req url] w)
        else
          match http_send E (http_log w ++ [head_req url]) (options_req url)
          with
          | HttpRaise e => (Raise e, logged [head_req url; options_req url] w)
          | HttpOk r2 =>
              if Url.sufficient r2
              then (Ret (r2, ∅), logged [head_req url; options_req url] w)
              else
                match http_send E
                        (http_log w ++ [head_req url; options_req url])
                        (get_req url) with
                | HttpRaise e =>
                    (Raise e,
                     logged [head_req url; options_req url; get_req url] w)
                | HttpOk r =>
                    (Ret (r, ∅),
                     logged [head_req url; options_req url; get_req url] w)
                end
          end
    end.
Proof.
  unfold Url._get_result_from_url, Url.probe_loop, bind.
  rewrite send_eq.
  destruct (http_send E (http_log w) (head_req url)) as [r1|e];
    [|reflexivity].
  cbn [negb andb].
  destruct (Url.sufficient r1); [reflexivity|].
  rewrite send_eq. cbn [logged http_log].
  destruct (http_send E (http_log w ++ [head_req url]) (options_req url))
    as [r2|e]; [|rewrite logged_logged; reflexivity].
  destruct (Url.sufficient r2); [rewrite logged_logged; reflexivity|].
  cbn [ret]. rewrite send_eq. cbn [logged http_log].
  rewrite <- !app_assoc. cbn [app].
  destruct (http_send E _ (get_req url)); rewrite !logged_logged;
    reflexivity.
Qed.

(** X6. Without a checksum, [_get_result_from_url] issues one, two or
    three upstream requests and no other: [HEAD], then [OPTIONS], then a
    streamed [GET].  A request that raises ends the probe with that
    exception and nothing further is sent; a [HEAD] or [OPTIONS] answer
    with status 200, a content type or range and a content length is
    returned at once; [OPTIONS] is sent only after an insufficient
    [HEAD] answer and the [GET] only after two insufficient answers,
    and its answer is returned as it is.  Every result comes with empty
    extra data. *)
Theorem plain_probe_order (url : string) (w : World) :
  let out := Url._get_result_from_url E url false w in
  let head_answer := http_send E (http_log w) (head_req url) in
  let options_answer :=
    http_send E (http_log w ++ [head_req url]) (options_req url) in
  let get_answer :=
    http_send E (http_log w ++ [head_req url; options_req url])
      (get_req url) in
  (forall e,
      head_answer = HttpRaise e ->
      out = (Raise e, logged [head_req url] w))
  /\ (forall r1,
         head_answer = HttpOk r1 -> Url.sufficient r1 = true ->
         out = (Ret (r1, ∅), logged [head_req url] w))
  /\ (forall r1 e,
         head_answer = HttpOk r1 -> Url.sufficient r1 = false ->
         options_answer = HttpRaise e ->
         out = (Raise e, logged [head_req url; options_req url] w))
  /\ (forall r1 r2,
         head_answer = HttpOk r1 -> Url.sufficient r1 = false ->
         options_answer = HttpOk r2 -> Url.sufficient r2 = true ->
         out = (Ret (r2, ∅), logged [head_req url; options_req url] w))
  /\ (forall r1 r2 e,
         head_answer = HttpOk r1 -> Url.sufficient r1 = false ->
         options_answer = HttpOk r2 -> Url.sufficient r2 = false ->
         get_answer = HttpRaise e ->
         out = (Raise e,
                logged [head_req url; options_req url; get_req url] w))
  /\ (forall r1 r2 r,
         head_answer = HttpOk r1 -> Url.sufficient r1 = false ->
         options_answer = HttpOk r2 -> Url.sufficient r2 = false ->
         get_answer = HttpOk r ->
         out = (Ret (r, ∅),
                logged [head_req url; options_req url; get_req url] w))
  /\ (forall r,
         Url.sufficient r = true
         <-> status_code r = 200
             /\ (PyStr.truthy_opt (headers_get "Content-Type" r) = true
                 \/ PyStr.truthy_opt (headers_get "Content-Range" r) = true)
             /\ PyStr.truthy_opt (headers_get "Content-Length" r) = true)
  /\ method (head_req url) = "head"%string
  /\ method (options_req url) = "options"%string
  /\ method (get_req url) = "get"%string /\ stream (get_req url) = true.
Proof.
  cbv zeta. rewrite get_result_plain_eq.
  split_and!; try reflexivity.
  - by intros e ->.
  - by intros r1 -> ->.
  - by intros r1 e -> -> ->.
  - by intros r1 r2 -> -> -> ->.
  - by intros r1 r2 e -> -> -> -> ->.
  - by intros r1 r2 r -> -> -> -> ->.
  - intros r. unfold Url.sufficient.
    rewrite !andb_true_iff, orb_true_iff, Z.eqb_eq. tauto.
Qed.

End ProbeOrder.

Lemma plain_probe_order_witness :
  Url._get_result_from_url (Sample.env false) "http://example.com/hello"
    false Sample.world0
  = (Ret (Sample.plain 200 Sample.text_headers "", ∅),
     logged [Url.probe_request (Sample.env false) "head"
               "http://example.com/hello"] Sample.world0).
Proof.
  pose proof (plain_probe_order (Sample.env false)
                "http://example.com/hello" Sample.world0) as (_ & H & _).
  exact (H (Sample.plain 200 Sample.text_headers "") eq_refl eq_refl).
Defined.

Section DetailsFacts.
Context (E : Env).

Lemma get_result_raise_origin (url : string) (with_checksum : bool)
    (w w' : World) (e : exn) :
  Url._get_result_from_url E url with_checksum w = (Raise e, w') ->
  is_RequestException e = true
  \/ exists reqs req,
      w' = logged (reqs ++ [req]) w
      /\ http_send E (http_log w ++ reqs) req = HttpRaise e
      /\ reqs ++ [req]
         `prefix_of` [Url.probe_request E "head" url;
                      Url.probe_request E "options" url;
                      if with_checksum then Url.checksum_request url
                      else Url.fallback_request E url].
Proof.
  assert (H0 : forall (req : HttpRequest) rest,
             [] ++ [req] `prefix_of` req :: rest)
    by (intros; eexists; reflexivity).
  assert (H1 : forall (a req : HttpRequest) rest,
             [a] ++ [req] `prefix_of` a :: req :: rest)
    by (intros; eexists; reflexivity).
  assert (H2 : forall a b req : HttpRequest,
             [a; b] ++ [req] `prefix_of` [a; b; req])
    by (intros; exists []; reflexivity).
  destruct with_checksum.
  - rewrite get_result_checksum_eq.
    destruct (http_send E (http_log w) _) eqn:Hs1.
    2:{ intros [= <- <-]. right. eexists [], _.
        rewrite app_nil_r. split; [reflexivity|]. split; [exact Hs1 | apply H0]. }
    destruct (http_send E (http_log w ++ [_]) _) eqn:Hs2.
    2:{ intros [= <- <-]. right. eexists [_], _.
        split; [reflexivity|]. split; [exact Hs2 | apply H1]. }
    destruct (http_send E (http_log w ++ [_; _]) _) eqn:Hs3.
    2:{ intros [= <- <-]. right. eexists [_; _], _.
        split; [reflexivity|]. split; [exact Hs3 | apply H2]. }
    destruct (_ && _); [|discriminate].
    intros [= <- <-]. left. reflexivity.
  - rewrite get_result_plain_eq.
    destruct (http_send E (http_log w) _) eqn:Hs1.
    2:{ intros [= <- <-]. right. eexists [], _.
        rewrite app_nil_r. split; [reflexivity|]. split; [exact Hs1 | apply H0]. }
    destruct (Url.sufficient _); [discriminate|].
    destruct (http_send E (http_log w ++ [_]) _) eqn:Hs2.
    2:{ intros [= <- <-]. right. eexists [_], _.
        split; [reflexivity|]. split; [exact Hs2 | apply H1]. }
    destruct (Url.sufficient _); [discriminate|].
    destruct (http_send E (http_log w ++ [_; _]) _) eqn:Hs3;
      [discriminate|].
    intros [= <- <-]. right. eexists [_; _], _.
    split; [reflexivity|]. split; [exact Hs3 | apply H2].
Qed.

Context (new_resolver : string -> string -> option exn).

(** X7. [check_url_details] never raises a [RequestException], an HTTP
    error status of the checksum download included.  When it raises, the
    exception is no [RequestException] and is either one the construction
    of the resolver raised for the network location of the URL, with no
    request sent, or one the HTTP client raised for the last request of
    the probe sent so far, the URL having passed the safety check. *)
Theorem check_url_details_raises_only_foreign (url : string)
    (with_checksum : bool) (w w' : World) (e : exn) :
  Resolving.check_url_details E new_resolver url with_checksum w
  = (Raise e, w') ->
  is_RequestException e = false
  /\ ((w' = w
       /\ exists result record_type,
           Urllib.urlparse url = Some result
           /\ (record_type = "A"%string \/ record_type = "AAAA"%string)
           /\ new_resolver (Urllib.netloc result) record_type = Some e)
      \/ (Resolving.is_safe_url E new_resolver url = inr true
          /\ exists reqs req,
              w' = logged (reqs ++ [req]) w
              /\ http_send E (http_log w ++ reqs) req = HttpRaise e
              /\ reqs ++ [req]
                 `prefix_of` [Url.probe_request E "head" url;
                              Url.probe_request E "options" url;
                              if with_checksum then Url.checksum_request url
                              else Url.fallback_request E url])).
Proof.
  rewrite resolving_check_url_details.
  destruct (Resolving.is_safe_url E new_resolver url) as [e0|[|]] eqn:Hsafe;
    [| |discriminate].
  - destruct (is_RequestException e0) eqn:He; [discriminate|].
    intros [= <- <-]. split; [exact He|]. left. split; [reflexivity|].
    unfold Resolving.is_safe_url in Hsafe.
    destruct (negb (Url.is_safe_schema url)); [discriminate|].
    destruct (Urllib.urlparse url) as [result|]; [|discriminate].
    unfold Resolving.is_safe_domain, Resolving._get_records in Hsafe.
    destruct (new_resolver (Urllib.netloc result) "A") as [e4|] eqn:H4.
    { injection Hsafe as <-. exists result, "A"%string. auto. }
    destruct (new_resolver (Urllib.netloc result) "AAAA") as [e6|] eqn:H6.
    { injection Hsafe as <-. exists result, "AAAA"%string. auto. }
    cbn [Py.and_then] in Hsafe.
    destruct (negb (Url.is_ip (Urllib.netloc result))); discriminate.
  - destruct (Url._get_result_from_url E url with_checksum w)
      as [[[result extra]|e0] w0] eqn:Hr; [discriminate|].
    destruct (is_RequestException e0) eqn:He; [discriminate|].
    intros [= <- <-]. split; [exact He|]. right. split; [reflexivity|].
    destruct (get_result_raise_origin _ _ _ _ _ Hr) as [Hreq|Hsend];
      [congruence | exact Hsend].
Qed.




End DetailsFacts.

Lemma check_url_details_raises_only_foreign_witness :
  is_RequestException (OtherException "broken pipe") = false
  /\ ((logged [Url.probe_request (Sample.env false) "head"
                "http://example.com/hello"] Sample.world0
       = Sample.world0
       /\ exists result record_type,
           Urllib.urlparse "http://example.com/hello" = Some result
           /\ (record_type = "A"%string \/ record_type = "AAAA"%string)
           /\ Resolving.configured (Urllib.netloc result) record_type
              = Some (OtherException "broken pipe"))
      \/ (Resolving.is_safe_url
            (Fixtures.with_http (Sample.env false) Fixtures.broken_http)
            Resolving.configured "http://example.com/hello"
          = inr true
          /\ exists reqs req,
              logged [Url.probe_request (Sample.env false) "head"
                        "http://example.com/hello"] Sample.world0
              = logged (reqs ++ [req]) Sample.world0
              /\ http_send
                   (Fixtures.with_http (Sample.env false)
                      Fixtures.broken_http)
                   (http_log Sample.world0 ++ reqs) req
                 = HttpRaise (OtherException "broken pipe")
              /\ reqs ++ [req]
                 `prefix_of`
                   [Url.probe_request
                      (Fixtures.with_http (Sample.env false)
                         Fixtures.broken_http) "head"
                      "http://example.com/hello";
                    Url.probe_request
                      (Fixtures.with_http (Sample.env false)
                         Fixtures.broken_http) "options"
                      "http://example.com/hello";
                    Url.fallback_request
                      (Fixtures.with_http (Sample.env false)
                         Fixtures.broken_http)
                      "http://example.com/hello"])).
Proof.
  apply (check_url_details_raises_only_foreign
           (Fixtures.with_http (Sample.env false) Fixtures.broken_http)
           Resolving.configured
           "http://example.com/hello" false Sample.world0
           (logged [Url.probe_request (Sample.env false) "head"
                      "http://example.com/hello"] Sample.world0)).
  vm_compute. reflexivity.
Defined.


(** ** Further properties of [ocean_provider/utils/util.py] *)

Lemma concat_filter_nonempty (chunks : list bytes) :
  concat (filter (fun chunk : bytes => chunk <> []) chunks) = concat chunks.
Proof.
  induction chunks as [|chunk rest IH]; [reflexivity|].
  rewrite filter_cons. destruct (decide (chunk <> [])) as [Hne|Hemp].
  - cbn [concat]. rewrite IH. reflexivity.
  - assert (chunk = []) as -> by (destruct chunk; [reflexivity|]; exfalso;
                                  apply Hemp; discriminate).
    cbn [concat app]. exact IH.
Qed.

(** X9. The chunks [_generate] yields for an upstream response, put end
    to end, are the whole upstream body with nothing added, dropped or
    reordered, however the library cuts the body into items; they are
    the items in their order without the empty ones, so no chunk is
    empty. *)
Theorem generate_streams_whole_body (response : Response) :
  concat (Util._generate response) = content response
  /\ Forall (fun chunk : bytes => chunk <> []) (Util._generate response)
  /\ sublist (Util._generate response) (Url.iter_content 4096 response).
Proof.
  unfold Util._generate. split; [|split].
  - rewrite concat_filter_nonempty. apply iter_content_concat.
  - apply Forall_forall. intros chunk Hin.
    apply list_elem_of_filter in Hin as [Hne _]. exact Hne.
  - apply sublist_filter.
Qed.

Section DownloadRelay.
Context (E : Env).

(** X10. Once [url] has passed the safety check, [build_download_response]
    issues exactly one upstream request, a streamed GET of [download_url]
    (which is not itself checked) with a timeout of 3 seconds.  An
    exception of that request is raised again; an answer is relayed with
    its status code as it is, error statuses included, and with a body
    whose chunks make up the upstream body. *)
Theorem download_relays_upstream (request : FlaskRequest)
    (url download_url : string) (content_type : option string) (w : World) :
  let hs : odict :=
    if bool_decide (is_Some (range request))
    then {[ "Range"%string := request_headers request !! "range"%string ]}
    else ∅ in
  let req :=
    {| method := "get"; url := download_url; params := ∅;
       req_headers := hs; req_data := None; stream := true;
       timeout := Some 3 |} in
  let out :=
    Util.build_download_response E request url download_url content_type w in
  Url.is_safe_url E url = true ->
  out.2 = logged [req] w
  /\ (forall e, http_send E (http_log w) req = HttpRaise e -> out.1 = Raise e)
  /\ (forall response,
         http_send E (http_log w) req = HttpOk response ->
         exists answer chunks,
           out.1 = Ret answer
           /\ resp_status answer = status_code response
           /\ resp_body answer = Stream chunks
           /\ concat chunks = content response).
Proof.
  cbv zeta. intros Hsafe. rewrite build_download_response_eq. cbv zeta.
  rewrite Hsafe.
  fold (Util.download_request download_url
          (if bool_decide (is_Some (range request))
           then {[ "Range"%string := request_headers request !! "range"%string ]}
           else ∅)).
  split; [destruct (http_send E _ _); reflexivity|]. split.
  - intros e ->. reflexivity.
  - intros response ->. eexists _, _. split; [reflexivity|].
    split; [reflexivity|]. split; [reflexivity|].
    unfold Util._generate.
    rewrite concat_filter_nonempty. apply iter_content_concat.
Qed.

End DownloadRelay.

Lemma download_relays_upstream_witness :
  (Util.build_download_response (Sample.env false) Sample.plain_request
     "http://example.com/hello" "http://intranet.test/x" None
     Sample.world0).2
  = logged [{| method := "get"; url := "http://intranet.test/x";
               params := ∅; req_headers := ∅; req_data := None;
               stream := true; timeout := Some 3 |}] Sample.world0.
Proof.
  pose proof (download_relays_upstream (Sample.env false)
                Sample.plain_request "http://example.com/hello"
                "http://intranet.test/x" None Sample.world0 eq_refl)
    as (H & _).
  exact H.
Defined.

Lemma prefix_append (s t : string) : String.prefix s (s +:+ t) = true.
Proof.
  induction s as [|c s IH]; [destruct t; reflexivity|].
  change (String c s +:+ t) with (String c (s +:+ t)).
  cbn [String.prefix].
  destruct (ascii_dec c c); [exact IH | congruence].
Qed.

Lemma prefix_refl (s : string) : String.prefix s s = true.
Proof.
  induction s as [|c s IH]; [reflexivity|]. cbn [String.prefix].
  destruct (ascii_dec c c); [exact IH | congruence].
Qed.

Section ReconcileFacts.
Context (E : Env).

(** X11. In the answer to a request without a range, reconciliation
    changes at most one of file name and content type.  The delivered
    name begins with the name derived from the URL or the upstream
    [Content-Disposition] header and is that name when it has an
    extension; a known content type is delivered as it is, and an
    upstream [Content-Type] header overrides the declared type. *)
Theorem reconcile_changes_one_side (url : string) (response : Response)
    (declared : option string) :
  let filename := Util.derived_filename E url response in
  let known := Util.known_content_type response declared in
  let name := (Util.reconcile E url response declared).1 in
  let type := (Util.reconcile E url response declared).2 in
  PyStr.startswith filename name = true
  /\ (name = filename \/ type = known)
  /\ (Util.splitext_ext filename <> EmptyString -> name = filename)
  /\ (PyStr.truthy_opt known = true -> type = known)
  /\ (PyStr.truthy_opt (headers_get "content-type" response) = true ->
      type = headers_get "content-type" response).
Proof.
  cbv zeta. unfold Util.reconcile. cbv zeta.
  set (filename := Util.derived_filename E url response).
  set (known := Util.known_content_type response declared).
  assert (Hhdr : PyStr.truthy_opt (headers_get "content-type" response) = true
                 -> known = headers_get "content-type" response
                    /\ PyStr.truthy_opt known = true).
  { intros H. subst known. unfold Util.known_content_type. cbv zeta.
    rewrite H. auto. }
  assert (Hself : PyStr.startswith filename filename = true).
  { apply prefix_refl. }
  destruct (PyStr.truthy (Util.splitext_ext filename)) eqn:Hext;
    destruct (PyStr.truthy_opt known) eqn:Hknown; cbn [negb andb fst snd].
  - repeat split; auto. intros H. apply Hhdr in H as [-> _]. reflexivity.
  - repeat split; auto; try discriminate.
    intros H. apply Hhdr in H as [_ H]. congruence.
  - destruct (PyStr.truthy_opt (mimetypes_guess_extension E _));
      cbn [fst snd].
    + split; [apply prefix_append|]. repeat split; auto.
      * intros Hne. destruct (Util.splitext_ext filename);
          [congruence | discriminate].
      * intros H. apply Hhdr in H as [-> _]. reflexivity.
    + repeat split; auto. intros H. apply Hhdr in H as [-> _]. reflexivity.
  - repeat split; auto; try discriminate.
    intros H. apply Hhdr in H as [_ H]. congruence.
Qed.

(** X12. The body [process_compute_request] builds for the operator
    service holds the provider address, the provider's signature over
    address, job and document, and, of the request data, only the
    consumer address as [owner], the job, the transfer as [agreementId]
    and the document, each when present: no other field of the request,
    the consumer's signature included, is passed on. *)
Theorem compute_body_fields (data : gmap string string) (k : string) :
  Util.process_compute_request E data !! k
  = if String.eqb k "providerSignature" then
      Some (sign_message E
              (provider_address E
               +:+ default EmptyString (data !! "jobId"%string)
               +:+ default EmptyString (data !! "documentId"%string)))
    else if String.eqb k "documentId" then data !! "documentId"%string
    else if String.eqb k "agreementId" then data !! "transferTxId"%string
    else if String.eqb k "jobId" then data !! "jobId"%string
    else if String.eqb k "owner" then data !! "consumerAddress"%string
    else if String.eqb k "providerAddress" then Some (provider_address E)
    else None.
Proof.
  unfold Util.process_compute_request. cbv zeta.
  assert (Hjob : forall b : gmap string string,
             Util.set_if_present "documentId" (data !! "documentId"%string)
               (Util.set_if_present "agreementId"
                  (data !! "transferTxId"%string)
                  (Util.set_if_present "jobId" (data !! "jobId"%string) b))
             !! "jobId"%string
             = match data !! "jobId"%string with
               | Some j => Some j
               | None => b !! "jobId"%string
               end).
  { intros b. unfold Util.set_if_present.
    destruct (data !! "documentId"%string), (data !! "transferTxId"%string),
      (data !! "jobId"%string); simplify_map_eq; reflexivity. }
  assert (Hdoc : forall b : gmap string string,
             Util.set_if_present "documentId" (data !! "documentId"%string) b
             !! "documentId"%string
             = match data !! "documentId"%string with
               | Some j => Some j
               | None => b !! "documentId"%string
               end).
  { intros b. unfold Util.set_if_present.
    destruct (data !! "documentId"%string); simplify_map_eq; reflexivity. }
  rewrite Hjob, Hdoc.
  destruct (String.eqb_spec k "providerSignature") as [->|Hsig].
  { rewrite lookup_insert_eq. unfold Util.set_if_present.
    destruct (data !! "consumerAddress"%string), (data !! "jobId"%string),
      (data !! "transferTxId"%string), (data !! "documentId"%string);
      simplify_map_eq; reflexivity. }
  rewrite lookup_insert_ne by congruence.
  unfold Util.set_if_present.
  destruct (String.eqb_spec k "documentId") as [->|Hd].
  { destruct (data !! "documentId"%string), (data !! "transferTxId"%string),
      (data !! "jobId"%string), (data !! "consumerAddress"%string);
      simplify_map_eq; reflexivity. }
  destruct (String.eqb_spec k "agreementId") as [->|Ha].
  { destruct (data !! "documentId"%string), (data !! "transferTxId"%string),
      (data !! "jobId"%string), (data !! "consumerAddress"%string);
      simplify_map_eq; reflexivity. }
  destruct (String.eqb_spec k "jobId") as [->|Hj].
  { destruct (data !! "documentId"%string), (data !! "transferTxId"%string),
      (data !! "jobId"%string), (data !! "consumerAddress"%string);
      simplify_map_eq; reflexivity. }
  destruct (String.eqb_spec k "owner") as [->|Ho].
  { destruct (data !! "documentId"%string), (data !! "transferTxId"%string),
      (data !! "jobId"%string), (data !! "consumerAddress"%string);
      simplify_map_eq; reflexivity. }
  destruct (String.eqb_spec k "providerAddress") as [->|Hp].
  { destruct (data !! "documentId"%string), (data !! "transferTxId"%string),
      (data !! "jobId"%string), (data !! "consumerAddress"%string);
      simplify_map_eq; reflexivity. }
  destruct (data !! "documentId"%string), (data !! "transferTxId"%string),
    (data !! "jobId"%string), (data !! "consumerAddress"%string);
    simplify_map_eq; reflexivity.
Qed.

End ReconcileFacts.

Lemma reconcile_changes_one_side_witness :
  (Util.reconcile (Sample.env false) "http://example.com/notes"
     (Sample.plain 200 {[ "content-type"%string := "text/plain"%string ]}
        "abc") (Some "text/csv"%string)).2
  = Some "text/plain"%string.
Proof.
  pose proof (reconcile_changes_one_side (Sample.env false)
                "http://example.com/notes"
                (Sample.plain 200
                   {[ "content-type"%string := "text/plain"%string ]} "abc")
                (Some "text/csv"%string)) as (_ & _ & _ & _ & H).
  exact (H eq_refl).
Defined.

(** ** Dictionary helpers of [ocean_provider/utils/util.py] *)

Lemma filter_dictionary_get {V} (dictionary : gmap string V)
    (keys : list string) (k : string) :
  UtilDict.filter_dictionary dictionary keys !! k
  = if bool_decide (k ∈ keys) then dictionary !! k else None.
Proof.
  unfold UtilDict.filter_dictionary.
  destruct (dictionary !! k) as [v|] eqn:Hk.
  - case_bool_decide as Hin.
    + apply map_lookup_filter_Some. split; [exact Hk | exact Hin].
    + apply map_lookup_filter_None. right. intros v' Hk' Hin'.
      apply Hin. exact Hin'.
  - assert (filter (fun kv : string * V => kv.1 ∈ keys) dictionary !! k
            = None) as ->
      by (apply map_lookup_filter_None; left; exact Hk).
    destruct (bool_decide (k ∈ keys)); reflexivity.
Qed.

(** X13. [filter_dictionary] keeps the entries whose key is among the
    given keys, with their values, and nothing else; a key that is asked
    for but absent from the dictionary is not added.  Filtering by one
    list of keys and then by another keeps the entries whose key is in
    both lists, so the order of the two filters does not matter and
    filtering twice by the same keys changes nothing. *)
Theorem filter_dictionary_keeps_listed {V} (dictionary : gmap string V)
    (keys keys' : list string) :
  (forall k,
      UtilDict.filter_dictionary dictionary keys !! k
      = if bool_decide (k ∈ keys) then dictionary !! k else None)
  /\ UtilDict.filter_dictionary
       (UtilDict.filter_dictionary dictionary keys) keys'
     = UtilDict.filter_dictionary dictionary
         (filter (fun k => k ∈ keys') keys)
  /\ UtilDict.filter_dictionary
       (UtilDict.filter_dictionary dictionary keys) keys'
     = UtilDict.filter_dictionary
         (UtilDict.filter_dictionary dictionary keys') keys
  /\ UtilDict.filter_dictionary
       (UtilDict.filter_dictionary dictionary keys) keys
     = UtilDict.filter_dictionary dictionary keys.
Proof.
  split; [apply filter_dictionary_get|].
  split; [|split]; apply map_eq; intros k;
    rewrite !filter_dictionary_get.
  - destruct (decide (k ∈ keys)) as [Hk|Hk], (decide (k ∈ keys')) as [Hk'|Hk'].
    + rewrite !bool_decide_eq_true_2; [reflexivity| |exact Hk|exact Hk'].
      apply list_elem_of_filter. auto.
    + rewrite (bool_decide_eq_false_2 (k ∈ keys')) by exact Hk'.
      rewrite bool_decide_eq_false_2; [reflexivity|].
      intros [? _]%list_elem_of_filter. contradiction.
    + rewrite (bool_decide_eq_true_2 (k ∈ keys')) by exact Hk'.
      rewrite (bool_decide_eq_false_2 (k ∈ keys)) by exact Hk.
      rewrite bool_decide_eq_false_2; [reflexivity|].
      intros [_ ?]%list_elem_of_filter. contradiction.
    + rewrite (bool_decide_eq_false_2 (k ∈ keys')) by exact Hk'.
      rewrite bool_decide_eq_false_2; [reflexivity|].
      intros [_ ?]%list_elem_of_filter. contradiction.
  - destruct (bool_decide (k ∈ keys)), (bool_decide (k ∈ keys'));
      reflexivity.
  - destruct (bool_decide (k ∈ keys)); reflexivity.
Qed.

Lemma prefix_app_l (p q s : string) :
  String.prefix (p +:+ q) s = true -> String.prefix p s = true.
Proof.
  revert s. induction p as [|c p IH]; intros s.
  - intros _. destruct s; reflexivity.
  - change (String c p +:+ q) with (String c (p +:+ q)).
    destruct s as [|d s]; cbn [String.prefix]; [discriminate|].
    destruct (ascii_dec c d); [apply IH | discriminate].
Qed.

Lemma filter_dictionary_starts_with_get {V} (dictionary : gmap string V)
    (prefix k : string) :
  UtilDict.filter_dictionary_starts_with dictionary prefix !! k
  = if PyStr.startswith prefix k then dictionary !! k else None.
Proof.
  unfold UtilDict.filter_dictionary_starts_with.
  destruct (dictionary !! k) as [v|] eqn:Hk.
  - destruct (PyStr.startswith prefix k) eqn:Hp.
    + apply map_lookup_filter_Some. split; [exact Hk | exact Hp].
    + apply map_lookup_filter_None. right. intros v' Hk' Hp'.
      change (PyStr.startswith prefix k = true) in Hp'. congruence.
  - assert (filter (fun kv : string * V =>
                      PyStr.startswith prefix kv.1 = true) dictionary !! k
            = None) as ->
      by (apply map_lookup_filter_None; left; exact Hk).
    destruct (PyStr.startswith prefix k); reflexivity.
Qed.

(** X14. [filter_dictionary_starts_with] keeps the entries whose key
    begins with the prefix, with their values, and nothing else.  The
    empty prefix keeps the whole dictionary, and filtering by a prefix
    and then by a longer one that extends it is filtering by the longer
    one. *)
Theorem filter_dictionary_starts_with_keeps_prefixed {V}
    (dictionary : gmap string V) (prefix more : string) :
  (forall k,
      UtilDict.filter_dictionary_starts_with dictionary prefix !! k
      = if PyStr.startswith prefix k then dictionary !! k else None)
  /\ UtilDict.filter_dictionary_starts_with dictionary EmptyString
     = dictionary
  /\ UtilDict.filter_dictionary_starts_with
       (UtilDict.filter_dictionary_starts_with dictionary prefix)
       (prefix +:+ more)
     = UtilDict.filter_dictionary_starts_with dictionary (prefix +:+ more).
Proof.
  split; [apply filter_dictionary_starts_with_get|].
  split; apply map_eq; intros k; rewrite !filter_dictionary_starts_with_get.
  - unfold PyStr.startswith. destruct k; reflexivity.
  - destruct (PyStr.startswith (prefix +:+ more) k) eqn:Hp; [|reflexivity].
    unfold PyStr.startswith in *. rewrite (prefix_app_l _ _ _ Hp).
    reflexivity.
Qed.

(** X15. [decode_from_data] never raises.  It gives the empty list (for
    the type [list]) or the empty dictionary (for any other type) when
    the key is missing or holds the empty text, and decodes a stored
    non-empty text.  The failure marker [-1] is ambiguous: the result is
    [-1] exactly when the stored value is a non-empty text that cannot be
    decoded or decodes to [-1], or is the number [-1] itself. *)
Theorem decode_from_data_marker (loads : string -> option json)
    (data : gmap string json) (key dec_type : string) :
  let default_value :=
    if String.eqb dec_type "list" then JList [] else JDict ∅ in
  (data !! key = None \/ data !! key = Some (JStr EmptyString) ->
   UtilDict.decode_from_data loads data key dec_type = default_value)
  /\ (forall text v,
         text <> EmptyString -> loads text = Some v ->
         UtilDict.decode_from_data loads (<[key := JStr text]> data) key
           dec_type = v)
  /\ (UtilDict.decode_from_data loads data key dec_type = JNum (-1)
      <-> data !! key = Some (JNum (-1))
          \/ exists text,
               data !! key = Some (JStr text) /\ text <> EmptyString
               /\ (loads text = None \/ loads text = Some (JNum (-1)))).
Proof.
  cbv zeta. unfold UtilDict.decode_from_data. cbv zeta.
  split; [|split].
  - intros [-> | ->]; cbn [default];
      destruct (String.eqb dec_type "list"); reflexivity.
  - intros text v Hne Hl. rewrite lookup_insert_eq. cbn [default from_option].
    destruct text; [congruence|]. cbv beta iota delta [id].
    rewrite Hl. reflexivity.
  - destruct (data !! key) as [[| |n|text| |]|] eqn:Hk;
      cbv beta iota delta [id default from_option].
    + split; [discriminate|]. intros [[=]|(text & [=] & _)].
    + split; [discriminate|]. intros [[=]|(text & [=] & _)].
    + split.
      * intros [= ->]. left. reflexivity.
      * intros [[= ->]|(text & [=] & _)]. reflexivity.
    + destruct text as [|c text].
      * split.
        -- destruct (String.eqb dec_type "list"); discriminate.
        -- intros [[=]|(text & [= <-] & Hne & _)]. congruence.
      * destruct (loads (String c text)) as [v|] eqn:Hl.
        -- split.
           ++ intros ->. right. exists (String c text).
              split; [reflexivity|]. split; [discriminate|]. auto.
           ++ intros [[=]|(text' & [= <-] & _ & [Hn|Hs])]; congruence.
        -- split; [|reflexivity].
           intros _. right. exists (String c text).
           split; [reflexivity|]. split; [discriminate|]. auto.
    + split; [discriminate|]. intros [[=]|(text & [=] & _)].
    + split; [discriminate|]. intros [[=]|(text & [=] & _)].
    + split.
      * destruct (String.eqb dec_type "list"); discriminate.
      * intros [[=]|(text & [=] & _)].
Qed.

Lemma decode_from_data_marker_witness :
  UtilDict.decode_from_data (fun _ => Some (JList [JNum 1]))
    (<["algouserdata"%string := JStr "[1]"]> ∅) "algouserdata" "list"
  = JList [JNum 1].
Proof.
  pose proof (decode_from_data_marker (fun _ => Some (JList [JNum 1]))
                ∅ "algouserdata"%string "list"%string) as (_ & H & _).
  apply (H "[1]"%string); [discriminate | reflexivity].
Defined.

(** ** The file list of an asset *)

Lemma map_raise_inr {A B} (f : A -> exn + B) (l : list A) (l' : list B) :
  Py.map_raise f l = inr l' <-> Forall2 (fun x y => f x = inr y) l l'.
Proof.
  revert l'. induction l as [|x rest IH]; intros l'; cbn [Py.map_raise].
  - split.
    + intros [= <-]. constructor.
    + intros H. inversion H. reflexivity.
  - destruct (f x) as [e|y] eqn:Hx; cbn [Py.and_then].
    + split; [discriminate|]. intros H. inversion H; subst. congruence.
    + destruct (Py.map_raise f rest) as [e|ys] eqn:Hrest; cbn [Py.and_then].
      * split; [discriminate|]. intros H. inversion H as [|? y' ? ys' Hy Hys];
          subst. apply IH in Hys. discriminate.
      * split.
        -- intros [= <-]. constructor; [exact Hx | apply IH; reflexivity].
        -- intros H. inversion H as [|? y' ? ys' Hy Hys]; subst.
           apply IH in Hys. congruence.
Qed.

Lemma map_raise_inl {A B} (f : A -> exn + B) (l : list A) (e : exn) :
  Py.map_raise f l = inl e ->
  exists i x,
    l !! i = Some x /\ f x = inl e
    /\ forall j x', (j < i)%nat -> l !! j = Some x' -> exists y, f x' = inr y.
Proof.
  induction l as [|x rest IH]; cbn [Py.map_raise]; [discriminate|].
  destruct (f x) as [e0|y] eqn:Hx; cbn [Py.and_then].
  - intros [= <-]. exists 0%nat, x. split; [reflexivity|].
    split; [exact Hx|]. intros j x' Hj. lia.
  - destruct (Py.map_raise f rest) as [e0|ys]; cbn [Py.and_then];
      [|discriminate].
    intros [= <-]. destruct (IH eq_refl) as (i & x0 & Hi & Hf & Hbefore).
    exists (S i), x0. split; [exact Hi|]. split; [exact Hf|].
    intros [|j] x' Hj Hl.
    + cbn in Hl. injection Hl as <-. eauto.
    + apply (Hbefore j x'); [lia | exact Hl].
Qed.

Section AssetFacts.
Context (loads : string -> option json).
Context (do_decrypt : json -> exn + option string).
Context (generate_url : json -> exn + json).

Lemma file_url_inr (file url : json) :
  Assets.file_url file = inr url
  <-> exists d, file = JDict d /\ d !! "url"%string = Some url.
Proof.
  unfold Assets.file_url. destruct file as [| | | | |d];
    try (split; [discriminate | intros (d' & [=] & _)]).
  cbn [Py.json_truthy]. case_bool_decide as Hemp; cbn [negb].
  - subst d. split; [discriminate|].
    intros (d' & [= <-] & Hl). rewrite lookup_empty in Hl. discriminate.
  - destruct (d !! "url"%string) as [u|] eqn:Hu.
    + split.
      * intros [= <-]. eauto.
      * intros (d' & [= <-] & Hl). congruence.
    + split; [discriminate|]. intros (d' & [= <-] & Hl). congruence.
Qed.

(** X16. [get_asset_urls] answers with one URL per file of the decrypted
    list, in the order of the list, each the [url] entry of its file: it
    returns a list exactly when every file is a dictionary with a [url]
    entry, and raises otherwise.  An asset whose list cannot be decrypted
    to anything has no URLs, and an exception of the decryption is
    passed on. *)
Theorem asset_urls_follow_files (asset : Assets.Asset) :
  (forall files urls,
      Assets.get_asset_files_list loads do_decrypt asset = inr (Some files) ->
      Assets.get_asset_urls loads do_decrypt asset = inr urls
      <-> Forall2 (fun file url =>
                     exists d, file = JDict d
                               /\ d !! "url"%string = Some url) files urls)
  /\ (Assets.get_asset_files_list loads do_decrypt asset = inr None ->
      Assets.get_asset_urls loads do_decrypt asset = inr [])
  /\ (forall e,
         Assets.get_asset_files_list loads do_decrypt asset = inl e ->
         Assets.get_asset_urls loads do_decrypt asset = inl e).
Proof.
  unfold Assets.get_asset_urls. split; [|split].
  - intros files urls ->. cbn [Py.and_then].
    assert (Hmap : Py.map_raise Assets.file_url files = inr urls
                   <-> Forall2 (fun file url =>
                                  exists d, file = JDict d
                                            /\ d !! "url"%string = Some url)
                         files urls).
    { rewrite map_raise_inr. split; intros H;
        (eapply Forall2_impl; [exact H|]); intros file url;
        apply file_url_inr. }
    destruct files as [|file rest]; [|exact Hmap].
    split.
    + intros [= <-]. constructor.
    + intros H. inversion H. reflexivity.
  - intros ->. reflexivity.
  - intros e ->. reflexivity.
Qed.

(** X17. [get_asset_url_at_index] gives [None] for every index when the
    asset has no URLs.  Otherwise an index from 0 up to the number of
    URLs selects the URL at that position and a larger one raises
    [ValueError]; a negative index is not rejected: it counts from the
    end of the list, and raises [IndexError] only below minus the number
    of URLs. *)
Theorem asset_url_index_bounds (asset : Assets.Asset) (urls : list json)
    (url_index : Z) :
  let n := Z.of_nat (length urls) in
  let at_index :=
    Assets.get_asset_url_at_index loads do_decrypt url_index asset in
  Assets.get_asset_urls loads do_decrypt asset = inr urls ->
  (urls = [] -> at_index = inr None)
  /\ (urls <> [] ->
      (n <= url_index ->
       at_index = inl (ValueError "url index is invalid"))
      /\ (0 <= url_index < n ->
          at_index = inr (urls !! Z.to_nat url_index)
          /\ is_Some (urls !! Z.to_nat url_index))
      /\ (- n <= url_index < 0 ->
          at_index = inr (urls !! Z.to_nat (n + url_index))
          /\ is_Some (urls !! Z.to_nat (n + url_index)))
      /\ (url_index < - n -> at_index = inl Py.IndexError)).
Proof.
  cbv zeta. unfold Assets.get_asset_url_at_index. intros ->.
  cbn [Py.and_then]. split; [intros ->; reflexivity|].
  intros Hne. destruct urls as [|u rest]; [congruence|].
  set (urls := u :: rest). set (n := Z.of_nat (length urls)).
  unfold Py.list_getitem. fold n.
  split; [|split; [|split]].
  - intros H. rewrite (proj2 (Z.leb_le _ _)) by exact H. reflexivity.
  - intros [H0 Hn]. rewrite (proj2 (Z.leb_gt _ _)) by exact Hn.
    rewrite (proj2 (Z.ltb_ge _ _)) by exact H0.
    rewrite (proj2 (Z.leb_le _ _)) by exact H0.
    rewrite (proj2 (Z.ltb_lt _ _)) by exact Hn. cbn [andb].
    assert (Hs : is_Some (urls !! Z.to_nat url_index))
      by (apply lookup_lt_is_Some; subst n; lia).
    split; [|exact Hs]. destruct Hs as [x ->]. reflexivity.
  - intros [Hlo Hhi]. rewrite (proj2 (Z.leb_gt _ _)) by lia.
    rewrite (proj2 (Z.ltb_lt _ _)) by exact Hhi.
    rewrite (proj2 (Z.leb_le _ _)) by lia.
    rewrite (proj2 (Z.ltb_lt _ _)) by lia. cbn [andb].
    rewrite (Z.add_comm url_index n).
    assert (Hs : is_Some (urls !! Z.to_nat (n + url_index)))
      by (apply lookup_lt_is_Some; subst n; lia).
    split; [|exact Hs]. destruct Hs as [x ->]. reflexivity.
  - intros Hlo. rewrite (proj2 (Z.leb_gt _ _)) by lia.
    rewrite (proj2 (Z.ltb_lt _ _)) by lia.
    rewrite (proj2 (Z.leb_gt _ _)) by lia. reflexivity.
Qed.

(** X18. [get_asset_download_urls] answers with one download URL per URL
    of the asset, in order, each generated from its URL.  It is all or
    nothing: when generation fails for some URL, the exception of the
    first such URL is raised and no list is returned. *)
Theorem download_urls_all_or_nothing (asset : Assets.Asset)
    (urls : list json) :
  Assets.get_asset_urls loads do_decrypt asset = inr urls ->
  (forall download_urls,
      Assets.get_asset_download_urls loads do_decrypt generate_url asset
      = inr download_urls
      <-> Forall2 (fun url download_url =>
                     generate_url url = inr download_url) urls download_urls)
  /\ (forall e,
         Assets.get_asset_download_urls loads do_decrypt generate_url asset
         = inl e ->
         exists i url,
           urls !! i = Some url /\ generate_url url = inl e
           /\ forall j url',
               (j < i)%nat -> urls !! j = Some url' ->
               exists download_url, generate_url url' = inr download_url).
Proof.
  unfold Assets.get_asset_download_urls. intros ->. cbn [Py.and_then].
  split.
  - intros download_urls. apply map_raise_inr.
  - intros e. apply map_raise_inl.
Qed.

(** X19. [get_asset_files_list] accepts the encrypted file list in two
    forms: a text that starts with a brace is read as a JSON object and
    its [encryptedDocument] entry is decrypted, any other text is
    decrypted as it is; both forms of one ciphertext give the same list.
    A text with a brace that is no JSON, or an object without that entry,
    raises before anything is decrypted. *)
Theorem wrapped_files_same_as_plain (wrapped : Assets.Asset) :
  PyStr.startswith "{" (Assets.encrypted_files wrapped) = true ->
  (forall d ciphertext,
      loads (Assets.encrypted_files wrapped) = Some (JDict d) ->
      d !! "encryptedDocument"%string = Some (JStr ciphertext) ->
      PyStr.startswith "{" ciphertext = false ->
      Assets.get_asset_files_list loads do_decrypt wrapped
      = Assets.get_asset_files_list loads do_decrypt
          {| Assets.asset_did := Assets.asset_did wrapped;
             Assets.encrypted_files := ciphertext |})
  /\ (loads (Assets.encrypted_files wrapped) = None ->
      Assets.get_asset_files_list loads do_decrypt wrapped
      = inl (ValueError "JSONDecodeError"))
  /\ (forall d,
         loads (Assets.encrypted_files wrapped) = Some (JDict d) ->
         d !! "encryptedDocument"%string = None ->
         Assets.get_asset_files_list loads do_decrypt wrapped
         = inl (KeyError "encryptedDocument")).
Proof.
  intros Hbrace. unfold Assets.get_asset_files_list. rewrite Hbrace.
  split; [|split].
  - intros d ciphertext Hl Hd Hplain.
    unfold Assets.json_loads_text at 1. rewrite Hl.
    cbn [Py.and_then Assets.encrypted_document Assets.encrypted_files].
    rewrite Hd, Hplain. reflexivity.
  - intros Hl. unfold Assets.json_loads_text at 1. rewrite Hl. reflexivity.
  - intros d Hl Hd. unfold Assets.json_loads_text at 1. rewrite Hl.
    cbn [Py.and_then Assets.encrypted_document]. rewrite Hd. reflexivity.
Qed.

End AssetFacts.

Lemma asset_urls_follow_files_witness :
  Assets.get_asset_urls AssetFixtures.loads AssetFixtures.do_decrypt
    AssetFixtures.asset
  = inr [JStr "http://example.com/hello"; JStr "http://example.com/notes"].
Proof.
  pose proof (asset_urls_follow_files AssetFixtures.loads
                AssetFixtures.do_decrypt AssetFixtures.asset) as (H & _).
  apply (H AssetFixtures.files); [reflexivity|].
  repeat constructor.
  - eexists. split; [reflexivity|]. reflexivity.
  - eexists. split; [reflexivity|]. reflexivity.
Defined.

Lemma asset_url_index_bounds_witness :
  Assets.get_asset_url_at_index AssetFixtures.loads AssetFixtures.do_decrypt
    (-1) AssetFixtures.asset
  = inr ([JStr "http://example.com/hello"; JStr "http://example.com/notes"]
           !! Z.to_nat (2 + -1)).
Proof.
  pose proof (asset_url_index_bounds AssetFixtures.loads
                AssetFixtures.do_decrypt AssetFixtures.asset
                [JStr "http://example.com/hello";
                 JStr "http://example.com/notes"] (-1) eq_refl) as (_ & H).
  destruct (H ltac:(discriminate)) as (_ & _ & Hneg & _).
  destruct (Hneg ltac:(cbn; lia)) as [Heq _]. exact Heq.
Defined.

Lemma download_urls_all_or_nothing_witness :
  Assets.get_asset_download_urls AssetFixtures.loads AssetFixtures.do_decrypt
    AssetFixtures.generate_url AssetFixtures.asset
  = inr [JStr "http://example.com/hello?token=t";
         JStr "http://example.com/notes?token=t"].
Proof.
  pose proof (download_urls_all_or_nothing AssetFixtures.loads
                AssetFixtures.do_decrypt AssetFixtures.generate_url
                AssetFixtures.asset
                [JStr "http://example.com/hello";
                 JStr "http://example.com/notes"] eq_refl) as (H & _).
  apply H. repeat constructor.
Defined.

Lemma wrapped_files_same_as_plain_witness :
  Assets.get_asset_files_list AssetFixtures.loads AssetFixtures.do_decrypt
    AssetFixtures.wrapped_asset
  = Assets.get_asset_files_list AssetFixtures.loads AssetFixtures.do_decrypt
      AssetFixtures.asset.
Proof.
  pose proof (wrapped_files_same_as_plain AssetFixtures.loads
                AssetFixtures.do_decrypt AssetFixtures.wrapped_asset eq_refl)
    as (H & _).
  exact (H {[ "encryptedDocument"%string := JStr "0xcipher" ]}
           "0xcipher"%string eq_refl eq_refl eq_refl).
Defined.

(** ** Order validation and compute info *)

Section OrderFacts.
Context {T : Type}.
Context (verify_order_tx : nat -> exn + T).

(** X20. [validate_order] checks the order at most three times.  It
    tries again only after a [ConnectionClosed]; the outcome is that of
    the last attempt made: the first result, the first other exception,
    or the third [ConnectionClosed].  It never returns [None]: the end of
    the loop is not reached. *)
Theorem validate_order_retries :
  let out := Orders.validate_order verify_order_tx None in
  exists n : nat,
    out.2 = n /\ (1 <= n <= 3)%nat
    /\ out.1 = match verify_order_tx (n - 1) with
               | inl e => inl e
               | inr r => inr (Some r)
               end
    /\ (forall k, (k < n - 1)%nat ->
                  verify_order_tx k = inl Py.ConnectionClosed)
    /\ ((n < 3)%nat -> verify_order_tx (n - 1) <> inl Py.ConnectionClosed)
    /\ out.1 <> inr None.
Proof.
  cbv zeta. unfold Orders.validate_order.
  cbn [Orders.validate_order_loop Nat.sub Nat.eqb].
  unfold Py.is_ConnectionClosed.
  destruct (verify_order_tx 0) as [e0|r0] eqn:H0.
  2:{ exists 1%nat. cbn [fst snd Nat.sub]. rewrite H0.
      repeat split; try lia; discriminate. }
  case_bool_decide as He0.
  2:{ exists 1%nat. cbn [fst snd Nat.sub]. rewrite H0.
      repeat split; try lia; try discriminate.
      intros _ [= ->]. contradiction. }
  subst e0.
  assert (Hfirst : forall k, (k < 1)%nat ->
                             verify_order_tx k = inl Py.ConnectionClosed).
  { intros k Hk. assert (k = 0)%nat as -> by lia. exact H0. }
  destruct (verify_order_tx 1) as [e1|r1] eqn:H1.
  2:{ exists 2%nat. cbn [fst snd Nat.sub]. rewrite H1.
      repeat split; try lia; try discriminate; exact Hfirst. }
  case_bool_decide as He1.
  2:{ exists 2%nat. cbn [fst snd Nat.sub]. rewrite H1.
      repeat split; try lia; try discriminate; try exact Hfirst.
      intros _ [= ->]. contradiction. }
  subst e1.
  assert (Hbefore : forall k, (k < 2)%nat ->
                              verify_order_tx k = inl Py.ConnectionClosed).
  { intros k Hk. assert (k = 0 \/ k = 1)%nat as [-> | ->] by lia;
      assumption. }
  destruct (verify_order_tx 2) as [e2|r2] eqn:H2.
  2:{ exists 3%nat. cbn [fst snd Nat.sub]. rewrite H2.
      repeat split; try lia; try discriminate; exact Hbefore. }
  exists 3%nat.
  destruct (bool_decide (e2 = Py.ConnectionClosed));
    cbn [fst snd Nat.sub]; rewrite H2;
    repeat split; try lia; try discriminate; exact Hbefore.
Qed.

End OrderFacts.

Section ComputeInfoFacts.
Context (E : Env).

(** X21. [get_compute_info] never raises and leaves the nonces alone: it
    issues one GET to the operator service and answers with a pair.  The
    pair is [(None, None)] unless the service answered, with whatever
    status, a JSON object; then it is the [address] of the object and a
    dictionary of exactly its [algoTimeLimit] and [storageExpiry], each
    [None] when the object lacks it. *)
Theorem get_compute_info_never_raises (w : World) :
  let req := ComputeInfo.compute_info_request E in
  exists info,
    ComputeInfo.get_compute_info E w = (Ret info, logged [req] w)
    /\ info
       = match http_send E (http_log w) req with
         | HttpOk response =>
             match json_loads E (content response) with
             | Some (JDict compute_info) =>
                 (default JNull (compute_info !! "address"%string),
                  JDict {[ "algoTimeLimit"%string :=
                             default JNull
                               (compute_info !! "algoTimeLimit"%string);
                           "storageExpiry"%string :=
                             default JNull
                               (compute_info !! "storageExpiry"%string) ]})
             | _ => (JNull, JNull)
             end
         | HttpRaise _ => (JNull, JNull)
         end
    /\ url req = operator_service_url (config E)
    /\ method req = "get"%string.
Proof.
  cbv zeta. unfold ComputeInfo.get_compute_info, try_except,
    ComputeInfo.get_compute_info_try, bind.
  rewrite send_eq.
  destruct (http_send E (http_log w) (ComputeInfo.compute_info_request E))
    as [response|e]; [|eexists; split; [reflexivity | auto]].
  destruct (json_loads E (content response)) as [[| | | | |compute_info]|];
    eexists; (split; [reflexivity | auto]).
Qed.

End ComputeInfoFacts.

Lemma validate_order_retries_witness :
  let verify := fun k : nat =>
    if (k <? 2)%nat then inl Py.ConnectionClosed else inr k in
  exists n : nat,
    (Orders.validate_order verify None).2 = n /\ (1 <= n <= 3)%nat
    /\ (Orders.validate_order verify None).1
       = match verify (n - 1)%nat with
         | inl e => inl e
         | inr r => inr (Some r)
         end
    /\ (forall k, (k < n - 1)%nat -> verify k = inl Py.ConnectionClosed)
    /\ ((n < 3)%nat -> verify (n - 1)%nat <> inl Py.ConnectionClosed)
    /\ (Orders.validate_order verify None).1 <> inr None.
Proof.
  exact (validate_order_retries
           (fun k : nat =>
              if (k <? 2)%nat then inl Py.ConnectionClosed else inr k)).
Defined.

(** ** The provider behind a URL *)

Section SameProviderFacts.
Context (E : Env).
Context (provider_info : string -> exn + json).

(** X22. [is_this_same_provider] asks the root of the URL, scheme and
    network location without the path, for its provider info.  It
    answers [True] only when that info is an object whose
    [providerAddress] is a text equal to the address of this provider up
    to letter case.  When the request raises a [RequestException] or a
    [KeyError], or the info has no [providerAddress], the answer is
    [None], not [False], and nothing is raised. *)
Theorem same_provider_needs_matching_address (url : string) :
  (SameProvider.is_this_same_provider E provider_info url = inr (JBool true) ->
   exists result d address,
     Urllib.urlparse url = Some result
     /\ provider_info (Urllib.scheme result +:+ "://"
                       +:+ Urllib.netloc result +:+ "/")
        = inr (JDict d)
     /\ d !! "providerAddress"%string = Some (JStr address)
     /\ PyStr.lower address = PyStr.lower (provider_address E))
  /\ (forall result,
         Urllib.urlparse url = Some result ->
         let root := Urllib.scheme result +:+ "://"
                     +:+ Urllib.netloc result +:+ "/" in
         (forall e, provider_info root = inl e ->
                    SameProvider.is_caught e = true ->
                    SameProvider.is_this_same_provider E provider_info url
                    = inr JNull)
         /\ (forall d, provider_info root = inr (JDict d) ->
                       d !! "providerAddress"%string = None ->
                       SameProvider.is_this_same_provider E provider_info url
                       = inr JNull)
         /\ (forall d address,
                provider_info root = inr (JDict d) ->
                d !! "providerAddress"%string = Some (JStr address) ->
                address <> EmptyString ->
                SameProvider.is_this_same_provider E provider_info url
                = inr (JBool (String.eqb (PyStr.lower address)
                                (PyStr.lower (provider_address E)))))).
Proof.
  unfold SameProvider.is_this_same_provider. split.
  - destruct (Urllib.urlparse url) as [result|]; [|discriminate].
    cbv zeta. unfold SameProvider.provider_address_at.
    destruct (provider_info _) as [e|[| | | | |d]] eqn:Hinfo;
      try discriminate.
    + destruct (SameProvider.is_caught e); discriminate.
    + cbn [Py.and_then].
      destruct (d !! "providerAddress"%string) as [address|] eqn:Hd;
        [|discriminate].
      cbn [default from_option id].
      destruct address as [|b|n|a|l|d']; cbn [Py.json_truthy];
        try discriminate.
      * destruct b; discriminate.
      * destruct (negb (n =? 0)); discriminate.
      * destruct (PyStr.truthy a); [|discriminate].
        intros [= Heq]. apply String.eqb_eq in Heq.
        exists result, d, a. auto.
      * destruct l; discriminate.
      * destruct (negb _); discriminate.
  - intros result ->. cbv zeta. unfold SameProvider.provider_address_at.
    split; [|split].
    + intros e -> ->. reflexivity.
    + intros d -> ->. reflexivity.
    + intros d address -> -> Hne. cbn [Py.and_then default from_option id].
      cbn [Py.json_truthy]. destruct address; [congruence|]. reflexivity.
Qed.

End SameProviderFacts.

Lemma same_provider_needs_matching_address_witness :
  SameProvider.is_this_same_provider (Sample.env false)
    (fun root =>
       if String.eqb root "http://example.com/"
       then inr (JDict {[ "providerAddress"%string := JStr "0xPROVIDER" ]})
       else inl (RequestException "connection refused"))
    "http://example.com/api/v1/services/download?x=1"
  = inr (JBool true).
Proof.
  pose proof (same_provider_needs_matching_address (Sample.env false)
                (fun root =>
                   if String.eqb root "http://example.com/"
                   then inr (JDict {[ "providerAddress"%string :=
                                        JStr "0xPROVIDER" ]})
                   else inl (RequestException "connection refused"))
                "http://example.com/api/v1/services/download?x=1")
    as (_ & H).
  destruct (H {| Urllib.scheme := "http"; Urllib.netloc := "example.com" |}
              eq_refl) as (_ & _ & Hmatch).
  exact (Hmatch {[ "providerAddress"%string := JStr "0xPROVIDER" ]}
           "0xPROVIDER"%string eq_refl eq_refl ltac:(discriminate)).
Defined.

(** ** The routes *)

Section EncryptFacts.
Context (E : Env).
Context (loads : string -> option json).
Context (dumps_compact : json -> string).
Context (do_encrypt : string -> exn + json).

Lemma encrypt_eq (request : FlaskRequest) (w : World) :
  let data := Util.get_request_data request in
  Encrypt.encrypt E loads dumps_compact do_encrypt request w
  = match Encrypt.normalise_document loads dumps_compact
            (data !! "document"%string) with
    | inl e => (Raise e, w)
    | inr document =>
        match do_encrypt document with
        | inl e =>
            (Ret (Util.service_unavailable e (Encrypt.encrypt_context E data)),
             w)
        | inr encrypted =>
            (Ret {| resp_body :=
                      JsonDumps (JDict {[ "encryptedDocument"%string :=
                                            encrypted ]});
                    resp_status := 201;
                    resp_headers := Routes.json_headers;
                    resp_content_type := None |},
             bumped (data !! "publisherAddress"%string) w)
        end
    end.
Proof.
  cbv zeta. unfold Encrypt.encrypt, bind, try_except.
  destruct (Encrypt.normalise_document loads dumps_compact _)
    as [e|document]; [reflexivity|].
  cbn [Routes.of_sum ret].
  destruct (do_encrypt document) as [e|encrypted]; reflexivity.
Qed.

(** X23. [encrypt] issues no upstream request and advances the nonce of
    the publisher exactly when it answers 201, which it does when the
    document decodes and the encryption of its compact form returns; a
    failing encryption is answered 503 with the nonces unchanged.  A
    missing or undecodable document is not answered at all: the exception
    is raised outside the [try], with nothing changed. *)
Theorem encrypt_nonce_iff_created (request : FlaskRequest) (w : World) :
  let data := Util.get_request_data request in
  let publisher := data !! "publisherAddress"%string in
  let out := Encrypt.encrypt E loads dumps_compact do_encrypt request w in
  http_log out.2 = http_log w
  /\ (forall answer,
         out.1 = Ret answer ->
         (resp_status answer = 201 /\ out.2 = bumped publisher w
          /\ exists text v encrypted,
              data !! "document"%string = Some text
              /\ loads text = Some v
              /\ do_encrypt (dumps_compact v) = inr encrypted
              /\ resp_body answer
                 = JsonDumps (JDict {[ "encryptedDocument"%string :=
                                         encrypted ]}))
         \/ (resp_status answer = 503 /\ out.2 = w
             /\ exists document e,
                 Encrypt.normalise_document loads dumps_compact
                   (data !! "document"%string) = inr document
                 /\ do_encrypt document = inl e))
  /\ (forall e,
         out.1 = Raise e ->
         out.2 = w
         /\ Encrypt.normalise_document loads dumps_compact
              (data !! "document"%string) = inl e).
Proof.
  cbv zeta. rewrite encrypt_eq. cbv zeta.
  destruct (Encrypt.normalise_document loads dumps_compact
              (Util.get_request_data request !! "document"%string))
    as [e|document] eqn:Hdoc.
  { split; [reflexivity|]. split; [discriminate|].
    intros e' [= <-]. auto. }
  destruct (do_encrypt document) as [e|encrypted] eqn:Henc.
  - split; [reflexivity|]. split; [|discriminate].
    intros answer [= <-]. right. split; [reflexivity|].
    split; [reflexivity|]. eauto.
  - split; [reflexivity|]. split; [|discriminate].
    intros answer [= <-]. left. split; [reflexivity|].
    split; [reflexivity|].
    unfold Encrypt.normalise_document in Hdoc.
    destruct (Util.get_request_data request !! "document"%string)
      as [text|]; [|discriminate].
    destruct (loads text) as [v|] eqn:Hl; [|discriminate].
    injection Hdoc as <-. exists text, v, encrypted. auto.
Qed.

End EncryptFacts.

Lemma encrypt_nonce_iff_created_witness :
  (Encrypt.encrypt (Sample.env false) (fun _ => None) (fun _ => EmptyString)
     (fun _ => inl (OtherException "no key"))
     Sample.plain_request Sample.world0).2
  = Sample.world0
  /\ Encrypt.normalise_document (fun _ => None) (fun _ => EmptyString)
       (Util.get_request_data Sample.plain_request !! "document"%string)
     = inl (TypeError "the JSON object must be str, bytes or bytearray").
Proof.
  pose proof (encrypt_nonce_iff_created (Sample.env false) (fun _ => None)
                (fun _ => EmptyString)
                (fun _ => inl (OtherException "no key"))
                Sample.plain_request Sample.world0) as (_ & _ & H).
  exact (H (TypeError "the JSON object must be str, bytes or bytearray")
           eq_refl).
Defined.

Section ComputeRouteFacts.
Context (E : Env).


(** X26. A status request whose signature verifies is answered with the
    upstream answer as it is, status and bytes, whether or not the bytes
    are JSON, and the nonce of the consumer advances.  Without a valid
    signature the upstream bytes must decode: when they do not, the
    answer is 503 although the operator service was called. *)
Theorem signed_status_relayed_raw (request : FlaskRequest) (w : World)
    (response : Response) :
  let data := Util.get_request_data request in
  let owner := data !! "consumerAddress"%string in
  let req :=
    Routes.operator_request E "get" (Util.process_compute_request E data) in
  let verdict :=
    verify_signature_check E owner (data !! "signature"%string)
      (Routes.fmt owner +:+ Routes.fmt (data !! "jobId"%string)
       +:+ Routes.fmt (data !! "documentId"%string))
      (default 0 (nonces w !! owner)) in
  http_send E (http_log w) req = HttpOk response ->
  (PyStr.truthy_opt (data !! "signature"%string) = true ->
   verdict = None ->
   Routes.computeStatus E request w
   = (Ret (Routes.relay response), bumped owner (logged [req] w)))
  /\ (PyStr.truthy_opt (data !! "signature"%string) = false ->
      json_loads E (content response) = None ->
      exists answer,
        Routes.computeStatus E request w = (Ret answer, logged [req] w)
        /\ resp_status answer = 503).
Proof.
  cbv zeta. intros Hsend.
  set (data := Util.get_request_data request) in *.
  set (req := Routes.operator_request E "get"
                (Util.process_compute_request E data)) in *.
  pose proof (check_signed_eq E data (logged [req] w)) as Hcs.
  split.
  - intros Hsig Hverdict. rewrite Hsig in Hcs.
    cbn [logged nonces] in Hcs. rewrite Hverdict in Hcs.
    unfold Routes.computeStatus, try_except, Routes.computeStatus_try.
    fold data. fold req. unfold bind at 1. rewrite send_eq, Hsend.
    unfold bind at 1. rewrite Hcs. reflexivity.
  - intros Hsig Hjson. rewrite Hsig in Hcs.
    unfold Routes.computeStatus, try_except, Routes.computeStatus_try.
    fold data. fold req. unfold bind at 1. rewrite send_eq, Hsend.
    unfold bind at 1. rewrite Hcs. cbn [negb]. rewrite Hjson.
    eexists. split; reflexivity.
Qed.

End ComputeRouteFacts.


Lemma signed_status_relayed_raw_witness :
  Routes.computeStatus (Sample.env false) Sample.status_signed Sample.world0
  = (Ret (Routes.relay (Sample.plain 200 ∅ "[jobs]")),
     bumped (Some "0xabc"%string)
       (logged [Routes.operator_request (Sample.env false) "get"
                  (Util.process_compute_request (Sample.env false)
                     (Util.get_request_data Sample.status_signed))]
          Sample.world0)).
Proof.
  pose proof (signed_status_relayed_raw (Sample.env false)
                Sample.status_signed Sample.world0
                (Sample.plain 200 ∅ "[jobs]") eq_refl) as (H & _).
  exact (H eq_refl eq_refl).
Defined.

Section FileinfoFacts.
Context (E : Env).

Lemma check_url_details_keys (url : string) (with_checksum valid : bool)
    (details : gmap string string) (w w' : World) :
  Url.check_url_details E url with_checksum w = (Ret (valid, details), w') ->
  details !! "index"%string = None /\ details !! "valid"%string = None
  /\ (valid = false -> details = ∅).
Proof.
  rewrite check_url_details_eq.
  destruct (Url.is_safe_url E url);
    [|intros [= <- <- <-]; rewrite !lookup_empty; auto].
  destruct (Url._get_result_from_url E url with_checksum w)
    as [[[result extra]|e0] w0] eqn:Hr.
  2:{ destruct (is_RequestException e0); [|discriminate].
      intros [= <- <- <-]. rewrite !lookup_empty. auto. }
  destruct (Url.describe result extra) as [[valid' d]|] eqn:Hd;
    cbn [default from_option id].
  2:{ intros [= <- <- <-]. rewrite !lookup_empty. auto. }
  intros [= <- <- <-].
  pose proof (get_result_extra E _ _ _ _ _ _ Hr) as Hextra.
  assert (Hct : extra !! "contentType"%string = None
                /\ extra !! "contentLength"%string = None
                /\ extra !! "index"%string = None
                /\ extra !! "valid"%string = None).
  { rewrite Hextra. destruct with_checksum; [|rewrite !lookup_empty; auto].
    unfold checksum_entries. repeat split; simplify_map_eq; reflexivity. }
  destruct Hct as (Hc1 & Hc2 & Hc3 & Hc4).
  destruct (describe_Some result extra d valid' Hd Hc1 Hc2)
    as (-> & _ & Hother & _).
  rewrite !Hother by discriminate. split; [exact Hc3|].
  split; [exact Hc4 | discriminate].
Qed.

(** X27. When the loop of [fileinfo] returns, its list has one entry per
    URL, in the order of the URLs: the entry of the URL at position [k]
    is a dictionary whose [index] is [k] (counted from the start value)
    and whose [valid] is a boolean, neither being overwritten by the
    details of the URL; the entry of an invalid URL holds nothing else. *)
Theorem fileinfo_entries_follow_urls (url_list : list string) :
  forall (i : Z) (with_checksum : bool) (w w' : World) (infos : list json),
    Routes.fileinfo_loop E i url_list with_checksum w = (Ret infos, w') ->
    length infos = length url_list
    /\ forall k url,
        url_list !! k = Some url ->
        exists d valid,
          infos !! k = Some (JDict d)
          /\ d !! "index"%string = Some (JNum (i + Z.of_nat k))
          /\ d !! "valid"%string = Some (JBool valid)
          /\ (valid = false ->
              d = {[ "index"%string := JNum (i + Z.of_nat k);
                     "valid"%string := JBool false ]}).
Proof.
  induction url_list as [|url rest IH]; intros i with_checksum w w' infos.
  - intros [= <- <-]. split; [reflexivity|]. intros k url Hk.
    rewrite lookup_nil in Hk. discriminate.
  - cbn [Routes.fileinfo_loop]. unfold bind at 1.
    destruct (Url.check_url_details E url with_checksum w)
      as [[[valid details]|e] w1] eqn:Hc; [|discriminate].
    unfold bind at 1.
    destruct (Routes.fileinfo_loop E (i + 1) rest with_checksum w1)
      as [[infos'|e] w2] eqn:Hrest; [|discriminate].
    intros [= <- <-].
    destruct (IH _ _ _ _ _ Hrest) as [Hlen Hentries].
    destruct (check_url_details_keys _ _ _ _ _ _ Hc) as (Hi & Hv & Hempty).
    split; [cbn [length]; congruence|].
    intros [|k] url' Hk.
    + exists ((JStr <$> details)
              ∪ {[ "index"%string := JNum i; "valid"%string := JBool valid ]}),
        valid.
      rewrite Z.add_0_r. split; [reflexivity|].
      split; [|split].
      * rewrite lookup_union_r by (rewrite lookup_fmap, Hi; reflexivity).
        simplify_map_eq. reflexivity.
      * rewrite lookup_union_r by (rewrite lookup_fmap, Hv; reflexivity).
        simplify_map_eq. reflexivity.
      * intros ->. rewrite (Hempty eq_refl), fmap_empty.
        apply (left_id ∅ (∪)).
    + cbn in Hk. destruct (Hentries k url' Hk) as (d & valid' & Hd).
      exists d, valid'.
      replace (i + Z.of_nat (S k)) with (i + 1 + Z.of_nat k) by lia.
      exact Hd.
Qed.

End FileinfoFacts.

Lemma fileinfo_entries_follow_urls_witness :
  length [JDict {[ "index"%string := JNum 0;
                   "valid"%string := JBool false ]};
          JDict {[ "index"%string := JNum 1;
                   "valid"%string := JBool false ]}]
  = length ["http://intranet.test/x"%string; "http://8.8.8.8/"%string].
Proof.
  pose proof (fileinfo_entries_follow_urls (Sample.env false)
                ["http://intranet.test/x"%string; "http://8.8.8.8/"%string]
                0 false Sample.world0 Sample.world0
                [JDict {[ "index"%string := JNum 0;
                          "valid"%string := JBool false ]};
                 JDict {[ "index"%string := JNum 1;
                          "valid"%string := JBool false ]}]) as H.
  apply H. vm_compute. reflexivity.
Defined.

Section StartFacts.
Context (E : Env).
Context (validate_workflow : gmap string string -> exn + Start.Validation).



End StartFacts.


Section UserdataFacts.
Context (loads : string -> option json).
Context (prepare_url : string -> json -> exn + string).

(** X29. [append_userdata] returns the URL unchanged when the data has
    no userdata, the userdata is empty or false, or it is a text that
    does not decode; it never raises for an undecodable text.  A
    non-empty dictionary and a text that decodes to it give the same
    result, the URL prepared with the dictionary as parameters. *)
Theorem append_userdata_only_decodable (url : string)
    (data : gmap string json) (key : string) :
  (Py.json_truthy (default JNull (data !! key)) = false ->
   Userdata.append_userdata loads prepare_url url data key = inr url)
  /\ (forall text,
         data !! key = Some (JStr text) -> loads text = None ->
         Userdata.append_userdata loads prepare_url url data key = inr url)
  /\ (forall text d,
         text <> EmptyString -> d <> ∅ -> loads text = Some (JDict d) ->
         Userdata.append_userdata loads prepare_url url
           (<[key := JStr text]> data) key
         = Userdata.append_userdata loads prepare_url url
             (<[key := JDict d]> data) key
         /\ Userdata.append_userdata loads prepare_url url
              (<[key := JDict d]> data) key
            = prepare_url url (JDict d)).
Proof.
  unfold Userdata.append_userdata. cbv zeta. split; [|split].
  - intros ->. reflexivity.
  - intros text -> Hl. cbn [default from_option id Py.json_truthy].
    destruct (PyStr.truthy text); [|reflexivity].
    cbn [negb]. rewrite Hl. reflexivity.
  - intros text d Hne Hd Hl. rewrite !lookup_insert_eq.
    cbn [default from_option id Py.json_truthy].
    destruct text; [congruence|]. cbn [PyStr.truthy negb].
    rewrite Hl, bool_decide_eq_false_2 by exact Hd. auto.
Qed.

End UserdataFacts.

Lemma append_userdata_only_decodable_witness :
  Userdata.append_userdata (fun _ => None) (fun u _ => inr u)
    "http://example.com/hello" {[ "userdata"%string := JStr "not json" ]}
    "userdata"
  = inr "http://example.com/hello"%string.
Proof.
  pose proof (append_userdata_only_decodable (fun _ => None)
                (fun u _ => inr u) "http://example.com/hello"
                {[ "userdata"%string := JStr "not json" ]}
                "userdata"%string) as (_ & H & _).
  exact (H "not json"%string eq_refl eq_refl).
Defined.
